(** * om-txt-reader: document session and sidecar persistence

    A shallow embedding of [src/bookConfig.ts] (class [BookConfigManager]) and
    of the reader session in [src/extension.ts] (class [TxtReaderProvider]),
    together with the parts of the JavaScript runtime they call: strings as
    sequences of UTF-16 code units, numbers as IEEE 754 doubles, Node's POSIX
    [path] functions, a fragment of [RegExp], timers and the files on disk. *)

From Stdlib Require Import ZArith NArith List String Ascii Lia Bool Permutation Sorted.
From Stdlib Require Import SpecFloat.
From stdpp Require Import gmap list fin_maps.
Import ListNotations.

Local Open Scope Z_scope.

(** ** JavaScript strings *)

(** A JavaScript string is a finite sequence of UTF-16 code units. *)
Abbreviation jsstring := (list N).

Module JS.

(** Code points of a UTF-8 byte sequence; used only to write literals. A
    malformed sequence decodes to U+FFFD, one byte at a time. *)
Fixpoint utf8_points (bs : list N) : list N :=
  match bs with
  | [] => []
  | b0 :: r0 =>
    if (b0 <? 128)%N then b0 :: utf8_points r0
    else match r0 with
    | b1 :: r1 =>
      if ((192 <=? b0) && (b0 <? 224))%N
      then ((b0 - 192) * 64 + (b1 - 128))%N :: utf8_points r1
      else match r1 with
      | b2 :: r2 =>
        if ((224 <=? b0) && (b0 <? 240))%N
        then ((b0 - 224) * 4096 + (b1 - 128) * 64 + (b2 - 128))%N :: utf8_points r2
        else match r2 with
        | b3 :: r3 =>
          if (240 <=? b0)%N
          then ((b0 - 240) * 262144 + (b1 - 128) * 4096 + (b2 - 128) * 64 + (b3 - 128))%N
               :: utf8_points r3
          else 65533%N :: utf8_points r0
        | [] => 65533%N :: utf8_points r0
        end
      | [] => 65533%N :: utf8_points r0
      end
    | [] => [65533%N]
    end
  end.

(** UTF-16 encoding of one code point. *)
Definition utf16_units (cp : N) : list N :=
  if (cp <? 65536)%N then [cp]
  else [(55296 + (cp - 65536) / 1024)%N; (56320 + (cp - 65536) mod 1024)%N].

(** The JavaScript string denoted by a literal of this file. *)
Definition lit (s : string) : jsstring :=
  flat_map utf16_units (utf8_points (map N_of_ascii (list_ascii_of_string s))).

(** [WhiteSpace] and [LineTerminator] code units: the set removed by
    [String.prototype.trim] and matched by [\s]. *)
Definition isWhiteSpace (c : N) : bool :=
  ((9 <=? c) && (c <=? 13) || (c =? 32) || (c =? 160) || (c =? 5760)
   || (8192 <=? c) && (c <=? 8202) || (c =? 8232) || (c =? 8233)
   || (c =? 8239) || (c =? 8287) || (c =? 12288) || (c =? 65279))%N.

Fixpoint trimStart (s : jsstring) : jsstring :=
  match s with
  | c :: s' => if isWhiteSpace c then trimStart s' else s
  | [] => []
  end.

Definition trimEnd (s : jsstring) : jsstring := rev (trimStart (rev s)).

(** [s.trim()] *)
Definition trim (s : jsstring) : jsstring := trimEnd (trimStart s).

(** [s.startsWith(t)] *)
Fixpoint startsWith (s t : jsstring) : bool :=
  match t, s with
  | [], _ => true
  | d :: t', c :: s' => (c =? d)%N && startsWith s' t'
  | _ :: _, [] => false
  end.

(** [s.endsWith(t)] *)
Definition endsWith (s t : jsstring) : bool := startsWith (rev s) (rev t).

(** [s.includes(t)]: [t] occurs in [s] as a contiguous run of code units. *)
Fixpoint includes (s t : jsstring) : bool :=
  startsWith s t ||
  match s with
  | [] => false
  | _ :: s' => includes s' t
  end.

(** [s.split(sep)] for a one-unit separator: never empty, [n] separators
    give [n + 1] pieces. *)
Fixpoint split (sep : N) (s : jsstring) : list jsstring :=
  match s with
  | [] => [[]]
  | c :: s' =>
    if (c =? sep)%N then [] :: split sep s'
    else match split sep s' with
         | piece :: rest => (c :: piece) :: rest
         | [] => [[c]]
         end
  end.

(** [s.slice(a, b)] for [0 <= a]. *)
Definition slice (s : jsstring) (a b : Z) : jsstring :=
  firstn (Z.to_nat (b - a)) (skipn (Z.to_nat a) s).

(** Truthiness of an optional string: [undefined] and [''] are falsy. *)
Definition truthy (o : option jsstring) : bool :=
  match o with
  | Some (_ :: _) => true
  | _ => false
  end.

(** *** Numbers

    A number is an IEEE 754 double. The numbers the reader computes with are
    line indices, line counts and steps, which are integers: a double whose
    value is an integer is written as that integer, and the two infinities as
    [INFINITY] and [- INFINITY], where [INFINITY] is [2 ^ 1024], the first
    power of two that no double reaches (any integer at least as large in
    magnitude stands for an infinity as well). *)
Definition INFINITY : Z := Eval cbv in 2 ^ 1024.

(** [Number.MAX_SAFE_INTEGER], [2 ^ 53 - 1]; [Number.isSafeInteger] and
    [Number.isFinite] on integers. *)
Definition MAX_SAFE_INTEGER : Z := Eval cbv in 2 ^ 53 - 1.

Definition isSafeInteger (x : Z) : bool := Z.abs x <=? MAX_SAFE_INTEGER.

Definition isFinite (x : Z) : bool := Z.abs x <? INFINITY.

(** The number an exact integer result [z] is rounded to: [z] itself below
    [2 ^ 53]; above, the nearest multiple of the unit in the last of the 53
    places of the significand, the one with the even significand when two are
    equally near; an infinity when that is [2 ^ 1024] or more. *)
Definition toNumber (z : Z) : Z :=
  let a := Z.abs z in
  if a <=? MAX_SAFE_INTEGER then z
  else
    let ulp := 2 ^ (Z.log2 a - 52) in
    let q := a / ulp in
    let r := a mod ulp in
    let q' := if (2 * r <? ulp) || ((2 * r =? ulp) && Z.even q) then q else q + 1 in
    let m := q' * ulp in
    Z.sgn z * (if m <? INFINITY then m else INFINITY).

(** [x + y] and [x - y]. An infinity absorbs a finite number. The sum of
    opposite infinities is not a number and has no value here: [add] gives
    its first operand. *)
Definition add (x y : Z) : Z :=
  if isFinite x then
    if isFinite y then toNumber (x + y) else y
  else x.

Definition sub (x y : Z) : Z := add x (- y).

(** The same rounding through the IEEE 754 model of the Standard Library,
    [SpecFloat], at the precision and exponent range of a double; used to
    check [toNumber] in examples. *)
Definition ofInteger (z : Z) : spec_float := binary_normalize 53 1024 z 0 false.

Definition toInteger (x : spec_float) : option Z :=
  match x with
  | S754_zero _ => Some 0
  | S754_infinity s => Some (if s then - INFINITY else INFINITY)
  | S754_nan => None
  | S754_finite s m e =>
    Some ((if s then -1 else 1)
          * (if 0 <=? e then Z.pos m * 2 ^ e else Z.pos m / 2 ^ (- e)))
  end.

(** [Array.prototype.sort(cmp)]: a stable sort; [cmp a b <= 0] keeps [a]
    before [b]. *)
Section Sort.
Context {A : Type} (cmp : A -> A -> Z).

Fixpoint sort_insert (x : A) (l : list A) : list A :=
  match l with
  | [] => [x]
  | y :: l' => if cmp y x <=? 0 then y :: sort_insert x l' else x :: l
  end.

Definition sort (l : list A) : list A :=
  fold_left (fun acc x => sort_insert x acc) l [].
End Sort.

End JS.

Arguments JS.toNumber : simpl never.
Arguments JS.add : simpl never.
Arguments JS.sub : simpl never.

(** ** Node's [path] module, POSIX flavour *)

Module Path.

Definition SLASH : N := 47.
Definition DOT : N := 46.

(** The backwards scan of [path.dirname]: [cs] holds the code units at
    indices [i], [i - 1], ..., [1]; the result is [end], or [-1]. *)
Fixpoint dirname_loop (cs : list N) (i : Z) (matchedSlash : bool) : Z :=
  match cs with
  | [] => -1
  | code :: cs' =>
    if (code =? SLASH)%N then
      if negb matchedSlash then i
      else dirname_loop cs' (i - 1) matchedSlash
    else dirname_loop cs' (i - 1) false
  end.

(** [path.dirname(path)] *)
Definition dirname (path : jsstring) : jsstring :=
  match path with
  | [] => [DOT]
  | c0 :: rest =>
    let hasRoot := (c0 =? SLASH)%N in
    let end_ := dirname_loop (rev rest) (Z.of_nat (length path) - 1) true in
    if end_ =? -1 then (if hasRoot then [SLASH] else [DOT])
    else if hasRoot && (end_ =? 1) then [SLASH; SLASH]
    else JS.slice path 0 end_
  end.

(** The backwards scan of [path.basename(path)] without a suffix; the result
    is [(start, end)]. *)
Fixpoint basename_loop (cs : list N) (i : Z) (start end_ : Z) (matchedSlash : bool)
  : Z * Z :=
  match cs with
  | [] => (start, end_)
  | code :: cs' =>
    if (code =? SLASH)%N then
      if negb matchedSlash then (i + 1, end_)
      else basename_loop cs' (i - 1) start end_ matchedSlash
    else if end_ =? -1 then basename_loop cs' (i - 1) start (i + 1) false
    else basename_loop cs' (i - 1) start end_ matchedSlash
  end.

(** The backwards scan of [path.basename(path, suffix)]; the result is
    [(start, end, firstNonSlashEnd)]. *)
Fixpoint basename_suffix_loop (suffix : jsstring) (cs : list N) (i : Z)
    (start end_ : Z) (matchedSlash : bool) (extIdx firstNonSlashEnd : Z)
  : Z * Z * Z :=
  match cs with
  | [] => (start, end_, firstNonSlashEnd)
  | code :: cs' =>
    if (code =? SLASH)%N then
      if negb matchedSlash then (i + 1, end_, firstNonSlashEnd)
      else basename_suffix_loop suffix cs' (i - 1)
             start end_ matchedSlash extIdx firstNonSlashEnd
    else
      let matchedSlash' := if firstNonSlashEnd =? -1 then false else matchedSlash in
      let first' := if firstNonSlashEnd =? -1 then i + 1 else firstNonSlashEnd in
      if 0 <=? extIdx then
        if (code =? nth (Z.to_nat extIdx) suffix 0)%N then
          if extIdx - 1 =? -1
          then basename_suffix_loop suffix cs' (i - 1) start i matchedSlash' (-1) first'
          else basename_suffix_loop suffix cs' (i - 1)
                 start end_ matchedSlash' (extIdx - 1) first'
        else basename_suffix_loop suffix cs' (i - 1) start first' matchedSlash' (-1) first'
      else basename_suffix_loop suffix cs' (i - 1) start end_ matchedSlash' extIdx first'
  end.

Definition jsstring_eqb (s t : jsstring) : bool :=
  if decide (s = t) then true else false.

(** [path.basename(path, suffix)]; [suffix = None] is the one-argument call. *)
Definition basename (path : jsstring) (suffix : option jsstring) : jsstring :=
  let len := Z.of_nat (length path) in
  match suffix with
  | Some ((_ :: _) as suffix) =>
    if Z.of_nat (length suffix) <=? len then
      if jsstring_eqb suffix path then []
      else
        let '(start, end_, firstNonSlashEnd) :=
          basename_suffix_loop suffix (rev path) (len - 1)
            0 (-1) true (Z.of_nat (length suffix) - 1) (-1) in
        let end' := if start =? end_ then firstNonSlashEnd
                    else if end_ =? -1 then len else end_ in
        JS.slice path start end'
    else
      let '(start, end_) := basename_loop (rev path) (len - 1) 0 (-1) true in
      if end_ =? -1 then [] else JS.slice path start end_
  | _ =>
    let '(start, end_) := basename_loop (rev path) (len - 1) 0 (-1) true in
    if end_ =? -1 then [] else JS.slice path start end_
  end.

(** One segment of [normalizeString]: [res] is the stack of kept segments,
    last one first. Empty and [.] segments are dropped; [..] removes the last
    kept segment unless there is none or it is [..] itself, in which case it
    is kept only when the path is relative. *)
Definition normalize_step (allowAboveRoot : bool) (res : list jsstring) (seg : jsstring)
  : list jsstring :=
  if jsstring_eqb seg [] || jsstring_eqb seg [DOT] then res
  else if jsstring_eqb seg [DOT; DOT] then
    match res with
    | last :: res' =>
      if jsstring_eqb last [DOT; DOT]
      then (if allowAboveRoot then seg :: res else res)
      else res'
    | [] => if allowAboveRoot then [seg] else []
    end
  else seg :: res.

(** Segments joined with single separators. *)
Fixpoint join_segments (segs : list jsstring) : jsstring :=
  match segs with
  | [] => []
  | [seg] => seg
  | seg :: segs' => seg ++ SLASH :: join_segments segs'
  end.

Definition normalizeString (path : jsstring) (allowAboveRoot : bool) : jsstring :=
  join_segments (rev (fold_left (normalize_step allowAboveRoot) (JS.split SLASH path) [])).

(** [path.normalize(path)] *)
Definition normalize (path : jsstring) : jsstring :=
  match path with
  | [] => [DOT]
  | c0 :: _ =>
    let isAbsolute := (c0 =? SLASH)%N in
    let trailingSeparator := (List.last path 0 =? SLASH)%N in
    match normalizeString path (negb isAbsolute) with
    | [] => if isAbsolute then [SLASH]
            else if trailingSeparator then [DOT; SLASH] else [DOT]
    | res =>
      let res' := if trailingSeparator then res ++ [SLASH] else res in
      if isAbsolute then SLASH :: res' else res'
    end
  end.

(** [path.join(a, b)] *)
Definition join (a b : jsstring) : jsstring :=
  match a, b with
  | [], [] => [DOT]
  | [], _ => normalize b
  | _, [] => normalize a
  | _, _ => normalize (a ++ SLASH :: b)
  end.

End Path.

(** ** Regular expressions *)

(** What the session asks of the regular-expression engine: [new RegExp(p)]
    either throws a [SyntaxError] ([None]) or yields an object whose [test]
    (no [g] or [y] flag, hence no state) tells whether some part of the
    argument matches. *)
Class RegExpEngine := {
  regexp : Type;
  RegExp_new : jsstring -> option regexp;
  RegExp_test : regexp -> jsstring -> bool
}.

(** A model of the engine for a fragment of the pattern syntax: literals,
    [.], the escapes [\d \D \s \S \w \W \t \n \v \f \r] and escaped
    punctuation, classes with ranges, groups, [|], the assertions [^] and [$],
    and the greedy quantifiers [*], [+] and [?]. *)
Module RegExp.

Inductive ClassItem :=
| Range (lo hi : N)
| Digit (negated : bool)
| Space (negated : bool)
| Word (negated : bool).

Inductive Node :=
| Empty
| Char (c : N)
| Dot
| Class (negated : bool) (items : list ClassItem)
| AssertStart
| AssertEnd
| Seq (a b : Node)
| Alt (a b : Node)
| Star (a : Node)
| Plus (a : Node)
| Opt (a : Node).

Definition isSyntaxCharacter (c : N) : bool :=
  existsb (N.eqb c) (JS.lit "^$\.*+?()[]{}|").

(** The item denoted by the escape [\c], if [c] is a class escape. *)
Definition classEscape (c : N) : option ClassItem :=
  if (c =? 100)%N then Some (Digit false)
  else if (c =? 68)%N then Some (Digit true)
  else if (c =? 115)%N then Some (Space false)
  else if (c =? 83)%N then Some (Space true)
  else if (c =? 119)%N then Some (Word false)
  else if (c =? 87)%N then Some (Word true)
  else None.

(** The code unit denoted by the escape [\c], if [c] is a control escape or
    escaped punctuation. *)
Definition charEscape (c : N) : option N :=
  if (c =? 116)%N then Some 9%N
  else if (c =? 110)%N then Some 10%N
  else if (c =? 118)%N then Some 11%N
  else if (c =? 102)%N then Some 12%N
  else if (c =? 114)%N then Some 13%N
  else if isSyntaxCharacter c || (c =? 47)%N || (c =? 45)%N then Some c
  else None.

(** One atom of a class: a code unit or a class escape. *)
Definition classAtom (s : jsstring) : option ((N + ClassItem) * jsstring) :=
  match s with
  | 92%N :: c :: rest =>
    match classEscape c with
    | Some item => Some (inr item, rest)
    | None =>
      match charEscape c with
      | Some c' => Some (inl c', rest)
      | None => None
      end
    end
  | c :: rest => if (c =? 93)%N then None else Some (inl c, rest)
  | [] => None
  end.

(** The items of a class up to its closing bracket. *)
Fixpoint classItems (fuel : nat) (s : jsstring) (acc : list ClassItem)
  : option (list ClassItem * jsstring) :=
  match fuel with
  | O => None
  | S fuel' =>
    match s with
    | 93%N :: rest => Some (rev acc, rest)
    | _ =>
      match classAtom s with
      | Some (inl lo, 45%N :: rest1) =>
        match rest1 with
        | 93%N :: _ => classItems fuel' (45%N :: rest1) (Range lo lo :: acc)
        | _ =>
          match classAtom rest1 with
          | Some (inl hi, rest2) =>
            if (lo <=? hi)%N then classItems fuel' rest2 (Range lo hi :: acc) else None
          | _ => None
          end
        end
      | Some (inl c, rest) => classItems fuel' rest (Range c c :: acc)
      | Some (inr item, rest) => classItems fuel' rest (item :: acc)
      | None => None
      end
    end
  end.

Definition quantified (a : Node) (s : jsstring) : Node * jsstring :=
  match s with
  | 42%N :: rest => (Star a, rest)
  | 43%N :: rest => (Plus a, rest)
  | 63%N :: rest => (Opt a, rest)
  | _ => (a, s)
  end.

(** Recursive descent over [Disjunction], [Alternative] and [Term]. *)
Fixpoint disjunction (fuel : nat) (s : jsstring) : option (Node * jsstring) :=
  match fuel with
  | O => None
  | S fuel' =>
    match alternative fuel' s with
    | Some (a, 124%N :: rest) =>
      match disjunction fuel' rest with
      | Some (b, rest') => Some (Alt a b, rest')
      | None => None
      end
    | r => r
    end
  end
with alternative (fuel : nat) (s : jsstring) : option (Node * jsstring) :=
  match fuel with
  | O => None
  | S fuel' =>
    match s with
    | [] => Some (Empty, [])
    | c :: _ =>
      if (c =? 124)%N || (c =? 41)%N then Some (Empty, s)
      else
        match term fuel' s with
        | Some (t, rest) =>
          match alternative fuel' rest with
          | Some (Empty, rest') => Some (t, rest')
          | Some (a, rest') => Some (Seq t a, rest')
          | None => None
          end
        | None => None
        end
    end
  end
with term (fuel : nat) (s : jsstring) : option (Node * jsstring) :=
  match fuel with
  | O => None
  | S fuel' =>
    match s with
    | [] => None
    | 94%N :: rest => Some (AssertStart, rest)
    | 36%N :: rest => Some (AssertEnd, rest)
    | 46%N :: rest => Some (quantified Dot rest)
    | 40%N :: rest =>
      match disjunction fuel' rest with
      | Some (a, 41%N :: rest') => Some (quantified a rest')
      | _ => None
      end
    | 91%N :: 94%N :: rest =>
      match classItems (S (length rest)) rest [] with
      | Some (items, rest') => Some (quantified (Class true items) rest')
      | None => None
      end
    | 91%N :: rest =>
      match classItems (S (length rest)) rest [] with
      | Some (items, rest') => Some (quantified (Class false items) rest')
      | None => None
      end
    | 92%N :: c :: rest =>
      match classEscape c with
      | Some item => Some (quantified (Class false [item]) rest)
      | None =>
        match charEscape c with
        | Some c' => Some (quantified (Char c') rest)
        | None => None
        end
      end
    | c :: rest =>
      if isSyntaxCharacter c then None else Some (quantified (Char c) rest)
    end
  end.

(** [new RegExp(pattern)], on the fragment. *)
Definition compile (pattern : jsstring) : option Node :=
  match disjunction (3 * S (length pattern)) pattern with
  | Some (a, []) => Some a
  | _ => None
  end.

Definition isDigit (c : N) : bool := ((48 <=? c) && (c <=? 57))%N.

Definition isWordChar (c : N) : bool :=
  (isDigit c || (65 <=? c) && (c <=? 90) || (97 <=? c) && (c <=? 122) || (c =? 95))%N.

Definition isLineTerminator (c : N) : bool :=
  ((c =? 10) || (c =? 13) || (c =? 8232) || (c =? 8233))%N.

Definition itemMatches (c : N) (item : ClassItem) : bool :=
  match item with
  | Range lo hi => ((lo <=? c) && (c <=? hi))%N
  | Digit negated => xorb negated (isDigit c)
  | Space negated => xorb negated (JS.isWhiteSpace c)
  | Word negated => xorb negated (isWordChar c)
  end.

(** Backtracking matcher in continuation-passing style. [atStart] tells
    whether the current position is the start of the input, [s] is the input
    from the current position on, and [k] is tried at each end of a match. An
    iteration of [*] or [+] that consumes nothing is not repeated. *)
Fixpoint matcher (r : Node) (atStart : bool) (s : jsstring)
    (k : bool -> jsstring -> bool) : bool :=
  match r with
  | Empty => k atStart s
  | Char c =>
    match s with
    | c' :: s' => (c' =? c)%N && k false s'
    | [] => false
    end
  | Dot =>
    match s with
    | c' :: s' => negb (isLineTerminator c') && k false s'
    | [] => false
    end
  | Class negated items =>
    match s with
    | c' :: s' => xorb negated (existsb (itemMatches c') items) && k false s'
    | [] => false
    end
  | AssertStart => atStart && k atStart s
  | AssertEnd =>
    match s with
    | [] => k atStart s
    | _ :: _ => false
    end
  | Seq a b => matcher a atStart s (fun atStart' s' => matcher b atStart' s' k)
  | Alt a b => matcher a atStart s k || matcher b atStart s k
  | Star a =>
    (fix loop (n : nat) (atStart0 : bool) (s0 : jsstring) : bool :=
       match n with
       | O => k atStart0 s0
       | S n' =>
         matcher a atStart0 s0
           (fun atStart' s' =>
              if (length s' <? length s0)%nat then loop n' atStart' s' else false)
         || k atStart0 s0
       end) (length s) atStart s
  | Plus a =>
    matcher a atStart s
      ((fix loop (n : nat) (atStart0 : bool) (s0 : jsstring) : bool :=
         match n with
         | O => k atStart0 s0
         | S n' =>
           matcher a atStart0 s0
             (fun atStart' s' =>
                if (length s' <? length s0)%nat then loop n' atStart' s' else false)
           || k atStart0 s0
         end) (length s))
  | Opt a => matcher a atStart s k || k atStart s
  end.

(** A match starting at the current position or at a later one. *)
Fixpoint search (r : Node) (atStart : bool) (s : jsstring) : bool :=
  matcher r atStart s (fun _ _ => true) ||
  match s with
  | [] => false
  | _ :: s' => search r false s'
  end.

(** [pattern.test(s)] *)
Definition test (r : Node) (s : jsstring) : bool := search r true s.

End RegExp.

#[export] Instance fragment_engine : RegExpEngine := {
  regexp := RegExp.Node;
  RegExp_new := RegExp.compile;
  RegExp_test := RegExp.test
}.

(** ** Sidecar files: [src/bookConfig.ts] *)

(** [interface BookConfig]. [lastReadTime] is the instant, in milliseconds
    since the epoch, that the ISO-8601 string of the source denotes
    ([new Date().toISOString()] writes it, [new Date(s).getTime()] reads it). *)
Record BookConfig := {
  filePath : jsstring;
  fileName : jsstring;
  progress : Z;
  totalLines : Z;
  lastReadTime : Z;
  chapterPattern : option jsstring;
  bookmarks : option (list Z)
}.

(** What a sidecar file holds: the JSON text of a [BookConfig], or text that
    [JSON.parse] rejects. *)
Inductive FileData :=
| Json (config : BookConfig)
| Garbage.

(** The part of [fs.Stats] the code reads. *)
Record Stats := {
  isFile : bool;
  mtime : Z
}.

(** The file system as the code sees it: what the sidecar files hold, by
    path; the result of [stat] by path (absent: [stat] throws); the entries of
    each readable directory, by the path [readdir] is given, in [readdir]
    order; the paths on which [writeFile] throws; those of them on which it
    throws only after it has opened, and so emptied, the file; and the record
    of every [writeFile] call, oldest first. *)
Record Disk := {
  sidecars : gmap jsstring FileData;
  stats : gmap jsstring Stats;
  dirs : gmap jsstring (list jsstring);
  readonly : gset jsstring;
  torn : gset jsstring;
  writeLog : list (jsstring * BookConfig)
}.

Module BookConfigManager.

Definition getConfigPath (txtFilePath : jsstring) : jsstring :=
  let dir := Path.dirname txtFilePath in
  let baseName := Path.basename txtFilePath (Some (JS.lit ".txt")) in
  Path.join dir (baseName ++ JS.lit ".json").

(** A missing file, a read error and a parse error all give [null]. *)
Definition loadConfig (d : Disk) (txtFilePath : jsstring) : option BookConfig :=
  let configPath := getConfigPath txtFilePath in
  match sidecars d !! configPath with
  | Some (Json config) => Some config
  | _ => None
  end.

(** The file at [path] comes to hold [data] at time [now]: from then on
    [stat] finds a regular file there, modified at [now], and [readdir] on its
    directory, when the directory can be read, lists its name. Where a new
    name goes in the [readdir] order is up to the file system; here it goes
    last. *)
Definition store (d : Disk) (now : Z) (path : jsstring) (data : FileData) : Disk :=
  let dir := Path.dirname path in
  let file := Path.basename path None in
  {| sidecars := <[path := data]> (sidecars d);
     stats := <[path := {| isFile := true; mtime := now |}]> (stats d);
     dirs := match dirs d !! dir with
             | Some files =>
               if decide (file ∈ files) then dirs d
               else <[dir := files ++ [file]]> (dirs d)
             | None => dirs d
             end;
     readonly := readonly d; torn := torn d; writeLog := writeLog d |}.

(** [saveConfig(config)], the write taking place at time [now]. The boolean
    is the value the promise resolves to; the error message shown when the
    write fails is left out. A write that fails before the file is opened
    changes nothing; one that fails afterwards leaves a file that
    [JSON.parse] rejects. *)
Definition saveConfig (d : Disk) (now : Z) (config : BookConfig) : Disk * bool :=
  let configPath := getConfigPath (filePath config) in
  let logged :=
    {| sidecars := sidecars d; stats := stats d; dirs := dirs d;
       readonly := readonly d; torn := torn d;
       writeLog := writeLog d ++ [(configPath, config)] |} in
  if decide (configPath ∈ readonly d) then
    if decide (configPath ∈ torn d)
    then (store logged now configPath Garbage, false)
    else (logged, false)
  else (store logged now configPath (Json config), true).

(** The record [updateProgress] hands to [saveConfig]; [now] is the value of
    [new Date()]. *)
Definition updateProgress_config (d : Disk) (now : Z)
    (txtFilePath : jsstring) (progress' totalLines' : Z) : BookConfig :=
  let config :=
    match loadConfig d txtFilePath with
    | Some config => config
    | None => {| filePath := txtFilePath;
                 fileName := Path.basename txtFilePath None;
                 progress := 0;
                 totalLines := totalLines';
                 lastReadTime := now;
                 chapterPattern := None;
                 bookmarks := None |}
    end in
  {| filePath := filePath config;
     fileName := fileName config;
     progress := progress';
     totalLines := totalLines';
     lastReadTime := now;
     chapterPattern := chapterPattern config;
     bookmarks := bookmarks config |}.

Definition updateProgress (d : Disk) (now : Z)
    (txtFilePath : jsstring) (progress' totalLines' : Z) : Disk :=
  fst (saveConfig d now (updateProgress_config d now txtFilePath progress' totalLines')).

(** The record [updateChapterPattern] hands to [saveConfig]; [None] when the
    awaited [stat] of the source file throws, in which case nothing is saved. *)
Definition updateChapterPattern_config (d : Disk) (now : Z)
    (txtFilePath pattern : jsstring) : option BookConfig :=
  match loadConfig d txtFilePath with
  | Some config =>
    Some {| filePath := filePath config;
            fileName := fileName config;
            progress := progress config;
            totalLines := totalLines config;
            lastReadTime := lastReadTime config;
            chapterPattern := Some pattern;
            bookmarks := bookmarks config |}
  | None =>
    match stats d !! txtFilePath with
    | None => None
    | Some _ =>
      Some {| filePath := txtFilePath;
              fileName := Path.basename txtFilePath None;
              progress := 0;
              totalLines := 0;
              lastReadTime := now;
              chapterPattern := Some pattern;
              bookmarks := None |}
    end
  end.

Definition updateChapterPattern (d : Disk) (now : Z)
    (txtFilePath pattern : jsstring) : option Disk :=
  match updateChapterPattern_config d now txtFilePath pattern with
  | Some config => Some (fst (saveConfig d now config))
  | None => None
  end.

(** The loop of [getAllBooksInDirectory] over the directory entries. A [stat]
    that throws leaves the loop through the enclosing [catch], with the books
    pushed so far. *)
Fixpoint collectBooks (d : Disk) (dirPath : jsstring) (files : list jsstring)
    (books : list BookConfig) : list BookConfig :=
  match files with
  | [] => books
  | file :: files' =>
    if JS.endsWith file (JS.lit ".txt") then
      let txtPath := Path.join dirPath file in
      match stats d !! txtPath with
      | None => books
      | Some st =>
        if isFile st then
          let config :=
            match loadConfig d txtPath with
            | Some config => config
            | None => {| filePath := txtPath;
                         fileName := file;
                         progress := 0;
                         totalLines := 0;
                         lastReadTime := mtime st;
                         chapterPattern := None;
                         bookmarks := None |}
            end in
          collectBooks d dirPath files' (books ++ [config])
        else collectBooks d dirPath files' books
      end
    else collectBooks d dirPath files' books
  end.

(** The comparator handed to [books.sort]. *)
Definition byLastReadTime (a b : BookConfig) : Z :=
  lastReadTime b - lastReadTime a.

(** A directory that does not exist, or that [readdir] cannot read, is absent
    from [dirs]. *)
Definition getAllBooksInDirectory (d : Disk) (dirPath : jsstring) : list BookConfig :=
  let books :=
    match dirs d !! dirPath with
    | None => []
    | Some files => collectBooks d dirPath files []
    end in
  JS.sort byLastReadTime books.

(** What [formatLastReadTime] renders: [刚刚]; [n] minutes, hours or days
    ago; or the date of the instant [t] in the [zh-CN] locale. *)
Inductive LastRead :=
| justNow
| minutesAgo (n : Z)
| hoursAgo (n : Z)
| daysAgo (n : Z)
| onDate (t : Z).

(** [formatLastReadTime(isoString)], with [now] the value of [new Date()].
    The quotients of the source are floored quotients of integers. *)
Definition formatLastReadTime (now : Z) (isoString : Z) : LastRead :=
  let diffMs := now - isoString in
  let diffMins := diffMs / 60000 in
  let diffHours := diffMs / 3600000 in
  let diffDays := diffMs / 86400000 in
  if diffMins <? 1 then justNow
  else if diffMins <? 60 then minutesAgo diffMins
  else if diffHours <? 24 then hoursAgo diffHours
  else if diffDays <? 7 then daysAgo diffDays
  else onDate isoString.

End BookConfigManager.

(** ** The reader session: class [TxtReaderProvider] of [src/extension.ts] *)

Record Chapter := {
  name : jsstring;
  line : Z
}.

(** [interface SearchResult]; [hit] is the field [line] of the source. *)
Record SearchResult := {
  hit : Z;
  content : jsstring
}.

(** Messages posted to the webview. *)
Inductive WebviewMessage :=
| initContent (allLines : list jsstring) (currentLine totalLines : Z)
| updateScroll (currentLine : Z)
| updateChapters (chapters : list Chapter)
| searchResults (results : list SearchResult) (searchTerm : jsstring).

(** Messages shown through [vscode.window]: the file cannot be read, the
    search found nothing, the search found [count] lines, the chapter pattern
    does not compile, and [count] chapters were recognised. *)
Inductive Notice :=
| fileReadError
| searchNotFound (searchTerm : jsstring)
| searchFound (count : Z)
| chapterPatternError
| chaptersRecognised (count : Z).

(** The fields of the provider. [panel] tells whether the webview panel is
    defined; [fileUri] is [fileUri.fsPath]; [saveProgressTimer] is the handle
    returned by the last [setTimeout], if any. *)
Record TxtReaderProvider := {
  panel : bool;
  lines : list jsstring;
  currentLine : Z;
  chapters : list Chapter;
  fileUri : jsstring;
  bookConfig : option BookConfig;
  saveProgressTimer : option nat
}.

(** The extension host around the provider: the [aReader] settings, the
    clock in milliseconds, the pending timers as (handle, due time) in creation
    order, the next fresh handle, the disk, and what has been posted to the
    webview and shown to the user, oldest first. *)
Record Host := {
  scrollStep : Z;
  defaultChapterPattern : jsstring;
  clock : Z;
  timers : list (nat * Z);
  nextTimer : nat;
  disk : Disk;
  posted : list WebviewMessage;
  shown : list Notice
}.

Definition set_currentLine (v : Z) (p : TxtReaderProvider) : TxtReaderProvider :=
  {| panel := panel p; lines := lines p; currentLine := v; chapters := chapters p;
     fileUri := fileUri p; bookConfig := bookConfig p;
     saveProgressTimer := saveProgressTimer p |}.

Definition set_chapters (v : list Chapter) (p : TxtReaderProvider) : TxtReaderProvider :=
  {| panel := panel p; lines := lines p; currentLine := currentLine p; chapters := v;
     fileUri := fileUri p; bookConfig := bookConfig p;
     saveProgressTimer := saveProgressTimer p |}.

Definition set_saveProgressTimer (v : option nat) (p : TxtReaderProvider)
  : TxtReaderProvider :=
  {| panel := panel p; lines := lines p; currentLine := currentLine p;
     chapters := chapters p; fileUri := fileUri p; bookConfig := bookConfig p;
     saveProgressTimer := v |}.

Definition set_panel (v : bool) (p : TxtReaderProvider) : TxtReaderProvider :=
  {| panel := v; lines := lines p; currentLine := currentLine p;
     chapters := chapters p; fileUri := fileUri p; bookConfig := bookConfig p;
     saveProgressTimer := saveProgressTimer p |}.

Definition set_clock (v : Z) (h : Host) : Host :=
  {| scrollStep := scrollStep h; defaultChapterPattern := defaultChapterPattern h;
     clock := v; timers := timers h; nextTimer := nextTimer h; disk := disk h;
     posted := posted h; shown := shown h |}.

Definition set_timers (v : list (nat * Z)) (h : Host) : Host :=
  {| scrollStep := scrollStep h; defaultChapterPattern := defaultChapterPattern h;
     clock := clock h; timers := v; nextTimer := nextTimer h; disk := disk h;
     posted := posted h; shown := shown h |}.

Definition set_disk (v : Disk) (h : Host) : Host :=
  {| scrollStep := scrollStep h; defaultChapterPattern := defaultChapterPattern h;
     clock := clock h; timers := timers h; nextTimer := nextTimer h; disk := v;
     posted := posted h; shown := shown h |}.

(** [panel.webview.postMessage(m)] *)
Definition postMessage (m : WebviewMessage) (h : Host) : Host :=
  {| scrollStep := scrollStep h; defaultChapterPattern := defaultChapterPattern h;
     clock := clock h; timers := timers h; nextTimer := nextTimer h; disk := disk h;
     posted := posted h ++ [m]; shown := shown h |}.

(** [vscode.window.showInformationMessage] and [showErrorMessage] *)
Definition showMessage (n : Notice) (h : Host) : Host :=
  {| scrollStep := scrollStep h; defaultChapterPattern := defaultChapterPattern h;
     clock := clock h; timers := timers h; nextTimer := nextTimer h; disk := disk h;
     posted := posted h; shown := shown h ++ [n] |}.

(** [setTimeout(callback, delay)]: the only callback the provider ever
    schedules is [saveProgressNow], so a pending timer is its handle and its
    due time. *)
Definition setTimeout (delay : Z) (h : Host) : nat * Host :=
  (nextTimer h,
   {| scrollStep := scrollStep h; defaultChapterPattern := defaultChapterPattern h;
      clock := clock h; timers := timers h ++ [(nextTimer h, clock h + delay)];
      nextTimer := S (nextTimer h); disk := disk h;
      posted := posted h; shown := shown h |}).

(** [clearTimeout(handle)]: nothing happens when the timer has fired or has
    been cleared before. *)
Definition clearTimeout (handle : nat) (h : Host) : Host :=
  set_timers (List.filter (fun t => negb (Nat.eqb (fst t) handle)) (timers h)) h.

Module TxtReaderProvider.

(** The quiet interval of the debounce, in milliseconds. *)
Definition SAVE_DELAY : Z := 2000.

(** [this.lines.length] *)
Definition linesLength (p : TxtReaderProvider) : Z := Z.of_nat (length (lines p)).

(** The loop of [scanChapters] from index [i] on. *)
Fixpoint scanLines `{RegExpEngine} (pattern : regexp) (ls : list jsstring) (i : Z)
    (chapters : list Chapter) : list Chapter :=
  match ls with
  | [] => chapters
  | l :: ls' =>
    let line := JS.trim l in
    if RegExp_test pattern line
    then scanLines pattern ls' (i + 1) (chapters ++ [{| name := line; line := i |}])
    else scanLines pattern ls' (i + 1) chapters
  end.

Definition scanChapters `{RegExpEngine} (p : TxtReaderProvider) (h : Host)
  : TxtReaderProvider * Host :=
  let own :=
    match bookConfig p with
    | Some config => chapterPattern config
    | None => None
    end in
  let patternStr :=
    if JS.truthy own then default [] own else defaultChapterPattern h in
  match RegExp_new patternStr with
  | Some pattern => (set_chapters (scanLines pattern (lines p) 0 []) p, h)
  | None => (set_chapters [] p, showMessage chapterPatternError h)
  end.

Definition sendChaptersToWebview (p : TxtReaderProvider) (h : Host) : Host :=
  if panel p then postMessage (updateChapters (chapters p)) h else h.

Definition reloadChapters `{RegExpEngine} (p : TxtReaderProvider) (h : Host)
  : TxtReaderProvider * Host :=
  let '(p1, h1) := scanChapters p h in
  let h2 := sendChaptersToWebview p1 h1 in
  (p1, showMessage (chaptersRecognised (Z.of_nat (length (chapters p1)))) h2).

Definition updateWebview (p : TxtReaderProvider) (h : Host) : Host :=
  if panel p then postMessage (updateScroll (currentLine p)) h else h.

(** [Math.max] and [Math.min] of two numbers are [Z.max] and [Z.min]; the
    difference and the sum are those of doubles. *)
Definition scrollUp (p : TxtReaderProvider) (h : Host) : TxtReaderProvider * Host :=
  let step := scrollStep h in
  let p1 := set_currentLine (Z.max 0 (JS.sub (currentLine p) step)) p in
  (p1, updateWebview p1 h).

(** [this.lines.length - 1] is exact: an array has fewer than [2 ^ 32]
    elements. *)
Definition scrollDown (p : TxtReaderProvider) (h : Host) : TxtReaderProvider * Host :=
  let step := scrollStep h in
  let p1 := set_currentLine (Z.min (linesLength p - 1) (JS.add (currentLine p) step)) p in
  (p1, updateWebview p1 h).

Definition jumpToLine (line : Z) (p : TxtReaderProvider) (h : Host)
  : TxtReaderProvider * Host :=
  if (0 <=? line) && (line <? linesLength p) then
    let p1 := set_currentLine line p in
    (p1, updateWebview p1 h)
  else (p, h).

(** The loop of [search] from index [i] on. *)
Fixpoint searchLines (searchTerm : jsstring) (ls : list jsstring) (i : Z)
    (results : list SearchResult) : list SearchResult :=
  match ls with
  | [] => results
  | l :: ls' =>
    if JS.includes l searchTerm
    then searchLines searchTerm ls' (i + 1)
           (results ++ [{| hit := i; content := JS.trim l |}])
    else searchLines searchTerm ls' (i + 1) results
  end.

Definition search (searchTerm : jsstring) (p : TxtReaderProvider) (h : Host)
  : TxtReaderProvider * Host :=
  let results := searchLines searchTerm (lines p) 0 [] in
  let h1 := if panel p then postMessage (searchResults results searchTerm) h else h in
  let count := Z.of_nat (length results) in
  if count =? 0
  then (p, showMessage (searchNotFound searchTerm) h1)
  else (p, showMessage (searchFound count) h1).

Definition sendInitialContent (p : TxtReaderProvider) (h : Host) : Host :=
  if panel p then
    sendChaptersToWebview p
      (postMessage (initContent (lines p) (currentLine p) (linesLength p)) h)
  else h.

(** [saveProgressNow]: the arguments are read when the call is made; the
    asynchronous body is taken to run to completion before the next event. *)
Definition saveProgressNow (p : TxtReaderProvider) (h : Host) : Host :=
  set_disk
    (BookConfigManager.updateProgress (disk h) (clock h)
       (fileUri p) (currentLine p) (linesLength p))
    h.

Definition updateProgress (line : Z) (p : TxtReaderProvider) (h : Host)
  : TxtReaderProvider * Host :=
  let p1 := set_currentLine line p in
  let h1 :=
    match saveProgressTimer p1 with
    | Some handle => clearTimeout handle h
    | None => h
    end in
  let '(handle, h2) := setTimeout SAVE_DELAY h1 in
  (set_saveProgressTimer (Some handle) p1, h2).

(** The handler given to [panel.onDidDispose]. *)
Definition onDidDispose (p : TxtReaderProvider) (h : Host) : TxtReaderProvider * Host :=
  let h1 := saveProgressNow p h in
  let h2 :=
    match saveProgressTimer p with
    | Some handle => clearTimeout handle h1
    | None => h1
    end in
  (set_panel false p, h2).

(** [show], given the decoded text of the file ([None]: the read failed, an
    error is shown and [lines] stays empty). *)
Definition show `{RegExpEngine} (fsPath : jsstring) (text : option jsstring) (h : Host)
  : TxtReaderProvider * Host :=
  let config := BookConfigManager.loadConfig (disk h) fsPath in
  let p0 :=
    {| panel := true;
       lines := match text with Some t => JS.split 10 t | None => [] end;
       currentLine := match config with Some c => progress c | None => 0 end;
       chapters := [];
       fileUri := fsPath;
       bookConfig := config;
       saveProgressTimer := None |} in
  let h0 := match text with Some _ => h | None => showMessage fileReadError h end in
  let '(p1, h1) := scanChapters p0 h0 in
  (p1, sendInitialContent p1 h1).

(** What happens to a session: a message from the webview, [dt] milliseconds
    passing with no message, or the panel being closed. *)
Inductive Event :=
| msgScrollUp
| msgScrollDown
| msgJumpToLine (line : Z)
| msgSearch (text : jsstring)
| msgJumpToChapter (line : Z)
| msgRequestChapters
| msgUpdateProgress (line : Z)
| msgRequestInitialContent
| elapse (dt : Z)
| dispose.

Definition dueTime (a b : nat * Z) : Z := snd a - snd b.

(** Time passing: the timers due by the new time fire in order of due time,
    each running [saveProgressNow] at its due time. *)
Definition advance (dt : Z) (p : TxtReaderProvider) (h : Host) : Host :=
  let now := clock h + dt in
  let due := JS.sort dueTime (List.filter (fun t => snd t <=? now) (timers h)) in
  let waiting := List.filter (fun t => negb (snd t <=? now)) (timers h) in
  set_clock now
    (fold_left (fun h' t => saveProgressNow p (set_clock (snd t) h')) due
       (set_timers waiting h)).

(** One event, run to completion. *)
Definition step (e : Event) (s : TxtReaderProvider * Host) : TxtReaderProvider * Host :=
  let '(p, h) := s in
  match e with
  | msgScrollUp => scrollUp p h
  | msgScrollDown => scrollDown p h
  | msgJumpToLine line => jumpToLine line p h
  | msgSearch text => search text p h
  | msgJumpToChapter line => jumpToLine line p h
  | msgRequestChapters => (p, sendChaptersToWebview p h)
  | msgUpdateProgress line => updateProgress line p h
  | msgRequestInitialContent => (p, sendInitialContent p h)
  | elapse dt => (p, advance dt p h)
  | dispose => onDidDispose p h
  end.

Definition run (es : list Event) (s : TxtReaderProvider * Host)
  : TxtReaderProvider * Host :=
  fold_left (fun s' e => step e s') es s.

End TxtReaderProvider.

(** ** The script of the reader's webview *)

Module Webview.

(** The loop of [updateCurrentChapter]: [cs] holds the chapters at indices
    [i], [i - 1], ..., [0]; the result is [(currentChapter,
    currentChapterIndex)]. *)
Fixpoint currentChapterLoop (cs : list Chapter) (i : Z) (line' : Z) : option Chapter * Z :=
  match cs with
  | [] => (None, -1)
  | c :: cs' =>
    if line' >=? line c then (Some c, i)
    else currentChapterLoop cs' (i - 1) line'
  end.

(** The chapter [updateCurrentChapter(line)] shows in the toolbar and
    highlights in the list, found from the end of [allChapters]. *)
Definition updateCurrentChapter (allChapters : list Chapter) (line' : Z)
  : option Chapter * Z :=
  currentChapterLoop (rev allChapters) (Z.of_nat (length allChapters) - 1) line'.

End Webview.

(** ** Definitions used to state the properties *)

(** The elements of a list paired with their indices, counted from [i]. *)
Fixpoint indexed {A : Type} (i : Z) (l : list A) : list (Z * A) :=
  match l with
  | [] => []
  | x :: l' => (i, x) :: indexed (i + 1) l'
  end.

(** [x] brought into [[lo, hi]]. *)
Definition clamp (lo hi x : Z) : Z := Z.max lo (Z.min hi x).

(** Scrolling as a move by the step clamped to [[0, totalLines - 1]]. *)
Definition scroll_clamps (p : TxtReaderProvider) (h : Host) : Prop :=
  currentLine (fst (TxtReaderProvider.scrollUp p h))
    = clamp 0 (TxtReaderProvider.linesLength p - 1) (currentLine p - scrollStep h)
  /\ currentLine (fst (TxtReaderProvider.scrollDown p h))
    = clamp 0 (TxtReaderProvider.linesLength p - 1) (currentLine p + scrollStep h).

(** The chapter a matching line gives, and the result a found line gives. *)
Definition chapterOf (il : Z * jsstring) : Chapter :=
  {| name := JS.trim (snd il); line := fst il |}.

Definition resultOf (il : Z * jsstring) : SearchResult :=
  {| hit := fst il; content := JS.trim (snd il) |}.

(** An empty disk and a host with the default settings, for examples. *)
Definition emptyDisk : Disk :=
  {| sidecars := ∅; stats := ∅; dirs := ∅; readonly := ∅; torn := ∅;
     writeLog := [] |}.

Definition defaultHost (d : Disk) : Host :=
  {| scrollStep := 3;
     defaultChapterPattern := JS.lit "^第[0-9一二三四五六七八九十百千]+[章节]\s+.+$";
     clock := 0; timers := []; nextTimer := 0%nat; disk := d;
     posted := []; shown := [] |}.

(** The config [getAllBooksInDirectory] gives for a directory entry: the one
    loaded from its sidecar, or a fresh one dated by the modification time. *)
Definition entryConfig (d : Disk) (dirPath file : jsstring) : BookConfig :=
  let txtPath := Path.join dirPath file in
  match BookConfigManager.loadConfig d txtPath with
  | Some config => config
  | None => {| filePath := txtPath; fileName := file; progress := 0; totalLines := 0;
               lastReadTime := match stats d !! txtPath with
                               | Some st => mtime st
                               | None => 0
                               end;
               chapterPattern := None; bookmarks := None |}
  end.

(** The entry's name ends with [.txt] and the entry is a regular file. *)
Definition isTxtFile (d : Disk) (dirPath file : jsstring) : bool :=
  JS.endsWith file (JS.lit ".txt")
  && match stats d !! Path.join dirPath file with
     | Some st => isFile st
     | None => false
     end.

(** The listing as one config for each entry whose name ends with [.txt]. *)
Definition lists_every_txt_entry (d : Disk) (dirPath : jsstring) (files : list jsstring)
  : Prop :=
  Permutation (BookConfigManager.getAllBooksInDirectory d dirPath)
    (map (entryConfig d dirPath)
       (List.filter (fun file => JS.endsWith file (JS.lit ".txt")) files)).

(** A directory with a book, a file of another kind and a file whose suffix
    is in upper case; and one with a book and a subdirectory named like a
    book. *)
Definition shelfDisk : Disk :=
  {| sidecars := ∅;
     stats := {[ JS.lit "/books/a.txt" := {| isFile := true; mtime := 40 |};
                 JS.lit "/books/b.md" := {| isFile := true; mtime := 41 |};
                 JS.lit "/books/c.TXT" := {| isFile := true; mtime := 42 |} ]};
     dirs := {[ JS.lit "/books" := map JS.lit ["a.txt"; "b.md"; "c.TXT"]%string ]};
     readonly := ∅; torn := ∅; writeLog := [] |}.

Definition folderDisk : Disk :=
  {| sidecars := ∅;
     stats := {[ JS.lit "/books/a.txt" := {| isFile := true; mtime := 40 |};
                 JS.lit "/books/notes.txt" := {| isFile := false; mtime := 41 |} ]};
     dirs := {[ JS.lit "/books" := map JS.lit ["a.txt"; "notes.txt"]%string ]};
     readonly := ∅; torn := ∅; writeLog := [] |}.

(** A directory with a book read before, its sidecar, and a newer book never
    opened. *)
Definition libraryDisk : Disk :=
  {| sidecars :=
       {[ JS.lit "/books/a.json" :=
            Json {| filePath := JS.lit "/books/a.txt"; fileName := JS.lit "a.txt";
                    progress := 12; totalLines := 200; lastReadTime := 10;
                    chapterPattern := None; bookmarks := None |} ]};
     stats := {[ JS.lit "/books/a.json" := {| isFile := true; mtime := 10 |};
                 JS.lit "/books/a.txt" := {| isFile := true; mtime := 5 |};
                 JS.lit "/books/b.txt" := {| isFile := true; mtime := 40 |} ]};
     dirs := {[ JS.lit "/books" := map JS.lit ["a.json"; "a.txt"; "b.txt"]%string ]};
     readonly := ∅; torn := ∅; writeLog := [] |}.

(** A burst of [reportProgress] calls: each call is followed by a pause,
    given with it, before the next one. *)
Fixpoint burst (calls : list (Z * Z)) : list TxtReaderProvider.Event :=
  match calls with
  | [] => []
  | (line, gap) :: calls' =>
    TxtReaderProvider.msgUpdateProgress line :: TxtReaderProvider.elapse gap :: burst calls'
  end.

(** At most one timer is pending, and it is the one the provider holds. *)
Definition one_pending (p : TxtReaderProvider) (h : Host) : Prop :=
  timers h = []
  \/ exists handle due, timers h = [(handle, due)] /\ saveProgressTimer p = Some handle.

(** A file or directory name: not empty, without separator, neither [.] nor
    [..]. *)
Definition isName (n : jsstring) : bool :=
  negb (Path.jsstring_eqb n [])
  && forallb (fun c => negb (c =? Path.SLASH)%N) n
  && negb (Path.jsstring_eqb n [Path.DOT])
  && negb (Path.jsstring_eqb n [Path.DOT; Path.DOT]).

(** The absolute path with the given components, [/a/b/c]; the path of a
    directory, which is [/] for the root; and the path of a file in it. *)
Fixpoint absolute (names : list jsstring) : jsstring :=
  match names with
  | [] => []
  | n :: names' => Path.SLASH :: n ++ absolute names'
  end.

Definition directory (dir : list jsstring) : jsstring :=
  match dir with
  | [] => [Path.SLASH]
  | _ => absolute dir
  end.

Definition fileIn (dir : list jsstring) (file : jsstring) : jsstring :=
  absolute (dir ++ [file]).

(** A name without its final [.txt], which stays when it is the whole name;
    and the name of the sidecar of a file. *)
Definition withoutTxt (file : jsstring) : jsstring :=
  if JS.endsWith file (JS.lit ".txt") && negb (Path.jsstring_eqb file (JS.lit ".txt"))
  then firstn (length file - 4) file
  else file.

Definition sidecarName (file : jsstring) : jsstring := withoutTxt file ++ JS.lit ".json".

(** A name made of a stem and an extension. *)
Definition withExtension (stem ext : jsstring) : jsstring := stem ++ Path.DOT :: ext.

(** An extension: not empty, without dot or separator. *)
Definition isExtension (ext : jsstring) : bool :=
  negb (Path.jsstring_eqb ext [])
  && forallb (fun c => negb (c =? Path.SLASH)%N && negb (c =? Path.DOT)%N) ext.

(** Two files of one directory, named by one stem and two extensions, having
    the same sidecar. *)
Definition same_stem_collides (dir : list jsstring) (stem ext1 ext2 : jsstring) : Prop :=
  BookConfigManager.getConfigPath (fileIn dir (withExtension stem ext1))
  = BookConfigManager.getConfigPath (fileIn dir (withExtension stem ext2)).

(** A session on a document of three lines, with the cursor on the second. *)
Definition threeLines : TxtReaderProvider :=
  {| panel := true; lines := map JS.lit ["abc"; "xabcx"; "def"]%string;
     currentLine := 1; chapters := []; fileUri := JS.lit "/books/a.txt";
     bookConfig := None; saveProgressTimer := None |}.

(** A session opened on a three-line file whose sidecar records line 100 as
    the reading position. *)
Definition staleDisk : Disk :=
  {| sidecars :=
       {[ JS.lit "/books/a.json" :=
            Json {| filePath := JS.lit "/books/a.txt"; fileName := JS.lit "a.txt";
                    progress := 100; totalLines := 200; lastReadTime := 5;
                    chapterPattern := None; bookmarks := None |} ]};
     stats := ∅; dirs := ∅; readonly := ∅; torn := ∅; writeLog := [] |}.

Definition staleSession : TxtReaderProvider * Host :=
  TxtReaderProvider.show (JS.lit "/books/a.txt")
    (Some (JS.lit "abc" ++ 10%N :: JS.lit "xabcx" ++ 10%N :: JS.lit "def"))
    (defaultHost staleDisk).

(** The pattern [scanChapters] compiles: the document's own one when the
    sidecar has a non-empty [chapterPattern], else the global default. *)
Definition activePattern (p : TxtReaderProvider) (h : Host) : jsstring :=
  match bookConfig p with
  | Some {| chapterPattern := Some (c :: s) |} => c :: s
  | _ => defaultChapterPattern h
  end.

(** A document with two chapter headings, and a session on it. *)
Definition chapterLines : list jsstring :=
  map JS.lit ["第一章 标题"; "正文"; "第二章 标题2"]%string.

Definition chapterBook : TxtReaderProvider :=
  {| panel := true; lines := chapterLines; currentLine := 0; chapters := [];
     fileUri := JS.lit "/books/a.txt"; bookConfig := None; saveProgressTimer := None |}.

(** A disk with one book and no sidecar. *)
Definition freshDisk : Disk :=
  {| sidecars := ∅;
     stats := {[ JS.lit "/books/a.txt" := {| isFile := true; mtime := 40 |} ]};
     dirs := ∅; readonly := ∅; torn := ∅; writeLog := [] |}.

(** Strings without separator, and without dot. *)
Definition slashFree (s : jsstring) : Prop := Forall (fun c => c <> Path.SLASH) s.

Definition dotFree (s : jsstring) : Prop := Forall (fun c => c <> Path.DOT) s.





(** Pieces joined with a separator: [pieces.join(sep)]. *)
Fixpoint joinWith (sep : N) (pieces : list jsstring) : jsstring :=
  match pieces with
  | [] => []
  | [piece] => piece
  | piece :: pieces' => piece ++ sep :: joinWith sep pieces'
  end.

(** The events that can lead to a write: a report of the reading position and
    the closing of the panel. *)
Definition isReportOrClose (e : TxtReaderProvider.Event) : bool :=
  match e with
  | TxtReaderProvider.msgUpdateProgress _ | TxtReaderProvider.dispose => true
  | _ => false
  end.

(** The events that neither report a position, nor let time pass, nor close
    the panel. *)
Definition isRequest (e : TxtReaderProvider.Event) : bool :=
  match e with
  | TxtReaderProvider.msgUpdateProgress _
  | TxtReaderProvider.elapse _
  | TxtReaderProvider.dispose => false
  | _ => true
  end.

(** The cursor is on a line of the document. *)
Definition cursorInRange (p : TxtReaderProvider) : Prop :=
  0 <= currentLine p <= TxtReaderProvider.linesLength p - 1.

(** A config with its pattern replaced. *)
Definition withPattern (pattern : jsstring) (config : BookConfig) : BookConfig :=
  {| filePath := filePath config; fileName := fileName config;
     progress := progress config; totalLines := totalLines config;
     lastReadTime := lastReadTime config;
     chapterPattern := Some pattern; bookmarks := bookmarks config |}.

(** The config a first save creates for a source path. *)
Definition freshConfig (txtFilePath : jsstring) (progress' totalLines' now : Z)
    (pattern : option jsstring) : BookConfig :=
  {| filePath := txtFilePath; fileName := Path.basename txtFilePath None;
     progress := progress'; totalLines := totalLines'; lastReadTime := now;
     chapterPattern := pattern; bookmarks := None |}.

(** A disk on which the sidecar of [/books/a.txt] was written for a file that
    was at [/old/a.txt]. *)
Definition movedDisk : Disk :=
  {| sidecars :=
       {[ JS.lit "/books/a.json" :=
            Json {| filePath := JS.lit "/old/a.txt"; fileName := JS.lit "a.txt";
                    progress := 12; totalLines := 200; lastReadTime := 10;
                    chapterPattern := None; bookmarks := None |} ]};
     stats := {[ JS.lit "/books/a.txt" := {| isFile := true; mtime := 5 |} ]};
     dirs := ∅; readonly := ∅; torn := ∅; writeLog := [] |}.

(** A directory in which the second entry cannot be examined. *)
Definition brokenLinkDisk : Disk :=
  {| sidecars := ∅;
     stats := {[ JS.lit "/books/a.txt" := {| isFile := true; mtime := 40 |};
                 JS.lit "/books/c.txt" := {| isFile := true; mtime := 42 |} ]};
     dirs := {[ JS.lit "/books" := map JS.lit ["a.txt"; "b.txt"; "c.txt"]%string ]};
     readonly := ∅; torn := ∅; writeLog := [] |}.


(** The reading position that the sidecar of the session's document holds. *)
Definition persisted (p : TxtReaderProvider) (d : Disk) : option Z :=
  match BookConfigManager.loadConfig d (fileUri p) with
  | Some config => Some (progress config)
  | None => None
  end.

(** [search] reporting the number of the lines found, whatever it is. *)
Definition reports_match_count (term : jsstring) (p : TxtReaderProvider) (h : Host) : Prop :=
  shown (snd (TxtReaderProvider.search term p h))
  = shown h
    ++ [searchFound
          (Z.of_nat (length (TxtReaderProvider.searchLines term (lines p) 0 [])))].

(** [updateChapterPattern] saving, for a path, a config with progress 0 and
    line count 0 that carries the pattern. *)
Definition saves_default_config (d : Disk) (now : Z) (txtFilePath pattern : jsstring)
  : Prop :=
  exists (d' : Disk) (config : BookConfig),
    BookConfigManager.updateChapterPattern d now txtFilePath pattern = Some d'
    /\ writeLog d' = writeLog d ++ [(BookConfigManager.getConfigPath txtFilePath, config)]
    /\ progress config = 0 /\ totalLines config = 0
    /\ chapterPattern config = Some pattern.

(** A disk on which the document [/books/a.json] has a sidecar,
    [/books/a.json.json], that names the file [/books/a.txt]. *)
Definition nestedDisk : Disk :=
  {| sidecars :=
       {[ JS.lit "/books/a.json.json" :=
            Json {| filePath := JS.lit "/books/a.txt"; fileName := JS.lit "a.txt";
                    progress := 3; totalLines := 10; lastReadTime := 5;
                    chapterPattern := None; bookmarks := None |} ]};
     stats := ∅; dirs := ∅; readonly := ∅; torn := ∅; writeLog := [] |}.

(** The disk [staleDisk] when its device is full: a write to the sidecar of
    [/books/a.txt] breaks off after the file was opened. *)
Definition fullDisk : Disk :=
  {| sidecars := sidecars staleDisk; stats := ∅; dirs := ∅;
     readonly := {[ JS.lit "/books/a.json" ]}; torn := {[ JS.lit "/books/a.json" ]};
     writeLog := [] |}.

(** A disk on which the sidecar of [/books/a.txt] cannot be written. *)
Definition lockedDisk : Disk :=
  {| sidecars := ∅;
     stats := {[ JS.lit "/books/a.txt" := {| isFile := true; mtime := 40 |} ]};
     dirs := ∅; readonly := {[ JS.lit "/books/a.json" ]}; torn := ∅; writeLog := [] |}.

(** ** Numbers *)

Lemma toNumber_safe (z : Z) :
  JS.isSafeInteger z = true -> JS.toNumber z = z.
Proof.
  unfold JS.isSafeInteger, JS.toNumber. intros Hz. cbv zeta. rewrite Hz. reflexivity.
Qed.

Lemma toNumber_opp (z : Z) : JS.toNumber (- z) = - JS.toNumber z.
Proof.
  unfold JS.toNumber. cbv zeta. rewrite Z.abs_opp, Z.sgn_opp.
  destruct (Z.abs z <=? JS.MAX_SAFE_INTEGER); [reflexivity |].
  apply Z.mul_opp_l.
Qed.

(** Beyond the safe integers a positive result stays beyond them. *)
Lemma toNumber_large (z : Z) :
  JS.MAX_SAFE_INTEGER < z -> JS.MAX_SAFE_INTEGER < JS.toNumber z.
Proof.
  intros Hz. unfold JS.toNumber. cbv zeta.
  assert (Hpos : 0 < z) by (unfold JS.MAX_SAFE_INTEGER in Hz; lia).
  rewrite (Z.abs_eq z) by lia. rewrite (Z.sgn_pos z) by lia.
  destruct (z <=? JS.MAX_SAFE_INTEGER) eqn:E; [apply Z.leb_le in E; lia |].
  rewrite Z.mul_1_l.
  assert (Hlog : 53 <= Z.log2 z).
  { apply Z.log2_le_pow2; [lia |]. unfold JS.MAX_SAFE_INTEGER in Hz.
    change (2 ^ 53) with 9007199254740992. lia. }
  set (e := Z.log2 z - 52).
  assert (He : 1 <= e) by (unfold e; lia).
  assert (Hulp : 2 <= 2 ^ e).
  { change 2 with (2 ^ 1) at 1. apply Z.pow_le_mono_r; lia. }
  assert (Hq : 2 ^ 52 <= z / 2 ^ e).
  { apply Z.div_le_lower_bound; [lia |].
    rewrite Z.mul_comm, <- Z.pow_add_r by lia.
    replace (52 + e) with (Z.log2 z) by (unfold e; lia).
    apply Z.log2_spec. lia. }
  set (q := z / 2 ^ e) in *.
  match goal with |- context [if ?c then q else q + 1] =>
    set (q' := if c then q else q + 1);
    assert (Hq' : q <= q') by (unfold q'; destruct c; lia)
  end.
  assert (Hm : 2 ^ 53 <= q' * 2 ^ e).
  { change (2 ^ 53) with (2 ^ 52 * 2).
    apply Z.mul_le_mono_nonneg; lia. }
  change (2 ^ 53) with 9007199254740992 in Hm.
  destruct (q' * 2 ^ e <? JS.INFINITY); unfold JS.MAX_SAFE_INTEGER, JS.INFINITY; lia.
Qed.

Lemma toNumber_small (z : Z) :
  z < - JS.MAX_SAFE_INTEGER -> JS.toNumber z < - JS.MAX_SAFE_INTEGER.
Proof.
  intros Hz. pose proof (toNumber_large (- z)) as H.
  rewrite toNumber_opp in H. lia.
Qed.

Lemma isSafeInteger_iff (z : Z) :
  JS.isSafeInteger z = true <-> - JS.MAX_SAFE_INTEGER <= z <= JS.MAX_SAFE_INTEGER.
Proof. unfold JS.isSafeInteger. rewrite Z.leb_le. lia. Qed.

Lemma safe_isFinite (z : Z) :
  Z.abs z <= 2 * JS.MAX_SAFE_INTEGER -> JS.isFinite z = true.
Proof.
  unfold JS.isFinite, JS.MAX_SAFE_INTEGER, JS.INFINITY. intros H. apply Z.ltb_lt. lia.
Qed.

(** A sum is exact when the first operand and the exact sum are safe
    integers. *)
Lemma add_safe (x y : Z) :
  JS.isSafeInteger x = true -> JS.isSafeInteger (x + y) = true -> JS.add x y = x + y.
Proof.
  intros Hx Hxy. unfold JS.add.
  apply isSafeInteger_iff in Hx. pose proof (proj1 (isSafeInteger_iff _) Hxy) as Hxy'.
  rewrite !safe_isFinite by lia. apply toNumber_safe. exact Hxy.
Qed.

Lemma sub_safe (x y : Z) :
  JS.isSafeInteger x = true -> JS.isSafeInteger (x - y) = true -> JS.sub x y = x - y.
Proof. intros Hx Hxy. unfold JS.sub. rewrite add_safe; [lia | exact Hx | exact Hxy]. Qed.

(** Adding to a safe integer: the sum is exact, or both the exact and the
    rounded sum lie beyond the safe integers, on the same side. *)
Lemma add_cases (x y : Z) :
  JS.isSafeInteger x = true ->
  (JS.isSafeInteger (x + y) = true /\ JS.add x y = x + y)
  \/ (JS.MAX_SAFE_INTEGER < x + y /\ JS.MAX_SAFE_INTEGER < JS.add x y)
  \/ (x + y < - JS.MAX_SAFE_INTEGER /\ JS.add x y < - JS.MAX_SAFE_INTEGER).
Proof.
  intros Hx.
  destruct (JS.isSafeInteger (x + y)) eqn:Hxy.
  { left. split; [reflexivity | apply add_safe; assumption]. }
  right. unfold JS.add. pose proof (proj1 (isSafeInteger_iff _) Hx) as Hx'.
  rewrite (safe_isFinite x) by lia.
  assert (Hout : JS.MAX_SAFE_INTEGER < x + y \/ x + y < - JS.MAX_SAFE_INTEGER).
  { unfold JS.isSafeInteger in Hxy. apply Z.leb_gt in Hxy. lia. }
  unfold JS.isFinite. destruct (Z.abs y <? JS.INFINITY) eqn:Hy.
  - destruct Hout as [Hup | Hdown].
    + left. split; [exact Hup | apply toNumber_large; exact Hup].
    + right. split; [exact Hdown | apply toNumber_small; exact Hdown].
  - apply Z.ltb_ge in Hy. unfold JS.MAX_SAFE_INTEGER, JS.INFINITY in *. lia.
Qed.

Lemma sub_cases (x y : Z) :
  JS.isSafeInteger x = true ->
  (JS.isSafeInteger (x - y) = true /\ JS.sub x y = x - y)
  \/ (JS.MAX_SAFE_INTEGER < x - y /\ JS.MAX_SAFE_INTEGER < JS.sub x y)
  \/ (x - y < - JS.MAX_SAFE_INTEGER /\ JS.sub x y < - JS.MAX_SAFE_INTEGER).
Proof. intros Hx. unfold JS.sub. apply (add_cases x (- y) Hx). Qed.

(** ** Navigation *)

Import TxtReaderProvider.

(** C5. [jumpToLine n] with [n < 0] or [n >= totalLines] changes nothing at
    all: the provider and the host (messages posted, notices shown) are the
    ones before the call, so there is no error; with [0 <= n < totalLines] the
    cursor becomes [n]. *)
Theorem jumpToLine_in_range_only (n : Z) (p : TxtReaderProvider) (h : Host) :
  (n < 0 \/ linesLength p <= n -> jumpToLine n p h = (p, h)) /\
  (0 <= n < linesLength p -> currentLine (fst (jumpToLine n p h)) = n).
Proof.
  unfold jumpToLine. split; intros Hn.
  - destruct (0 <=? n) eqn:E1; destruct (n <? linesLength p) eqn:E2; simpl; try reflexivity.
    apply Z.leb_le in E1. apply Z.ltb_lt in E2. lia.
  - destruct Hn as [H0 H1].
    apply Z.leb_le in H0. apply Z.ltb_lt in H1. rewrite H0, H1. reflexivity.
Qed.

Lemma jumpToLine_in_range_only_witness :
  jumpToLine 3 threeLines (defaultHost emptyDisk) = (threeLines, defaultHost emptyDisk)
  /\ currentLine (fst (jumpToLine 2 threeLines (defaultHost emptyDisk))) = 2.
Proof.
  split.
  - apply (proj1 (jumpToLine_in_range_only 3 threeLines (defaultHost emptyDisk))).
    right. vm_compute. discriminate.
  - apply (proj2 (jumpToLine_in_range_only 2 threeLines (defaultHost emptyDisk))).
    vm_compute. split; [discriminate | reflexivity].
Defined.

(** C3, as stated, fails: opened on a file that has become shorter than the
    saved position, the session has [currentLine = 100] with three lines, and
    [scrollUp] moves to line 97, outside [[0, 2]]. *)
Lemma scroll_clamps_fails_on_stale_progress :
  currentLine (fst staleSession) = 100
  /\ linesLength (fst staleSession) = 3
  /\ currentLine (fst (scrollUp (fst staleSession) (snd staleSession))) = 97
  /\ ~ scroll_clamps (fst staleSession) (snd staleSession).
Proof.
  repeat split; try (vm_compute; reflexivity).
  intros [Hup _]. vm_compute in Hup. discriminate.
Qed.

(** C3, amended. [scrollUp] sets the cursor to [max 0 (currentLine - step)]
    and [scrollDown] to [min (totalLines - 1) (currentLine + step)], whatever
    the step, each saturating at its own end only; the difference and the sum
    are those of doubles, exact as long as the cursor and the result are safe
    integers. For a step [>= 0] and a cursor within [[0, totalLines - 1]], in
    a document of at most [2 ^ 53 - 1] lines (an array has fewer than
    [2 ^ 32] elements), this is the move by the step clamped to that range,
    and the result stays in it; [scrollDown] at [totalLines - 1] and
    [scrollUp] at [0] leave the cursor where it is. *)
Theorem scroll_saturates (p : TxtReaderProvider) (h : Host) :
  currentLine (fst (scrollUp p h)) = Z.max 0 (JS.sub (currentLine p) (scrollStep h))
  /\ currentLine (fst (scrollDown p h))
     = Z.min (linesLength p - 1) (JS.add (currentLine p) (scrollStep h))
  /\ (JS.isSafeInteger (currentLine p) = true ->
      (JS.isSafeInteger (currentLine p - scrollStep h) = true ->
       currentLine (fst (scrollUp p h)) = Z.max 0 (currentLine p - scrollStep h))
      /\ (JS.isSafeInteger (currentLine p + scrollStep h) = true ->
          currentLine (fst (scrollDown p h))
          = Z.min (linesLength p - 1) (currentLine p + scrollStep h)))
  /\ (0 <= scrollStep h ->
      linesLength p <= JS.MAX_SAFE_INTEGER ->
      0 <= currentLine p <= linesLength p - 1 ->
      scroll_clamps p h
      /\ 0 <= currentLine (fst (scrollUp p h)) <= linesLength p - 1
      /\ 0 <= currentLine (fst (scrollDown p h)) <= linesLength p - 1)
  /\ (0 <= scrollStep h ->
      linesLength p <= JS.MAX_SAFE_INTEGER ->
      currentLine p = linesLength p - 1 ->
      currentLine (fst (scrollDown p h)) = currentLine p)
  /\ (0 <= scrollStep h ->
      currentLine p = 0 ->
      currentLine (fst (scrollUp p h)) = currentLine p).
Proof.
  assert (Hlen : 0 <= linesLength p) by (unfold linesLength; lia).
  unfold scroll_clamps, clamp, scrollUp, scrollDown. cbn [fst currentLine set_currentLine].
  split; [reflexivity |]. split; [reflexivity |].
  split.
  { intros Hc. split; intros Hr.
    - rewrite (sub_safe _ _ Hc Hr). reflexivity.
    - rewrite (add_safe _ _ Hc Hr). reflexivity. }
  split.
  { intros Hstep Hmax Hin.
    assert (Hc : JS.isSafeInteger (currentLine p) = true) by (apply isSafeInteger_iff; lia).
    destruct (sub_cases (currentLine p) (scrollStep h) Hc) as [[_ Hs] | [[Hs _] | [Hs Hs']]];
      destruct (add_cases (currentLine p) (scrollStep h) Hc) as [[_ Ha] | [[Ha Ha'] | [Ha _]]];
      try rewrite Hs; try rewrite Ha; lia. }
  split.
  { intros Hstep Hmax Hc.
    assert (Hsafe : JS.isSafeInteger (currentLine p) = true)
      by (apply isSafeInteger_iff; unfold JS.MAX_SAFE_INTEGER in *; lia).
    destruct (add_cases (currentLine p) (scrollStep h) Hsafe) as [[_ Ha] | [[Ha Ha'] | [Ha _]]];
      try rewrite Ha; unfold JS.MAX_SAFE_INTEGER in *; lia. }
  intros Hstep Hc.
  assert (Hsafe : JS.isSafeInteger (currentLine p) = true)
    by (apply isSafeInteger_iff; unfold JS.MAX_SAFE_INTEGER; lia).
  destruct (sub_cases (currentLine p) (scrollStep h) Hsafe) as [[_ Hs] | [[Hs _] | [Hs Hs']]];
    try rewrite Hs; unfold JS.MAX_SAFE_INTEGER in *; lia.
Qed.

Lemma scroll_saturates_witness :
  scroll_clamps threeLines (defaultHost emptyDisk)
  /\ 0 <= currentLine (fst (scrollUp threeLines (defaultHost emptyDisk))) <= 2
  /\ 0 <= currentLine (fst (scrollDown threeLines (defaultHost emptyDisk))) <= 2.
Proof.
  pose proof (scroll_saturates threeLines (defaultHost emptyDisk)) as H.
  destruct H as (_ & _ & _ & Hin & _ & _).
  apply Hin.
  - vm_compute. discriminate.
  - vm_compute. discriminate.
  - vm_compute. split; discriminate.
Defined.

(** ** Search and the chapter scan *)

Lemma startsWith_iff (s t : jsstring) :
  JS.startsWith s t = true <-> exists post, s = t ++ post.
Proof.
  revert s. induction t as [|d t IH]; intros s; simpl.
  - split; [intros _; exists s; reflexivity | intros _; destruct s; reflexivity].
  - destruct s as [|c s].
    + split; [discriminate | intros [post H]; discriminate].
    + simpl. rewrite andb_true_iff, N.eqb_eq, IH. split.
      * intros [-> [post ->]]. exists post. reflexivity.
      * intros [post H]. injection H as -> ->. split; [reflexivity | exists post; reflexivity].
Qed.

(** [includes] is containment of the term as a contiguous run of code units,
    compared for equality: no case folding, no pattern syntax. *)
Lemma includes_iff (s t : jsstring) :
  JS.includes s t = true <-> exists pre post, s = pre ++ t ++ post.
Proof.
  induction s as [|c s IH].
  - cbn [JS.includes]. rewrite orb_false_r, startsWith_iff. split.
    + intros [post H]. exists [], post. exact H.
    + intros [pre [post H]]. destruct pre; [exists post; exact H | discriminate].
  - cbn [JS.includes]. rewrite orb_true_iff, startsWith_iff, IH. split.
    + intros [[post H] | [pre [post H]]].
      * exists [], post. exact H.
      * exists (c :: pre), post. rewrite H. reflexivity.
    + intros [pre [post H]]. destruct pre as [|c' pre].
      * left. exists post. exact H.
      * right. injection H as -> ->. exists pre, post. reflexivity.
Qed.

Lemma includes_empty (s : jsstring) : JS.includes s [] = true.
Proof. apply includes_iff. exists [], s. reflexivity. Qed.

Lemma indexed_length {A : Type} (i : Z) (l : list A) : length (indexed i l) = length l.
Proof. revert i. induction l as [|x l IH]; intros i; simpl; [|rewrite IH]; reflexivity. Qed.

Lemma indexed_In {A : Type} (i j : Z) (x : A) (l : list A) :
  In (j, x) (indexed i l) <-> exists k : nat, j = i + Z.of_nat k /\ l !! k = Some x.
Proof.
  revert i. induction l as [|y l IH]; intros i; simpl.
  - split; [tauto | intros [k [_ H]]; discriminate].
  - rewrite IH. split.
    + intros [H | [k [-> H]]].
      * injection H as <- <-. exists 0%nat. split; [lia | reflexivity].
      * exists (S k). split; [lia | exact H].
    + intros [[|k] [-> H]].
      * left. simpl in H. injection H as ->. f_equal. lia.
      * right. exists k. split; [lia | exact H].
Qed.

Lemma indexed_lower {A : Type} (i j : Z) (x : A) (l : list A) :
  In (j, x) (indexed i l) -> i <= j.
Proof. rewrite indexed_In. intros [k [-> _]]. lia. Qed.

(** Any selection of the indexed lines, mapped to records, is in strictly
    ascending order of the index. *)
Lemma selection_ascending {A B : Type} (key : B -> Z) (mk : Z * A -> B)
    (sel : Z * A -> bool) (i : Z) (l : list A) :
  (forall il, key (mk il) = fst il) ->
  StronglySorted (fun a b => key a < key b) (map mk (List.filter sel (indexed i l))).
Proof.
  intros Hkey. revert i. induction l as [|x l IH]; intros i; simpl.
  - constructor.
  - assert (Hall : Forall (fun b => i < key b) (map mk (List.filter sel (indexed (i + 1) l)))).
    { apply List.Forall_forall. intros b Hb. apply in_map_iff in Hb.
      destruct Hb as [[j y] [<- Hin]]. apply filter_In in Hin. destruct Hin as [Hin _].
      apply indexed_lower in Hin. rewrite Hkey. simpl. lia. }
    destruct (sel (i, x)); simpl.
    + constructor; [apply IH |]. rewrite Hkey. simpl. exact Hall.
    + apply IH.
Qed.

Lemma searchLines_eq (term : jsstring) (ls : list jsstring) (i : Z)
    (acc : list SearchResult) :
  searchLines term ls i acc
  = acc ++ map resultOf (List.filter (fun il => JS.includes (snd il) term) (indexed i ls)).
Proof.
  revert i acc. induction ls as [|l ls IH]; intros i acc; simpl.
  - rewrite app_nil_r. reflexivity.
  - destruct (JS.includes l term); simpl; rewrite IH; [rewrite <- app_assoc|]; reflexivity.
Qed.

Lemma scanLines_eq `{RegExpEngine} (pattern : regexp) (ls : list jsstring) (i : Z)
    (acc : list Chapter) :
  scanLines pattern ls i acc
  = acc ++ map chapterOf
             (List.filter (fun il => RegExp_test pattern (JS.trim (snd il))) (indexed i ls)).
Proof.
  revert i acc. induction ls as [|l ls IH]; intros i acc; simpl.
  - rewrite app_nil_r. reflexivity.
  - destruct (RegExp_test pattern (JS.trim l)); simpl; rewrite IH;
      [rewrite <- app_assoc|]; reflexivity.
Qed.

(** C6, as stated, fails in its last clause: for a term that no line
    contains, no count is reported; the notice says that nothing was
    found. *)
Lemma search_without_match_reports_no_count :
  searchLines (JS.lit "ABC") (lines threeLines) 0 [] = []
  /\ shown (snd (search (JS.lit "ABC") threeLines (defaultHost emptyDisk)))
     = [searchNotFound (JS.lit "ABC")]
  /\ ~ reports_match_count (JS.lit "ABC") threeLines (defaultHost emptyDisk).
Proof.
  split; [vm_compute; reflexivity |]. split; [vm_compute; reflexivity |].
  unfold reports_match_count. intros H. vm_compute in H. discriminate.
Qed.

(** C6, amended. [search] returns exactly the lines that contain the term
    as a contiguous run of code units (so case-sensitively and literally),
    each with its index and its trimmed text, in ascending order of the index;
    the results go to the webview when there is a panel, and the notice shown
    carries their number, or says that nothing was found when it is zero. On
    lines [abc], [xabcx], [def] the term [abc] gives lines 0 and 1, and a term
    that occurs nowhere gives no result and the nothing-found notice. *)
Theorem search_literal_substring (term : jsstring) (p : TxtReaderProvider) (h : Host) :
  searchLines term (lines p) 0 []
    = map resultOf (List.filter (fun il => JS.includes (snd il) term) (indexed 0 (lines p)))
  /\ (forall r, In r (searchLines term (lines p) 0 []) <->
        exists (i : nat) (l pre post : jsstring),
          lines p !! i = Some l /\ l = pre ++ term ++ post
          /\ r = {| hit := Z.of_nat i; content := JS.trim l |})
  /\ StronglySorted (fun a b => hit a < hit b) (searchLines term (lines p) 0 [])
  /\ search term p h
     = (p, showMessage
             (if Z.of_nat (length (searchLines term (lines p) 0 [])) =? 0
              then searchNotFound term
              else searchFound (Z.of_nat (length (searchLines term (lines p) 0 []))))
             (if panel p
              then postMessage (searchResults (searchLines term (lines p) 0 []) term) h
              else h))
  /\ searchLines (JS.lit "abc") (map JS.lit ["abc"; "xabcx"; "def"]%string) 0 []
     = [ {| hit := 0; content := JS.lit "abc" |};
         {| hit := 1; content := JS.lit "xabcx" |} ]
  /\ searchLines (JS.lit "ABC") (map JS.lit ["abc"; "xabcx"; "def"]%string) 0 [] = []
  /\ snd (search (JS.lit "ABC") threeLines (defaultHost emptyDisk))
     = showMessage (searchNotFound (JS.lit "ABC"))
         (postMessage (searchResults [] (JS.lit "ABC")) (defaultHost emptyDisk)).
Proof.
  split; [apply searchLines_eq |].
  split.
  { intros r. rewrite searchLines_eq. simpl. rewrite in_map_iff. split.
    - intros [[j l] [<- Hin]]. apply filter_In in Hin. destruct Hin as [Hin Hinc].
      apply indexed_In in Hin. destruct Hin as [k [-> Hk]].
      simpl in Hinc. apply includes_iff in Hinc. destruct Hinc as [pre [post ->]].
      exists k, (pre ++ term ++ post), pre, post.
      split; [exact Hk | split; [reflexivity |]].
      unfold resultOf. simpl. reflexivity.
    - intros (i & l & pre & post & Hi & Hl & ->).
      exists (Z.of_nat i, l). split; [reflexivity |].
      apply filter_In. split.
      + apply indexed_In. exists i. split; [lia | exact Hi].
      + simpl. apply includes_iff. exists pre, post. exact Hl. }
  split.
  { rewrite searchLines_eq. simpl. apply selection_ascending. reflexivity. }
  split.
  { unfold search. destruct (Z.of_nat _ =? 0); reflexivity. }
  repeat split; vm_compute; reflexivity.
Qed.

(** C10. With the empty string as the term, [search] returns one result per
    line, in order, so their number is the number of lines; for a loaded
    document, which has at least one line, that number is what the notice
    reports. *)
Theorem search_empty_term_all_lines (p : TxtReaderProvider) (h : Host) (text : jsstring) :
  searchLines [] (lines p) 0 [] = map resultOf (indexed 0 (lines p))
  /\ Z.of_nat (length (searchLines [] (lines p) 0 [])) = linesLength p
  /\ map hit (searchLines [] (lines p) 0 []) = map fst (indexed 0 (lines p))
  /\ (lines p = JS.split 10 text ->
      search [] p h
      = (p, showMessage (searchFound (linesLength p))
              (if panel p
               then postMessage (searchResults (map resultOf (indexed 0 (lines p))) []) h
               else h))).
Proof.
  assert (Hall : forall i ls,
    List.filter (fun il : Z * jsstring => JS.includes (snd il) []) (indexed i ls)
    = indexed i ls).
  { intros i ls. revert i. induction ls as [|l ls IH]; intros i; simpl.
    - reflexivity.
    - rewrite includes_empty, IH. reflexivity. }
  assert (Heq : searchLines [] (lines p) 0 [] = map resultOf (indexed 0 (lines p))).
  { rewrite searchLines_eq, Hall. reflexivity. }
  split; [exact Heq |].
  split; [rewrite Heq, length_map, indexed_length; reflexivity |].
  split; [rewrite Heq, map_map; reflexivity |].
  intros Hloaded. unfold search. rewrite Heq, length_map, indexed_length.
  fold (linesLength p).
  assert (Hpos : 0 < linesLength p).
  { unfold linesLength. rewrite Hloaded. clear.
    assert (forall s, JS.split 10 s <> []) as Hne.
    { induction s as [|c s IHs]; simpl; [discriminate |].
      destruct (c =? 10)%N; [discriminate |]. destruct (JS.split 10 s); discriminate. }
    specialize (Hne text). destruct (JS.split 10 text); [contradiction | simpl; lia]. }
  destruct (linesLength p =? 0) eqn:E; [apply Z.eqb_eq in E; lia | reflexivity].
Qed.

Lemma search_empty_term_all_lines_witness :
  search [] (fst staleSession) (snd staleSession)
  = (fst staleSession,
     showMessage (searchFound 3)
       (postMessage
          (searchResults (map resultOf (indexed 0 (lines (fst staleSession)))) [])
          (snd staleSession))).
Proof.
  apply (proj2 (proj2 (proj2
    (search_empty_term_all_lines (fst staleSession) (snd staleSession)
       (JS.lit "abc" ++ 10%N :: JS.lit "xabcx" ++ 10%N :: JS.lit "def"))))).
  vm_compute. reflexivity.
Defined.

Lemma scanChapters_compiled `{RegExpEngine} (p : TxtReaderProvider) (h : Host)
    (pattern : regexp) :
  RegExp_new (activePattern p h) = Some pattern ->
  scanChapters p h = (set_chapters (scanLines pattern (lines p) 0 []) p, h).
Proof.
  unfold scanChapters, activePattern. intros Hnew.
  destruct (bookConfig p) as [[? ? ? ? ? [[|c s]|] ?]|]; simpl in *;
    rewrite Hnew; reflexivity.
Qed.

(** C4. Whatever the engine, when the active pattern compiles the chapter
    index is replaced by one chapter per line whose trimmed text the pattern's
    [test] accepts, named by the trimmed text and numbered by the line's
    index, in ascending order of the index. With the pattern
    [^第[0-9一二三四五六七八九十百千]+[章节]\s+.+$] the lines [第一章 标题], [正文],
    [第二章 标题2] give the chapters of lines 0 and 2. *)
Theorem scanChapters_matching_lines `{RegExpEngine} (p : TxtReaderProvider) (h : Host)
    (pattern : regexp) :
  RegExp_new (activePattern p h) = Some pattern ->
  chapters (fst (scanChapters p h))
    = map chapterOf
        (List.filter (fun il => RegExp_test pattern (JS.trim (snd il)))
           (indexed 0 (lines p)))
  /\ (forall c, In c (chapters (fst (scanChapters p h))) <->
        exists (i : nat) (l : jsstring),
          lines p !! i = Some l /\ RegExp_test pattern (JS.trim l) = true
          /\ c = {| name := JS.trim l; line := Z.of_nat i |})
  /\ StronglySorted (fun a b => line a < line b) (chapters (fst (scanChapters p h)))
  /\ chapters (fst (@scanChapters fragment_engine chapterBook
                      (defaultHost emptyDisk)))
     = [ {| name := JS.lit "第一章 标题"; line := 0 |};
         {| name := JS.lit "第二章 标题2"; line := 2 |} ].
Proof.
  intros Hnew. rewrite (scanChapters_compiled p h pattern Hnew). simpl.
  rewrite scanLines_eq. simpl.
  split; [reflexivity |].
  split.
  { intros c. rewrite in_map_iff. split.
    - intros [[j l] [<- Hin]]. apply filter_In in Hin. destruct Hin as [Hin Htest].
      apply indexed_In in Hin. destruct Hin as [k [-> Hk]].
      exists k, l. split; [exact Hk | split; [exact Htest | reflexivity]].
    - intros (i & l & Hi & Htest & ->).
      exists (Z.of_nat i, l). split; [reflexivity |].
      apply filter_In. split; [| exact Htest].
      apply indexed_In. exists i. split; [lia | exact Hi]. }
  split.
  { apply selection_ascending. reflexivity. }
  vm_compute. reflexivity.
Qed.

Lemma scanChapters_matching_lines_witness :
  chapters (fst (@scanChapters fragment_engine chapterBook (defaultHost emptyDisk)))
  = map chapterOf
      (List.filter
         (fun il => RegExp.test
            (default RegExp.Empty
               (RegExp.compile (defaultChapterPattern (defaultHost emptyDisk))))
            (JS.trim (snd il)))
         (indexed 0 chapterLines)).
Proof.
  apply (proj1 (@scanChapters_matching_lines fragment_engine chapterBook
                  (defaultHost emptyDisk)
                  (default RegExp.Empty
                     (RegExp.compile (defaultChapterPattern (defaultHost emptyDisk))))
                  ltac:(vm_compute; reflexivity))).
Defined.

(** ** Sidecar files *)

Lemma saveConfig_writeLog (d : Disk) (now : Z) (config : BookConfig) :
  writeLog (fst (BookConfigManager.saveConfig d now config))
  = writeLog d ++ [(BookConfigManager.getConfigPath (filePath config), config)].
Proof. unfold BookConfigManager.saveConfig. repeat case_decide; reflexivity. Qed.

Lemma saveConfig_written (d : Disk) (now : Z) (config : BookConfig) :
  BookConfigManager.getConfigPath (filePath config) ∉ readonly d ->
  sidecars (fst (BookConfigManager.saveConfig d now config))
    !! BookConfigManager.getConfigPath (filePath config) = Some (Json config).
Proof.
  intros Hw. unfold BookConfigManager.saveConfig.
  case_decide; [contradiction |]. simpl. apply lookup_insert_eq.
Qed.

Lemma saveConfig_then_loadConfig (d : Disk) (now : Z) (config : BookConfig) :
  BookConfigManager.getConfigPath (filePath config) ∉ readonly d ->
  BookConfigManager.loadConfig (fst (BookConfigManager.saveConfig d now config))
    (filePath config) = Some config.
Proof.
  intros Hw. unfold BookConfigManager.loadConfig.
  rewrite (saveConfig_written d now config Hw). reflexivity.
Qed.

Lemma saveConfig_frame (d : Disk) (now : Z) (config : BookConfig) :
  readonly (fst (BookConfigManager.saveConfig d now config)) = readonly d
  /\ torn (fst (BookConfigManager.saveConfig d now config)) = torn d.
Proof. unfold BookConfigManager.saveConfig. repeat case_decide; split; reflexivity. Qed.

Lemma saveConfig_other (d : Disk) (now : Z) (config : BookConfig) (path : jsstring) :
  path <> BookConfigManager.getConfigPath (filePath config) ->
  sidecars (fst (BookConfigManager.saveConfig d now config)) !! path = sidecars d !! path.
Proof.
  intros Hne. unfold BookConfigManager.saveConfig.
  repeat case_decide; simpl; try reflexivity; apply lookup_insert_ne; congruence.
Qed.

Lemma updateProgress_loads (d : Disk) (now : Z) (f : jsstring) (progress' totalLines' : Z) :
  (forall c, BookConfigManager.loadConfig d f = Some c ->
     BookConfigManager.getConfigPath (filePath c) = BookConfigManager.getConfigPath f) ->
  BookConfigManager.getConfigPath f ∉ readonly d ->
  BookConfigManager.loadConfig
    (BookConfigManager.updateProgress d now f progress' totalLines') f
  = Some (BookConfigManager.updateProgress_config d now f progress' totalLines').
Proof.
  intros Hpath Hw. unfold BookConfigManager.updateProgress.
  assert (Hsame : BookConfigManager.getConfigPath
                    (filePath (BookConfigManager.updateProgress_config d now f
                                 progress' totalLines'))
                  = BookConfigManager.getConfigPath f).
  { unfold BookConfigManager.updateProgress_config.
    destruct (BookConfigManager.loadConfig d f) as [c|] eqn:E; simpl;
      [apply Hpath | ]; reflexivity. }
  unfold BookConfigManager.loadConfig at 1. rewrite <- Hsame.
  rewrite saveConfig_written by (rewrite Hsame; exact Hw). reflexivity.
Qed.


(** C9. When a config exists for the source path, the record that
    [updateProgress] writes has the [filePath], [fileName], [chapterPattern]
    and [bookmarks] of the loaded one, and the given progress, the given line
    count and the current time in the other three fields. It is the one
    record written, and it is what the sidecar holds afterwards when the write
    goes through. *)
Theorem updateProgress_keeps_other_fields (d : Disk) (now : Z) (txtFilePath : jsstring)
    (progress' totalLines' : Z) (config : BookConfig) :
  BookConfigManager.loadConfig d txtFilePath = Some config ->
  filePath (BookConfigManager.updateProgress_config d now txtFilePath progress' totalLines')
    = filePath config
  /\ fileName (BookConfigManager.updateProgress_config d now txtFilePath progress' totalLines')
    = fileName config
  /\ chapterPattern
       (BookConfigManager.updateProgress_config d now txtFilePath progress' totalLines')
    = chapterPattern config
  /\ bookmarks (BookConfigManager.updateProgress_config d now txtFilePath progress' totalLines')
    = bookmarks config
  /\ BookConfigManager.updateProgress_config d now txtFilePath progress' totalLines'
    = {| filePath := filePath config; fileName := fileName config;
         progress := progress'; totalLines := totalLines'; lastReadTime := now;
         chapterPattern := chapterPattern config; bookmarks := bookmarks config |}
  /\ writeLog (BookConfigManager.updateProgress d now txtFilePath progress' totalLines')
    = writeLog d
      ++ [(BookConfigManager.getConfigPath (filePath config),
           BookConfigManager.updateProgress_config d now txtFilePath progress' totalLines')]
  /\ (BookConfigManager.getConfigPath (filePath config) ∉ readonly d ->
      sidecars (BookConfigManager.updateProgress d now txtFilePath progress' totalLines')
        !! BookConfigManager.getConfigPath (filePath config)
      = Some (Json (BookConfigManager.updateProgress_config d now txtFilePath
                      progress' totalLines'))).
Proof.
  intros Hload.
  assert (Hcfg : BookConfigManager.updateProgress_config d now txtFilePath progress' totalLines'
    = {| filePath := filePath config; fileName := fileName config;
         progress := progress'; totalLines := totalLines'; lastReadTime := now;
         chapterPattern := chapterPattern config; bookmarks := bookmarks config |}).
  { unfold BookConfigManager.updateProgress_config. rewrite Hload. reflexivity. }
  unfold BookConfigManager.updateProgress. rewrite saveConfig_writeLog.
  rewrite Hcfg. simpl.
  repeat (split; [reflexivity |]).
  intros Hw.
  apply (saveConfig_written d now
           {| filePath := filePath config; fileName := fileName config;
              progress := progress'; totalLines := totalLines'; lastReadTime := now;
              chapterPattern := chapterPattern config; bookmarks := bookmarks config |}
           Hw).
Qed.

Lemma updateProgress_keeps_other_fields_witness :
  chapterPattern (BookConfigManager.updateProgress_config staleDisk 9
                    (JS.lit "/books/a.txt") 7 3) = None
  /\ progress (BookConfigManager.updateProgress_config staleDisk 9
                 (JS.lit "/books/a.txt") 7 3) = 7.
Proof.
  destruct (updateProgress_keeps_other_fields staleDisk 9 (JS.lit "/books/a.txt") 7 3
              {| filePath := JS.lit "/books/a.txt"; fileName := JS.lit "a.txt";
                 progress := 100; totalLines := 200; lastReadTime := 5;
                 chapterPattern := None; bookmarks := None |})
    as (_ & _ & Hpat & _ & Heq & _).
  - vm_compute. reflexivity.
  - split; [exact Hpat | rewrite Heq; reflexivity].
Defined.

(** C8, as stated, fails: for a path with no config whose source file does
    not exist, the awaited [stat] throws, the call rejects and nothing is
    saved. *)
Lemma updateChapterPattern_missing_source_saves_nothing :
  BookConfigManager.loadConfig emptyDisk (JS.lit "/books/a.txt") = None
  /\ BookConfigManager.updateChapterPattern emptyDisk 50 (JS.lit "/books/a.txt")
       (JS.lit "^Chapter") = None
  /\ ~ saves_default_config emptyDisk 50 (JS.lit "/books/a.txt") (JS.lit "^Chapter").
Proof.
  split; [reflexivity |]. split; [reflexivity |].
  intros (d' & config & Hd' & _). vm_compute in Hd'. discriminate.
Qed.

(** C8, amended. For a path that has no config: when the source file exists
    ([stat] succeeds), the record that [updateChapterPattern] writes is a
    fresh one with progress 0 and line count 0, whatever the file holds,
    carrying the given pattern; it is the one record written, and it is what
    [loadConfig] returns afterwards when the write goes through. When the
    source file does not exist the call rejects and the disk stays as it
    is. *)
Theorem updateChapterPattern_default_config (d : Disk) (now : Z)
    (txtFilePath pattern : jsstring) :
  BookConfigManager.loadConfig d txtFilePath = None ->
  (forall st : Stats,
     stats d !! txtFilePath = Some st ->
     saves_default_config d now txtFilePath pattern
     /\ exists d',
          BookConfigManager.updateChapterPattern d now txtFilePath pattern = Some d'
          /\ writeLog d'
             = writeLog d
               ++ [(BookConfigManager.getConfigPath txtFilePath,
                    {| filePath := txtFilePath; fileName := Path.basename txtFilePath None;
                       progress := 0; totalLines := 0; lastReadTime := now;
                       chapterPattern := Some pattern; bookmarks := None |})]
          /\ (BookConfigManager.getConfigPath txtFilePath ∉ readonly d ->
              BookConfigManager.loadConfig d' txtFilePath
              = Some {| filePath := txtFilePath;
                        fileName := Path.basename txtFilePath None;
                        progress := 0; totalLines := 0; lastReadTime := now;
                        chapterPattern := Some pattern; bookmarks := None |}))
  /\ (stats d !! txtFilePath = None ->
      BookConfigManager.updateChapterPattern d now txtFilePath pattern = None
      /\ ~ saves_default_config d now txtFilePath pattern).
Proof.
  intros Hload. split.
  - intros st Hstat.
    assert (Hrun : BookConfigManager.updateChapterPattern d now txtFilePath pattern
              = Some (fst (BookConfigManager.saveConfig d now
                             {| filePath := txtFilePath;
                                fileName := Path.basename txtFilePath None;
                                progress := 0; totalLines := 0; lastReadTime := now;
                                chapterPattern := Some pattern; bookmarks := None |}))).
    { unfold BookConfigManager.updateChapterPattern,
        BookConfigManager.updateChapterPattern_config.
      rewrite Hload, Hstat. reflexivity. }
    split.
    + eexists _, _. split; [exact Hrun |].
      rewrite saveConfig_writeLog. repeat split.
    + eexists. split; [exact Hrun |]. split.
      * rewrite saveConfig_writeLog. reflexivity.
      * intros Hw.
        apply (saveConfig_then_loadConfig d now
                 {| filePath := txtFilePath; fileName := Path.basename txtFilePath None;
                    progress := 0; totalLines := 0; lastReadTime := now;
                    chapterPattern := Some pattern; bookmarks := None |}
                 Hw).
  - intros Hstat.
    assert (Hrun : BookConfigManager.updateChapterPattern d now txtFilePath pattern = None).
    { unfold BookConfigManager.updateChapterPattern,
        BookConfigManager.updateChapterPattern_config.
      rewrite Hload, Hstat. reflexivity. }
    split; [exact Hrun |].
    intros (d' & config & Hd' & _). rewrite Hrun in Hd'. discriminate.
Qed.

Lemma updateChapterPattern_default_config_witness :
  exists d',
    BookConfigManager.updateChapterPattern freshDisk 50 (JS.lit "/books/a.txt")
      (JS.lit "^Chapter") = Some d'
    /\ writeLog d'
       = [(JS.lit "/books/a.json",
           {| filePath := JS.lit "/books/a.txt"; fileName := JS.lit "a.txt";
              progress := 0; totalLines := 0; lastReadTime := 50;
              chapterPattern := Some (JS.lit "^Chapter"); bookmarks := None |})].
Proof.
  destruct (updateChapterPattern_default_config freshDisk 50 (JS.lit "/books/a.txt")
              (JS.lit "^Chapter"))
    as [Hexists _].
  - vm_compute. reflexivity.
  - destruct (Hexists {| isFile := true; mtime := 40 |}) as (_ & d' & Hd' & Hlog & _).
    + vm_compute. reflexivity.
    + exists d'. split; [exact Hd' | exact Hlog].
Defined.

(** ** Sorting and the directory listing *)

Section SortFacts.
Context {A : Type} (cmp : A -> A -> Z).
Hypothesis cmp_total : forall a b, cmp a b <= 0 \/ cmp b a <= 0.

Lemma sort_insert_perm (x : A) (l : list A) : Permutation (JS.sort_insert cmp x l) (x :: l).
Proof.
  induction l as [|y l IH]; simpl.
  - reflexivity.
  - destruct (cmp y x <=? 0).
    + rewrite IH. apply perm_swap.
    + reflexivity.
Qed.

Lemma sort_fold_perm (l acc : list A) :
  Permutation (fold_left (fun acc x => JS.sort_insert cmp x acc) l acc) (acc ++ l).
Proof.
  revert acc. induction l as [|x l IH]; intros acc; simpl.
  - rewrite app_nil_r. reflexivity.
  - rewrite IH, sort_insert_perm. apply Permutation_middle.
Qed.

Lemma sort_perm (l : list A) : Permutation (JS.sort cmp l) l.
Proof. unfold JS.sort. apply (sort_fold_perm l []). Qed.

Lemma sort_insert_sorted (x : A) (l : list A) :
  Sorted (fun a b => cmp a b <= 0) l ->
  Sorted (fun a b => cmp a b <= 0) (JS.sort_insert cmp x l).
Proof.
  induction l as [|y l IH]; intros Hs; simpl.
  - repeat constructor.
  - inversion Hs as [|? ? Hl Hhd]; subst.
    destruct (cmp y x <=? 0) eqn:E.
    + apply Z.leb_le in E. constructor; [apply IH; exact Hl |].
      destruct l as [|z l]; simpl.
      * constructor. exact E.
      * destruct (cmp z x <=? 0); constructor; [| exact E].
        inversion Hhd; assumption.
    + apply Z.leb_gt in E. constructor; [exact Hs |]. constructor.
      destruct (cmp_total x y); [assumption | lia].
Qed.

Lemma sort_fold_sorted (l acc : list A) :
  Sorted (fun a b => cmp a b <= 0) acc ->
  Sorted (fun a b => cmp a b <= 0)
    (fold_left (fun acc x => JS.sort_insert cmp x acc) l acc).
Proof.
  revert acc. induction l as [|x l IH]; intros acc Hs; simpl.
  - exact Hs.
  - apply IH, sort_insert_sorted, Hs.
Qed.

Lemma sort_sorted (l : list A) : Sorted (fun a b => cmp a b <= 0) (JS.sort cmp l).
Proof. apply sort_fold_sorted. constructor. Qed.
End SortFacts.

Lemma Sorted_weaken {A : Type} (R R' : A -> A -> Prop) (l : list A) :
  (forall a b, R a b -> R' a b) -> Sorted R l -> Sorted R' l.
Proof.
  intros Himp Hs. induction Hs as [|a l Hs IH Hhd]; constructor.
  - exact IH.
  - destruct Hhd; constructor. apply Himp. assumption.
Qed.

Lemma endsWith_iff (s t : jsstring) :
  JS.endsWith s t = true <-> exists stem, s = stem ++ t.
Proof.
  unfold JS.endsWith. rewrite startsWith_iff. split.
  - intros [post H]. exists (rev post).
    rewrite <- (rev_involutive s), H, rev_app_distr, rev_involutive. reflexivity.
  - intros [stem ->]. exists (rev stem). apply rev_app_distr.
Qed.

Lemma collectBooks_eq (d : Disk) (dirPath : jsstring) (files : list jsstring)
    (books : list BookConfig) :
  (forall file, In file files -> JS.endsWith file (JS.lit ".txt") = true ->
     is_Some (stats d !! Path.join dirPath file)) ->
  BookConfigManager.collectBooks d dirPath files books
  = books ++ map (entryConfig d dirPath) (List.filter (isTxtFile d dirPath) files).
Proof.
  revert books. induction files as [|file files IH]; intros books Hstat.
  - simpl. rewrite app_nil_r. reflexivity.
  - assert (Hrest : forall f, In f files -> JS.endsWith f (JS.lit ".txt") = true ->
                      is_Some (stats d !! Path.join dirPath f)).
    { intros f Hf. apply Hstat. right. exact Hf. }
    cbn [BookConfigManager.collectBooks List.filter]. unfold isTxtFile at 1.
    destruct (JS.endsWith file (JS.lit ".txt")) eqn:E; cbn [andb].
    + destruct (Hstat file (or_introl eq_refl) E) as [st Hst].
      rewrite Hst.
      destruct (isFile st).
      * rewrite (IH _ Hrest). cbn [map]. unfold entryConfig at 2. rewrite Hst.
        rewrite <- app_assoc. reflexivity.
      * apply IH, Hrest.
    + apply IH, Hrest.
Qed.

(** C7, as stated, fails: in a directory that holds the book [a.txt] and a
    subdirectory [notes.txt], the listing has the config of [a.txt] only. *)
Lemma listing_skips_directories :
  map fileName (BookConfigManager.getAllBooksInDirectory folderDisk (JS.lit "/books"))
    = [JS.lit "a.txt"]
  /\ ~ lists_every_txt_entry folderDisk (JS.lit "/books")
         (map JS.lit ["a.txt"; "notes.txt"]%string).
Proof.
  split; [vm_compute; reflexivity |].
  intros Hperm. apply Permutation_length in Hperm. vm_compute in Hperm. discriminate.
Qed.

(** C7, amended. When [stat] succeeds on every entry whose name ends with
    [.txt], the listing holds one config for each entry that is a regular
    file and whose name ends with [.txt], compared code unit by code unit:
    the one loaded from the entry's sidecar, or a fresh one dated by the
    file's modification time. The listing is in descending order of
    [lastReadTime]. For a directory with the files [a.txt], [b.md] and
    [c.TXT] it holds the config of [a.txt] only. *)
Theorem getAllBooksInDirectory_txt_files (d : Disk) (dirPath : jsstring)
    (files : list jsstring) :
  dirs d !! dirPath = Some files ->
  (forall file, In file files -> JS.endsWith file (JS.lit ".txt") = true ->
     is_Some (stats d !! Path.join dirPath file)) ->
  BookConfigManager.getAllBooksInDirectory d dirPath
    = JS.sort BookConfigManager.byLastReadTime
        (map (entryConfig d dirPath) (List.filter (isTxtFile d dirPath) files))
  /\ Permutation (BookConfigManager.getAllBooksInDirectory d dirPath)
       (map (entryConfig d dirPath) (List.filter (isTxtFile d dirPath) files))
  /\ StronglySorted (fun a b => lastReadTime b <= lastReadTime a)
       (BookConfigManager.getAllBooksInDirectory d dirPath)
  /\ (forall file, isTxtFile d dirPath file = true <->
        (exists stem, file = stem ++ JS.lit ".txt")
        /\ exists st, stats d !! Path.join dirPath file = Some st /\ isFile st = true)
  /\ (forall file, BookConfigManager.loadConfig d (Path.join dirPath file) = None ->
        entryConfig d dirPath file
        = {| filePath := Path.join dirPath file; fileName := file;
             progress := 0; totalLines := 0;
             lastReadTime := match stats d !! Path.join dirPath file with
                             | Some st => mtime st
                             | None => 0
                             end;
             chapterPattern := None; bookmarks := None |})
  /\ BookConfigManager.getAllBooksInDirectory shelfDisk (JS.lit "/books")
     = [ {| filePath := JS.lit "/books/a.txt"; fileName := JS.lit "a.txt";
            progress := 0; totalLines := 0; lastReadTime := 40;
            chapterPattern := None; bookmarks := None |} ].
Proof.
  intros Hdir Hstat.
  assert (Heq : BookConfigManager.getAllBooksInDirectory d dirPath
    = JS.sort BookConfigManager.byLastReadTime
        (map (entryConfig d dirPath) (List.filter (isTxtFile d dirPath) files))).
  { unfold BookConfigManager.getAllBooksInDirectory. rewrite Hdir.
    rewrite (collectBooks_eq d dirPath files [] Hstat). reflexivity. }
  split; [exact Heq |].
  split; [rewrite Heq; apply sort_perm |].
  split.
  { rewrite Heq. apply Sorted_StronglySorted.
    - intros a b c. lia.
    - eapply Sorted_weaken; [| apply (sort_sorted BookConfigManager.byLastReadTime)].
      + intros a b. unfold BookConfigManager.byLastReadTime. simpl. lia.
      + intros a b. unfold BookConfigManager.byLastReadTime. lia. }
  split.
  { intros file. unfold isTxtFile. rewrite andb_true_iff, endsWith_iff.
    split; intros [Hsuf Hst]; (split; [exact Hsuf |]).
    - destruct (stats d !! Path.join dirPath file) as [st|]; [| discriminate].
      exists st. split; [reflexivity | exact Hst].
    - destruct Hst as [st [-> Hst]]. exact Hst. }
  split.
  { intros file Hnone. unfold entryConfig. rewrite Hnone. reflexivity. }
  vm_compute. reflexivity.
Qed.

Lemma getAllBooksInDirectory_txt_files_witness :
  Permutation (BookConfigManager.getAllBooksInDirectory libraryDisk (JS.lit "/books"))
    (map (entryConfig libraryDisk (JS.lit "/books"))
       (List.filter (isTxtFile libraryDisk (JS.lit "/books"))
          (map JS.lit ["a.json"; "a.txt"; "b.txt"]%string)))
  /\ map lastReadTime
       (BookConfigManager.getAllBooksInDirectory libraryDisk (JS.lit "/books")) = [40; 10].
Proof.
  destruct (getAllBooksInDirectory_txt_files libraryDisk (JS.lit "/books")
              (map JS.lit ["a.json"; "a.txt"; "b.txt"]%string)) as (_ & Hperm & _).
  - vm_compute. reflexivity.
  - intros file [<- | [<- | [<- | []]]] _; vm_compute; eexists; reflexivity.
  - split; [exact Hperm | vm_compute; reflexivity].
Defined.

(** ** Debounced saving of the reading position *)


Lemma run_cons (e : Event) (es : list Event) (s : TxtReaderProvider * Host) :
  run (e :: es) s = run es (step e s).
Proof. reflexivity. Qed.


(** A call of [updateProgress] leaves exactly its own timer pending, due after
    the quiet interval, and does not touch the disk. *)
Lemma updateProgress_pending (l : Z) (p : TxtReaderProvider) (h : Host) :
  one_pending p h ->
  updateProgress l p h
  = (set_saveProgressTimer (Some (nextTimer h)) (set_currentLine l p),
     {| scrollStep := scrollStep h; defaultChapterPattern := defaultChapterPattern h;
        clock := clock h; timers := [(nextTimer h, clock h + SAVE_DELAY)];
        nextTimer := S (nextTimer h); disk := disk h;
        posted := posted h; shown := shown h |}).
Proof.
  intros [Hnone | (handle & due & Hone & Hheld)]; unfold updateProgress; simpl.
  - destruct (saveProgressTimer p); unfold setTimeout, clearTimeout, set_timers; simpl;
      rewrite Hnone; reflexivity.
  - rewrite Hheld. unfold setTimeout, clearTimeout, set_timers. simpl.
    rewrite Hone. simpl. rewrite Nat.eqb_refl. reflexivity.
Qed.

(** Time passing while the only timer is not yet due changes the clock only. *)
Lemma advance_not_due (dt : Z) (p : TxtReaderProvider) (h : Host) (handle : nat) (due : Z) :
  timers h = [(handle, due)] -> clock h + dt < due ->
  advance dt p h = set_clock (clock h + dt) h.
Proof.
  intros Hone Hlt. unfold advance. rewrite Hone. simpl.
  destruct (due <=? clock h + dt) eqn:E; [apply Z.leb_le in E; lia |].
  simpl. unfold set_clock, set_timers. simpl. rewrite Hone. reflexivity.
Qed.

(** Time passing beyond the due time of the only timer fires it: one call of
    [saveProgressNow], at the due time. *)
Lemma advance_due (dt : Z) (p : TxtReaderProvider) (h : Host) (handle : nat) (due : Z) :
  timers h = [(handle, due)] -> due <= clock h + dt ->
  advance dt p h
  = set_clock (clock h + dt) (saveProgressNow p (set_clock due (set_timers [] h))).
Proof.
  intros Hone Hle. unfold advance. rewrite Hone. simpl.
  apply Z.leb_le in Hle. rewrite Hle. reflexivity.
Qed.

Lemma advance_idle (dt : Z) (p : TxtReaderProvider) (h : Host) :
  timers h = [] -> advance dt p h = set_clock (clock h + dt) h.
Proof.
  intros Hnone. unfold advance. rewrite Hnone. simpl.
  unfold set_clock, set_timers. simpl. rewrite Hnone. reflexivity.
Qed.




(** The timers that fire write the cursor, whatever their number. *)
Lemma fire_appends (p : TxtReaderProvider) (due : list (nat * Z)) (h : Host) :
  exists ws,
    writeLog (disk (fold_left (fun h' t => saveProgressNow p (set_clock (snd t) h')) due h))
      = writeLog (disk h) ++ ws
    /\ Forall (fun w => progress (snd w) = currentLine p
                        /\ totalLines (snd w) = linesLength p) ws.
Proof.
  revert h. induction due as [|t due IH]; intros h.
  - exists []. simpl. rewrite app_nil_r. split; [reflexivity | constructor].
  - cbn [fold_left]. destruct (IH (saveProgressNow p (set_clock (snd t) h))) as (ws & Hlog & Hws).
    rewrite Hlog. unfold saveProgressNow, BookConfigManager.updateProgress.
    cbn [disk set_disk]. rewrite saveConfig_writeLog, <- app_assoc.
    eexists. split; [reflexivity |]. constructor; [split; reflexivity | exact Hws].
Qed.

(** Whatever the event, the records it writes carry the cursor and the line
    count as they are when the event arrives. *)
Lemma step_appends (e : Event) (p : TxtReaderProvider) (h : Host) :
  exists ws,
    writeLog (disk (snd (step e (p, h)))) = writeLog (disk h) ++ ws
    /\ Forall (fun w => progress (snd w) = currentLine p
                        /\ totalLines (snd w) = linesLength p) ws.
Proof.
  assert (Hnone : forall d : Disk, writeLog d = writeLog d ++ []
            /\ Forall (fun w : jsstring * BookConfig =>
                         progress (snd w) = currentLine p
                         /\ totalLines (snd w) = linesLength p) []).
  { intros d. rewrite app_nil_r. split; [reflexivity | constructor]. }
  destruct e; cbn [step].
  - exists []. unfold scrollUp, updateWebview. simpl. destruct (panel p); apply Hnone.
  - exists []. unfold scrollDown, updateWebview. simpl. destruct (panel p); apply Hnone.
  - exists []. unfold jumpToLine, updateWebview.
    destruct (_ && _); simpl; [destruct (panel p) |]; apply Hnone.
  - exists []. unfold search. destruct (_ =? _); simpl; destruct (panel p); apply Hnone.
  - exists []. unfold jumpToLine, updateWebview.
    destruct (_ && _); simpl; [destruct (panel p) |]; apply Hnone.
  - exists []. unfold sendChaptersToWebview. simpl. destruct (panel p); apply Hnone.
  - exists []. unfold updateProgress. simpl. destruct (saveProgressTimer p); apply Hnone.
  - exists []. unfold sendInitialContent, sendChaptersToWebview. simpl.
    destruct (panel p); apply Hnone.
  - unfold advance. cbn [snd set_clock disk].
    match goal with |- context [fold_left ?f ?due ?h0] =>
      destruct (fire_appends p due h0) as (ws & Hlog & Hws)
    end.
    exists ws. split; [exact Hlog | exact Hws].
  - unfold onDidDispose. cbn [snd].
    exists [(BookConfigManager.getConfigPath
               (filePath (BookConfigManager.updateProgress_config (disk h) (clock h)
                            (fileUri p) (currentLine p) (linesLength p))),
             BookConfigManager.updateProgress_config (disk h) (clock h)
               (fileUri p) (currentLine p) (linesLength p))].
    split; [| constructor; [split; reflexivity | constructor]].
    unfold saveProgressNow, BookConfigManager.updateProgress.
    destruct (saveProgressTimer p); cbn [disk set_disk clearTimeout set_timers];
      apply saveConfig_writeLog.
Qed.






(** ** The sidecar path *)

Lemma jsstring_eqb_eq (s t : jsstring) : Path.jsstring_eqb s t = true <-> s = t.
Proof. unfold Path.jsstring_eqb. case_decide; split; intros; congruence. Qed.

Lemma jsstring_eqb_neq (s t : jsstring) : Path.jsstring_eqb s t = false <-> s <> t.
Proof. unfold Path.jsstring_eqb. case_decide; split; intros; congruence. Qed.

Lemma isName_facts (n : jsstring) :
  isName n = true ->
  n <> [] /\ slashFree n /\ n <> [Path.DOT] /\ n <> [Path.DOT; Path.DOT].
Proof.
  unfold isName. rewrite !andb_true_iff, !negb_true_iff, !jsstring_eqb_neq.
  intros [[[Hne Hsl] Hd] Hdd]. repeat split; try assumption.
  apply List.Forall_forall. intros c Hc.
  rewrite forallb_forall in Hsl. specialize (Hsl c Hc).
  apply negb_true_iff, N.eqb_neq in Hsl. exact Hsl.
Qed.

Lemma names_slashFree (names : list jsstring) :
  forallb isName names = true -> Forall slashFree names.
Proof.
  rewrite forallb_forall. intros H. apply List.Forall_forall. intros n Hn.
  apply isName_facts, H, Hn.
Qed.

Lemma slashFree_rev (s : jsstring) : slashFree s -> slashFree (rev s).
Proof. unfold slashFree. apply Forall_rev. Qed.

(** *** [split] and [absolute] *)

Lemma split_name (n rest : jsstring) :
  slashFree n ->
  JS.split Path.SLASH (n ++ Path.SLASH :: rest) = n :: JS.split Path.SLASH rest.
Proof.
  induction 1 as [|c n Hc Hn IH]; simpl.
  - reflexivity.
  - apply N.eqb_neq in Hc. rewrite Hc, IH. reflexivity.
Qed.

Lemma split_last_name (n : jsstring) : slashFree n -> JS.split Path.SLASH n = [n].
Proof.
  induction 1 as [|c n Hc Hn IH]; simpl.
  - reflexivity.
  - apply N.eqb_neq in Hc. rewrite Hc, IH. reflexivity.
Qed.

Lemma split_name_absolute (n : jsstring) (names : list jsstring) :
  slashFree n -> Forall slashFree names ->
  JS.split Path.SLASH (n ++ absolute names) = n :: names.
Proof.
  intros Hn Hnames. revert n Hn.
  induction Hnames as [|m names Hm Hnames IH]; intros n Hn; simpl.
  - rewrite app_nil_r. apply split_last_name, Hn.
  - rewrite split_name by exact Hn. rewrite IH by exact Hm. reflexivity.
Qed.

Lemma split_absolute (names : list jsstring) :
  Forall slashFree names -> JS.split Path.SLASH (absolute names) = [] :: names.
Proof.
  intros Hnames. apply (split_name_absolute [] names); [constructor | exact Hnames].
Qed.

Lemma absolute_inj (l1 l2 : list jsstring) :
  Forall slashFree l1 -> Forall slashFree l2 -> absolute l1 = absolute l2 -> l1 = l2.
Proof.
  intros H1 H2 Heq. apply (f_equal (JS.split Path.SLASH)) in Heq.
  rewrite !split_absolute in Heq by assumption. congruence.
Qed.

Lemma absolute_app (l1 l2 : list jsstring) : absolute (l1 ++ l2) = absolute l1 ++ absolute l2.
Proof.
  induction l1 as [|n l1 IH]; simpl; [reflexivity |].
  rewrite IH, <- app_assoc. reflexivity.
Qed.

Lemma fileIn_eq (dir : list jsstring) (file : jsstring) :
  fileIn dir file = absolute dir ++ Path.SLASH :: file.
Proof. unfold fileIn. rewrite absolute_app. simpl. rewrite app_nil_r. reflexivity. Qed.

(** *** [dirname] *)

Lemma dirname_loop_none (cs : list N) (i : Z) (m : bool) :
  slashFree cs -> Path.dirname_loop cs i m = -1.
Proof.
  intros H. revert i m. induction H as [|c cs Hc Hcs IH]; intros i m; simpl.
  - reflexivity.
  - apply N.eqb_neq in Hc. rewrite Hc. apply IH.
Qed.

Lemma dirname_loop_slash (cs more : list N) (i : Z) :
  slashFree cs ->
  Path.dirname_loop (cs ++ Path.SLASH :: more) i false = i - Z.of_nat (length cs).
Proof.
  intros H. revert i. induction H as [|c cs Hc Hcs IH]; intros i; simpl.
  - lia.
  - apply N.eqb_neq in Hc. rewrite Hc, IH. lia.
Qed.

Lemma dirname_loop_name (cs more : list N) (i : Z) :
  slashFree cs -> cs <> [] ->
  Path.dirname_loop (cs ++ Path.SLASH :: more) i true = i - Z.of_nat (length cs).
Proof.
  intros H Hne. destruct H as [|c cs Hc Hcs]; [contradiction |]. simpl.
  apply N.eqb_neq in Hc. rewrite Hc, dirname_loop_slash by exact Hcs. lia.
Qed.

Lemma slice_prefix (a b : jsstring) : JS.slice (a ++ b) 0 (Z.of_nat (length a)) = a.
Proof.
  unfold JS.slice. rewrite Z.sub_0_r, Nat2Z.id.
  change (Z.to_nat 0) with 0%nat. cbn [skipn]. apply take_app_length.
Qed.

Lemma dirname_fileIn (dir : list jsstring) (file : jsstring) :
  forallb isName dir = true -> isName file = true ->
  Path.dirname (fileIn dir file) = directory dir.
Proof.
  intros Hdir Hfile. apply isName_facts in Hfile. destruct Hfile as (Hne & Hsl & _).
  rewrite fileIn_eq. destruct dir as [|n dir].
  - simpl. rewrite dirname_loop_none by (apply slashFree_rev, Hsl). reflexivity.
  - cbn [absolute directory]. unfold Path.dirname.
    cbn [app]. replace (Path.SLASH =? Path.SLASH)%N with true by reflexivity.
    set (A := n ++ absolute dir).
    replace (rev ((A ++ Path.SLASH :: file))) with (rev file ++ Path.SLASH :: rev A)
      by (rewrite rev_app_distr; simpl; rewrite <- app_assoc; reflexivity).
    rewrite dirname_loop_name;
      [| apply slashFree_rev, Hsl | intros Hr; apply Hne; destruct file; [reflexivity|];
         simpl in Hr; destruct (rev file); discriminate].
    rewrite length_rev.
    assert (Hlen : Z.of_nat (length (Path.SLASH :: A ++ Path.SLASH :: file)) - 1
                   - Z.of_nat (length file) = Z.of_nat (length (Path.SLASH :: A))).
    { simpl. rewrite length_app. simpl. lia. }
    rewrite Hlen.
    assert (HA : (1 < length (Path.SLASH :: A))%nat).
    { simpl in Hdir. apply andb_true_iff in Hdir. destruct Hdir as [Hn _].
      apply isName_facts in Hn. destruct Hn as (Hnn & _).
      unfold A. destruct n; [contradiction | simpl; lia]. }
    destruct (Z.of_nat (length (Path.SLASH :: A)) =? -1) eqn:E1; [apply Z.eqb_eq in E1; lia |].
    destruct (Z.of_nat (length (Path.SLASH :: A)) =? 1) eqn:E2; [apply Z.eqb_eq in E2; lia |].
    simpl andb. cbv match.
    apply (slice_prefix (Path.SLASH :: A) (Path.SLASH :: file)).
Qed.

(** *** [basename] *)

Ltac pair_lia :=
  cbn [length];
  repeat match goal with |- (_, _) = (_, _) => apply (f_equal2 pair) end;
  try reflexivity; try lia.

Lemma basename_loop_skip (cs more : list N) (i start e : Z) :
  slashFree cs -> e <> -1 ->
  Path.basename_loop (cs ++ Path.SLASH :: more) i start e false
  = (i - Z.of_nat (length cs) + 1, e).
Proof.
  intros H He. revert i. induction H as [|c cs Hc Hcs IH]; intros i.
  - simpl. pair_lia.
  - cbn [app Path.basename_loop]. apply N.eqb_neq in Hc. rewrite Hc.
    destruct (e =? -1) eqn:E; [apply Z.eqb_eq in E; contradiction |].
    rewrite IH. pair_lia.
Qed.

Lemma basename_loop_name (cs more : list N) (i start : Z) :
  slashFree cs -> cs <> [] -> i + 1 <> -1 ->
  Path.basename_loop (cs ++ Path.SLASH :: more) i start (-1) true
  = (i - Z.of_nat (length cs) + 1, i + 1).
Proof.
  intros H Hne Hi. destruct H as [|c cs Hc Hcs]; [contradiction |].
  cbn [app Path.basename_loop]. apply N.eqb_neq in Hc. rewrite Hc.
  change (-1 =? -1) with true. cbv iota.
  rewrite basename_loop_skip by assumption. pair_lia.
Qed.

Lemma basename_suffix_loop_skip (suffix cs more : list N) (i start e first : Z) :
  slashFree cs -> first <> -1 ->
  Path.basename_suffix_loop suffix (cs ++ Path.SLASH :: more) i start e false (-1) first
  = (i - Z.of_nat (length cs) + 1, e, first).
Proof.
  intros H Hfirst. revert i. induction H as [|c cs Hc Hcs IH]; intros i.
  - simpl. pair_lia.
  - cbn [app Path.basename_suffix_loop]. apply N.eqb_neq in Hc. rewrite Hc.
    destruct (first =? -1) eqn:E; [apply Z.eqb_eq in E; contradiction |].
    change (0 <=? -1) with false. cbv iota.
    rewrite IH. pair_lia.
Qed.

(** One step of the scan on a unit that is no separator, after the first
    such unit has been seen. *)
Lemma basename_suffix_loop_step (suffix cs : list N) (c : N) (i start e k first : Z) :
  c <> Path.SLASH -> first <> -1 -> 0 <= k ->
  Path.basename_suffix_loop suffix (c :: cs) i start e false k first
  = if (c =? nth (Z.to_nat k) suffix 0)%N
    then if k =? 0
         then Path.basename_suffix_loop suffix cs (i - 1) start i false (-1) first
         else Path.basename_suffix_loop suffix cs (i - 1) start e false (k - 1) first
    else Path.basename_suffix_loop suffix cs (i - 1) start first false (-1) first.
Proof.
  intros Hc Hfirst Hk. cbn [Path.basename_suffix_loop].
  apply N.eqb_neq in Hc. rewrite Hc.
  destruct (first =? -1) eqn:E; [apply Z.eqb_eq in E; contradiction |].
  apply Z.leb_le in Hk. rewrite Hk.
  replace (k - 1 =? -1) with (k =? 0); [reflexivity |].
  destruct (k =? 0) eqn:E0; symmetry.
  - apply Z.eqb_eq in E0. apply Z.eqb_eq. lia.
  - apply Z.eqb_neq in E0. apply Z.eqb_neq. lia.
Qed.

(** The first step is the same, except that it records where the name ends. *)
Lemma basename_suffix_loop_first (suffix cs : list N) (c : N) (i start k : Z) :
  c <> Path.SLASH -> 0 <= k ->
  Path.basename_suffix_loop suffix (c :: cs) i start (-1) true k (-1)
  = if (c =? nth (Z.to_nat k) suffix 0)%N
    then if k =? 0
         then Path.basename_suffix_loop suffix cs (i - 1) start i false (-1) (i + 1)
         else Path.basename_suffix_loop suffix cs (i - 1) start (-1) false (k - 1) (i + 1)
    else Path.basename_suffix_loop suffix cs (i - 1) start (i + 1) false (-1) (i + 1).
Proof.
  intros Hc Hk. cbn [Path.basename_suffix_loop].
  apply N.eqb_neq in Hc. rewrite Hc.
  change (-1 =? -1) with true. cbv iota.
  apply Z.leb_le in Hk. rewrite Hk.
  replace (k - 1 =? -1) with (k =? 0); [reflexivity |].
  destruct (k =? 0) eqn:E0; symmetry.
  - apply Z.eqb_eq in E0. apply Z.eqb_eq. lia.
  - apply Z.eqb_neq in E0. apply Z.eqb_neq. lia.
Qed.

(** The scan for the suffix [.txt] over a path that ends with a separator and
    a name, given backwards as [f]: it finds where the name starts and ends,
    and the position of a final [.txt] if there is one. *)
Lemma basename_suffix_loop_txt (f more : list N) (len : Z) :
  slashFree f -> f <> [] -> 0 < len ->
  exists e,
    Path.basename_suffix_loop [46; 116; 120; 116]%N (f ++ Path.SLASH :: more)
      (len - 1) 0 (-1) true 3 (-1)
    = (len - Z.of_nat (length f), e, len)
    /\ (JS.startsWith f [116; 120; 116; 46]%N = true -> e = len - 4)
    /\ (JS.startsWith f [116; 120; 116; 46]%N = false -> e = len \/ e = -1).
Proof.
  intros Hf Hne Hlen.
  destruct Hf as [|c1 f1 Hc1 Hf1]; [contradiction |]. clear Hne.
  cbn [app]. rewrite basename_suffix_loop_first by (assumption || lia).
  change (nth (Z.to_nat 3) [46; 116; 120; 116]%N 0%N) with 116%N.
  change (3 =? 0) with false. cbv iota. cbn [JS.startsWith].
  destruct (c1 =? 116)%N; cbn [andb];
    [| rewrite basename_suffix_loop_skip by (assumption || lia);
       exists (len - 1 + 1); split; [pair_lia |];
       split; [discriminate | intros _; left; lia]].
  destruct Hf1 as [|c2 f2 Hc2 Hf2].
  { exists (-1). cbn [app JS.startsWith Path.basename_suffix_loop].
    replace (Path.SLASH =? Path.SLASH)%N with true by reflexivity. cbn [negb].
    split; [pair_lia |].
    split; [discriminate | intros _; right; reflexivity]. }
  cbn [app JS.startsWith]. rewrite basename_suffix_loop_step by (assumption || lia).
  change (nth (Z.to_nat (3 - 1)) [46; 116; 120; 116]%N 0%N) with 120%N.
  change (3 - 1 =? 0) with false. cbv iota.
  destruct (c2 =? 120)%N; cbn [andb];
    [| rewrite basename_suffix_loop_skip by (assumption || lia);
       exists (len - 1 + 1); split; [pair_lia |];
       split; [discriminate | intros _; left; lia]].
  destruct Hf2 as [|c3 f3 Hc3 Hf3].
  { exists (-1). cbn [app JS.startsWith Path.basename_suffix_loop].
    replace (Path.SLASH =? Path.SLASH)%N with true by reflexivity. cbn [negb].
    split; [pair_lia |].
    split; [discriminate | intros _; right; reflexivity]. }
  cbn [app JS.startsWith]. rewrite basename_suffix_loop_step by (assumption || lia).
  change (nth (Z.to_nat (3 - 1 - 1)) [46; 116; 120; 116]%N 0%N) with 116%N.
  change (3 - 1 - 1 =? 0) with false. cbv iota.
  destruct (c3 =? 116)%N; cbn [andb];
    [| rewrite basename_suffix_loop_skip by (assumption || lia);
       exists (len - 1 + 1); split; [pair_lia |];
       split; [discriminate | intros _; left; lia]].
  destruct Hf3 as [|c4 f4 Hc4 Hf4].
  { exists (-1). cbn [app JS.startsWith Path.basename_suffix_loop].
    replace (Path.SLASH =? Path.SLASH)%N with true by reflexivity. cbn [negb].
    split; [pair_lia |].
    split; [discriminate | intros _; right; reflexivity]. }
  cbn [app JS.startsWith]. rewrite basename_suffix_loop_step by (assumption || lia).
  change (nth (Z.to_nat (3 - 1 - 1 - 1)) [46; 116; 120; 116]%N 0%N) with 46%N.
  change (3 - 1 - 1 - 1 =? 0) with true. cbv iota.
  destruct (c4 =? 46)%N; cbn [andb];
    rewrite basename_suffix_loop_skip by (assumption || lia).
  - exists (len - 1 - 1 - 1 - 1). split; [pair_lia |].
    split; [intros _; lia | destruct f4; discriminate].
  - exists (len - 1 + 1). split; [pair_lia |].
    split; [discriminate | intros _; left; lia].
Qed.

Lemma slice_tail (a b : jsstring) (s e : Z) :
  s = Z.of_nat (length a) ->
  JS.slice (a ++ b) s e = firstn (Z.to_nat (e - s)) b.
Proof.
  intros ->. unfold JS.slice. rewrite Nat2Z.id, drop_app_length. reflexivity.
Qed.

Lemma txt_not_path (a b : jsstring) : [46; 116; 120; 116]%N <> a ++ Path.SLASH :: b.
Proof.
  intros H. assert (Hin : In Path.SLASH [46; 116; 120; 116]%N).
  { rewrite H. apply in_elt. }
  simpl in Hin. unfold Path.SLASH in Hin. intuition discriminate.
Qed.

Lemma endsWith_txt (file : jsstring) :
  JS.endsWith file (JS.lit ".txt") = JS.startsWith (rev file) [116; 120; 116; 46]%N.
Proof. reflexivity. Qed.

Lemma basename_txt_fileIn (dir : list jsstring) (file : jsstring) :
  isName file = true ->
  Path.basename (fileIn dir file) (Some (JS.lit ".txt")) = withoutTxt file.
Proof.
  intros Hfile. apply isName_facts in Hfile. destruct Hfile as (Hne & Hsl & _).
  rewrite fileIn_eq.
  set (P := absolute dir).
  assert (Hpath : P ++ Path.SLASH :: file = (P ++ [Path.SLASH]) ++ file)
    by (rewrite <- app_assoc; reflexivity).
  assert (Hrev : rev (P ++ Path.SLASH :: file) = rev file ++ Path.SLASH :: rev P)
    by (rewrite rev_app_distr; simpl; rewrite <- app_assoc; reflexivity).
  assert (Hlen : Z.of_nat (length (P ++ Path.SLASH :: file))
                 = Z.of_nat (length (P ++ [Path.SLASH])) + Z.of_nat (length file))
    by (rewrite Hpath, length_app; lia).
  assert (Hpos : 0 < Z.of_nat (length file)) by (destruct file; [contradiction | simpl; lia]).
  assert (Hrne : rev file <> []).
  { intros Hr. apply Hne. rewrite <- (rev_involutive file), Hr. reflexivity. }
  unfold Path.basename, withoutTxt. rewrite endsWith_txt.
  change (JS.lit ".txt") with [46; 116; 120; 116]%N. cbv iota.
  change (Z.of_nat (length [46; 116; 120; 116]%N)) with 4.
  rewrite Hrev.
  destruct (4 <=? Z.of_nat (length (P ++ Path.SLASH :: file))) eqn:E4.
  - rewrite (proj2 (jsstring_eqb_neq _ _) (txt_not_path P file)).
    destruct (basename_suffix_loop_txt (rev file) (rev P)
                (Z.of_nat (length (P ++ Path.SLASH :: file))))
      as (e & Hloop & Hyes & Hno); [apply slashFree_rev, Hsl | exact Hrne | lia |].
    change (4 - 1) with 3. rewrite Hloop. cbv beta iota. rewrite length_rev.
    apply Z.leb_le in E4.
    destruct (JS.startsWith (rev file) [116; 120; 116; 46]%N) eqn:Esuf.
    + rewrite (Hyes eq_refl). cbn [andb].
      destruct (Path.jsstring_eqb file [46; 116; 120; 116]%N) eqn:Ewhole; cbn [negb].
      * apply jsstring_eqb_eq in Ewhole.
        assert (Hl4 : Z.of_nat (length file) = 4) by (rewrite Ewhole; reflexivity).
        destruct (_ =? _) eqn:Ese; [| apply Z.eqb_neq in Ese; lia].
        rewrite Hpath at 1. rewrite slice_tail by lia.
        apply firstn_all2. lia.
      * apply jsstring_eqb_neq in Ewhole.
        assert (Hlong : 4 < Z.of_nat (length file)).
        { rewrite <- endsWith_txt in Esuf. apply endsWith_iff in Esuf.
          destruct Esuf as [stem Hstem]. destruct stem as [|c stem].
          - exfalso. apply Ewhole. exact Hstem.
          - rewrite Hstem, length_app. simpl. lia. }
        destruct (_ =? _) eqn:Ese; [apply Z.eqb_eq in Ese; lia |].
        destruct (Z.of_nat (length (P ++ Path.SLASH :: file)) - 4 =? -1) eqn:Em;
          [apply Z.eqb_eq in Em; lia |].
        rewrite Hpath at 1. rewrite slice_tail by lia.
        f_equal. rewrite Hlen. lia.
    + cbn [andb].
      assert (Hend : (if Z.of_nat (length (P ++ Path.SLASH :: file)) - Z.of_nat (length file)
                         =? e
                      then Z.of_nat (length (P ++ Path.SLASH :: file))
                      else if e =? -1 then Z.of_nat (length (P ++ Path.SLASH :: file)) else e)
                     = Z.of_nat (length (P ++ Path.SLASH :: file))).
      { destruct (Hno eq_refl) as [-> | ->].
        - destruct (_ =? _); [reflexivity |].
          destruct (_ =? -1); reflexivity.
        - destruct (_ =? _); reflexivity. }
      rewrite Hend. rewrite Hpath at 1. rewrite slice_tail by lia.
      apply firstn_all2. rewrite Hlen. lia.
  - apply Z.leb_gt in E4.
    rewrite basename_loop_name by (try apply slashFree_rev; try assumption; lia).
    rewrite length_rev.
    destruct (_ =? -1) eqn:Em; [apply Z.eqb_eq in Em; lia |].
    assert (Esuf : JS.startsWith (rev file) [116; 120; 116; 46]%N = false).
    { destruct (JS.startsWith _ _) eqn:Esuf; [| reflexivity].
      rewrite <- endsWith_txt in Esuf. apply endsWith_iff in Esuf.
      destruct Esuf as [stem Hstem].
      assert (4 <= Z.of_nat (length file))
        by (rewrite Hstem, length_app; change (length (JS.lit ".txt")) with 4%nat; lia).
      lia. }
    rewrite Esuf. cbn [andb].
    rewrite Hpath at 1. rewrite slice_tail by lia.
    apply firstn_all2. rewrite Hlen. lia.
Qed.

(** *** [normalize] and [join] *)

Lemma normalize_step_name (b : bool) (res : list jsstring) (n : jsstring) :
  isName n = true -> Path.normalize_step b res n = n :: res.
Proof.
  intros Hn. apply isName_facts in Hn. destruct Hn as (Hne & _ & Hd & Hdd).
  unfold Path.normalize_step.
  rewrite (proj2 (jsstring_eqb_neq _ _) Hne), (proj2 (jsstring_eqb_neq _ _) Hd),
          (proj2 (jsstring_eqb_neq _ _) Hdd).
  reflexivity.
Qed.

Lemma normalize_fold_names (b : bool) (names res : list jsstring) :
  forallb isName names = true ->
  fold_left (Path.normalize_step b) names res = rev names ++ res.
Proof.
  revert res. induction names as [|n names IH]; intros res Hnames; simpl.
  - reflexivity.
  - simpl in Hnames. apply andb_true_iff in Hnames. destruct Hnames as [Hn Hnames].
    rewrite normalize_step_name by exact Hn. rewrite IH by exact Hnames.
    rewrite <- app_assoc. reflexivity.
Qed.

Lemma absolute_join_segments (n : jsstring) (names : list jsstring) :
  absolute (n :: names) = Path.SLASH :: Path.join_segments (n :: names).
Proof.
  revert n. induction names as [|m names IH]; intros n.
  - simpl. rewrite app_nil_r. reflexivity.
  - change (absolute (n :: m :: names)) with (Path.SLASH :: n ++ absolute (m :: names)).
    rewrite IH. reflexivity.
Qed.

Lemma last_of_name (a n : jsstring) (d : N) :
  n <> [] -> slashFree n -> List.last (a ++ n) d <> Path.SLASH.
Proof.
  intros Hne Hsl. pose proof (app_removelast_last d Hne) as Hn.
  rewrite Hn, app_assoc, last_last.
  unfold slashFree in Hsl. rewrite Hn in Hsl.
  apply List.Forall_app in Hsl. destruct Hsl as [_ Hl].
  inversion Hl. assumption.
Qed.

(** A path that starts with a separator, does not end with one, and whose
    non-empty segments are the given names, none of them [.] or [..], is
    normalised to the absolute path of those names. *)
Lemma normalize_names (rest : jsstring) (names : list jsstring) :
  names <> [] -> forallb isName names = true ->
  List.last (Path.SLASH :: rest) 0%N <> Path.SLASH ->
  fold_left (Path.normalize_step false) (JS.split Path.SLASH (Path.SLASH :: rest)) []
    = rev names ->
  Path.normalize (Path.SLASH :: rest) = absolute names.
Proof.
  intros Hne Hnames Hlast Hfold. unfold Path.normalize, Path.normalizeString.
  replace (Path.SLASH =? Path.SLASH)%N with true by reflexivity. cbn [negb].
  rewrite Hfold, rev_involutive.
  apply N.eqb_neq in Hlast. rewrite Hlast.
  destruct names as [|n names]; [contradiction |].
  rewrite absolute_join_segments.
  simpl in Hnames. apply andb_true_iff in Hnames. destruct Hnames as [Hn _].
  apply isName_facts in Hn. destruct Hn as (Hnn & _).
  destruct (Path.join_segments (n :: names)) as [|c r] eqn:E; [| reflexivity].
  exfalso. destruct n as [|c n]; [contradiction |].
  destruct names; simpl in E; discriminate.
Qed.

Lemma join_directory (dir : list jsstring) (n : jsstring) :
  forallb isName dir = true -> isName n = true ->
  Path.join (directory dir) n = fileIn dir n.
Proof.
  intros Hdir Hn.
  assert (Hall : forallb isName (dir ++ [n]) = true).
  { rewrite forallb_app, Hdir. simpl. rewrite Hn. reflexivity. }
  destruct (isName_facts n Hn) as (Hne & Hsl & _).
  assert (Hjoin : Path.join (directory dir) n
                  = Path.normalize (directory dir ++ Path.SLASH :: n)).
  { unfold Path.join. destruct dir as [|m dir]; destruct n; try contradiction; reflexivity. }
  rewrite Hjoin. unfold fileIn. destruct dir as [|m dir].
  - cbn [directory app]. apply normalize_names.
    + discriminate.
    + exact Hall.
    + apply (last_of_name [Path.SLASH; Path.SLASH] n 0%N Hne Hsl).
    + cbn [JS.split]. replace (Path.SLASH =? Path.SLASH)%N with true by reflexivity.
      rewrite split_last_name by exact Hsl. cbn [fold_left].
      change (Path.normalize_step false [] []) with (@nil jsstring).
      rewrite normalize_step_name by exact Hn. reflexivity.
  - replace (directory (m :: dir) ++ Path.SLASH :: n) with (absolute ((m :: dir) ++ [n]))
      by apply (fileIn_eq (m :: dir) n).
    change (absolute ((m :: dir) ++ [n]))
      with (Path.SLASH :: m ++ absolute (dir ++ [n])) at 1.
    apply normalize_names.
    + discriminate.
    + exact Hall.
    + change (Path.SLASH :: m ++ absolute (dir ++ [n])) with (fileIn (m :: dir) n).
      rewrite (fileIn_eq (m :: dir) n).
      replace (absolute (m :: dir) ++ Path.SLASH :: n)
        with ((absolute (m :: dir) ++ [Path.SLASH]) ++ n)
        by (rewrite <- app_assoc; reflexivity).
      apply (last_of_name (absolute (m :: dir) ++ [Path.SLASH]) n 0%N Hne Hsl).
    + change (Path.SLASH :: m ++ absolute (dir ++ [n])) with (absolute ((m :: dir) ++ [n])).
      rewrite split_absolute by (apply names_slashFree, Hall).
      cbn [fold_left]. change (Path.normalize_step false [] []) with (@nil jsstring).
      rewrite normalize_fold_names by exact Hall. apply app_nil_r.
Qed.

(** *** [getConfigPath] *)

Lemma withoutTxt_cases (file : jsstring) :
  withoutTxt file = file
  \/ exists c stem, file = (c :: stem) ++ JS.lit ".txt" /\ withoutTxt file = c :: stem.
Proof.
  unfold withoutTxt.
  destruct (JS.endsWith file (JS.lit ".txt")) eqn:Esuf; [| left; reflexivity].
  destruct (Path.jsstring_eqb file (JS.lit ".txt")) eqn:Ewhole; [left; reflexivity |].
  apply endsWith_iff in Esuf. destruct Esuf as [stem Hstem].
  apply jsstring_eqb_neq in Ewhole.
  destruct stem as [|c stem]; [contradiction |].
  right. exists c, stem. split; [exact Hstem |]. cbn [andb negb].
  rewrite Hstem, length_app. change (length (JS.lit ".txt")) with 4%nat.
  rewrite Nat.add_sub. apply take_app_length.
Qed.

Lemma isName_intro (n : jsstring) :
  slashFree n -> (2 < length n)%nat -> isName n = true.
Proof.
  intros Hsl Hlen. unfold isName.
  rewrite !andb_true_iff, !negb_true_iff, !jsstring_eqb_neq.
  repeat split; try (intros ->; simpl in Hlen; lia).
  apply forallb_forall. intros c Hc. apply negb_true_iff, N.eqb_neq.
  apply (proj1 (List.Forall_forall _ _) Hsl c Hc).
Qed.

Lemma sidecarName_isName (file : jsstring) :
  isName file = true -> isName (sidecarName file) = true.
Proof.
  intros Hfile. apply isName_facts in Hfile. destruct Hfile as (_ & Hsl & _).
  assert (Hjson : slashFree (JS.lit ".json")).
  { unfold slashFree. change (JS.lit ".json") with [46; 106; 115; 111; 110]%N.
    repeat constructor; discriminate. }
  unfold sidecarName. apply isName_intro.
  - unfold slashFree. apply List.Forall_app. split; [| exact Hjson].
    destruct (withoutTxt_cases file) as [-> | (c & stem & Hf & ->)]; [exact Hsl |].
    unfold slashFree in Hsl. rewrite Hf in Hsl. apply List.Forall_app in Hsl. tauto.
  - rewrite length_app. change (length (JS.lit ".json")) with 5%nat. lia.
Qed.

Lemma getConfigPath_fileIn (dir : list jsstring) (file : jsstring) :
  forallb isName dir = true -> isName file = true ->
  BookConfigManager.getConfigPath (fileIn dir file) = fileIn dir (sidecarName file).
Proof.
  intros Hdir Hfile. unfold BookConfigManager.getConfigPath.
  rewrite dirname_fileIn by assumption.
  rewrite basename_txt_fileIn by assumption.
  apply join_directory; [exact Hdir | apply sidecarName_isName, Hfile].
Qed.

Lemma fileIn_inj (dir1 dir2 : list jsstring) (n1 n2 : jsstring) :
  forallb isName dir1 = true -> forallb isName dir2 = true ->
  isName n1 = true -> isName n2 = true ->
  fileIn dir1 n1 = fileIn dir2 n2 -> dir1 = dir2 /\ n1 = n2.
Proof.
  intros H1 H2 Hn1 Hn2 Heq. unfold fileIn in Heq.
  apply absolute_inj in Heq.
  - apply app_inj_tail in Heq. exact Heq.
  - apply names_slashFree. rewrite forallb_app, H1. simpl. rewrite Hn1. reflexivity.
  - apply names_slashFree. rewrite forallb_app, H2. simpl. rewrite Hn2. reflexivity.
Qed.

Lemma isExtension_facts (ext : jsstring) :
  isExtension ext = true -> ext <> [] /\ slashFree ext /\ dotFree ext.
Proof.
  unfold isExtension. rewrite andb_true_iff, negb_true_iff, jsstring_eqb_neq.
  intros [Hne Hall]. rewrite forallb_forall in Hall.
  split; [exact Hne |].
  split; apply List.Forall_forall; intros c Hc; specialize (Hall c Hc);
    apply andb_true_iff in Hall; destruct Hall as [H1 H2];
    apply negb_true_iff, N.eqb_neq in H1; apply negb_true_iff, N.eqb_neq in H2; assumption.
Qed.

(** A name is cut into stem and extension at its last dot, in one way only. *)
Lemma withExtension_inj (a b x y : jsstring) :
  dotFree x -> dotFree y -> withExtension a x = withExtension b y -> a = b /\ x = y.
Proof.
  unfold withExtension. intros Hx Hy. revert b.
  induction a as [|c a IH]; intros [|c' b] Heq; simpl in Heq.
  - injection Heq as ->. split; reflexivity.
  - injection Heq as <- ->. exfalso.
    apply List.Forall_app in Hx. destruct Hx as [_ Hx]. inversion Hx. congruence.
  - injection Heq as -> <-. exfalso.
    apply List.Forall_app in Hy. destruct Hy as [_ Hy]. inversion Hy. congruence.
  - injection Heq as -> Heq. destruct (IH b Heq) as [-> ->]. split; reflexivity.
Qed.

Lemma txt_dotFree : dotFree (JS.lit "txt").
Proof.
  unfold dotFree. change (JS.lit "txt") with [116; 120; 116]%N.
  repeat constructor; discriminate.
Qed.

Lemma withoutTxt_withExtension (stem ext : jsstring) :
  stem <> [] -> dotFree ext ->
  withoutTxt (withExtension stem ext)
  = if Path.jsstring_eqb ext (JS.lit "txt") then stem else withExtension stem ext.
Proof.
  intros Hstem Hext.
  destruct (withoutTxt_cases (withExtension stem ext)) as [Hsame | (c & s & Hf & Hw)].
  - destruct (Path.jsstring_eqb ext (JS.lit "txt")) eqn:E; [| exact Hsame].
    exfalso. apply jsstring_eqb_eq in E. subst ext.
    revert Hsame. unfold withoutTxt.
    assert (Hends : JS.endsWith (withExtension stem (JS.lit "txt")) (JS.lit ".txt") = true).
    { apply endsWith_iff. exists stem. reflexivity. }
    assert (Hnot : Path.jsstring_eqb (withExtension stem (JS.lit "txt")) (JS.lit ".txt")
                   = false).
    { apply jsstring_eqb_neq. intros H. apply (f_equal (@length N)) in H.
      unfold withExtension in H. rewrite length_app in H. simpl in H.
      destruct stem; [contradiction | simpl in H; lia]. }
    rewrite Hends, Hnot. cbn [andb negb]. intros H.
    apply (f_equal (@length N)) in H. rewrite length_take in H.
    unfold withExtension in H. rewrite length_app in H. simpl in H. lia.
  - rewrite Hw.
    change ((c :: s) ++ JS.lit ".txt") with (withExtension (c :: s) (JS.lit "txt")) in Hf.
    apply withExtension_inj in Hf; [| exact Hext | exact txt_dotFree].
    destruct Hf as [-> ->].
    rewrite (proj2 (jsstring_eqb_eq _ _) eq_refl). reflexivity.
Qed.

Lemma withExtension_isName (stem ext : jsstring) :
  isName stem = true -> isExtension ext = true -> isName (withExtension stem ext) = true.
Proof.
  intros Hstem Hext. apply isName_facts in Hstem. destruct Hstem as (Hne & Hsl & _).
  apply isExtension_facts in Hext. destruct Hext as (Hene & Hesl & _).
  apply isName_intro.
  - unfold slashFree, withExtension. apply List.Forall_app. split; [exact Hsl |].
    constructor; [discriminate | exact Hesl].
  - unfold withExtension. rewrite length_app. simpl.
    destruct stem; [contradiction |]. destruct ext; [contradiction |]. simpl. lia.
Qed.

(** C2, as stated, fails: [a.txt] and [a.md] of one directory have the
    sidecars [a.json] and [a.md.json]. *)
Lemma same_stem_does_not_collide :
  BookConfigManager.getConfigPath (JS.lit "/books/a.txt") = JS.lit "/books/a.json"
  /\ BookConfigManager.getConfigPath (JS.lit "/books/a.md") = JS.lit "/books/a.md.json"
  /\ ~ same_stem_collides [JS.lit "books"] (JS.lit "a") (JS.lit "txt") (JS.lit "md").
Proof.
  split; [vm_compute; reflexivity |]. split; [vm_compute; reflexivity |].
  unfold same_stem_collides. vm_compute. discriminate.
Qed.

(** C2, amended. For an absolute path made of names, the sidecar path is the
    path, in the same directory, of the file's name with a final [.txt]
    removed and [.json] added. So files with one name in two directories have
    two sidecars; and files of one directory named by one stem and two
    extensions have two sidecars as well: only the extension [txt] is
    replaced, any other one stays in the sidecar's name. *)
Theorem getConfigPath_same_directory (dir1 dir2 : list jsstring)
    (file stem ext1 ext2 : jsstring) :
  forallb isName dir1 = true -> forallb isName dir2 = true ->
  isName file = true -> isName stem = true ->
  isExtension ext1 = true -> isExtension ext2 = true ->
  BookConfigManager.getConfigPath (fileIn dir1 file) = fileIn dir1 (sidecarName file)
  /\ Path.dirname (BookConfigManager.getConfigPath (fileIn dir1 file))
     = Path.dirname (fileIn dir1 file)
  /\ (dir1 <> dir2 ->
      BookConfigManager.getConfigPath (fileIn dir1 file)
      <> BookConfigManager.getConfigPath (fileIn dir2 file))
  /\ (ext1 <> ext2 -> ~ same_stem_collides dir1 stem ext1 ext2)
  /\ sidecarName (withExtension stem (JS.lit "txt")) = stem ++ JS.lit ".json"
  /\ (ext1 <> JS.lit "txt" ->
      sidecarName (withExtension stem ext1) = withExtension stem ext1 ++ JS.lit ".json").
Proof.
  intros Hd1 Hd2 Hfile Hstem He1 He2.
  pose proof (sidecarName_isName file Hfile) as Hside.
  destruct (isName_facts stem Hstem) as (Hsne & _).
  destruct (isExtension_facts ext1 He1) as (_ & _ & Hdot1).
  destruct (isExtension_facts ext2 He2) as (_ & _ & Hdot2).
  assert (Hname : forall ext, dotFree ext ->
            sidecarName (withExtension stem ext)
            = (if Path.jsstring_eqb ext (JS.lit "txt") then stem
               else withExtension stem ext) ++ JS.lit ".json").
  { intros ext Hdot. unfold sidecarName.
    rewrite withoutTxt_withExtension by assumption. reflexivity. }
  split; [apply getConfigPath_fileIn; assumption |].
  split.
  { rewrite getConfigPath_fileIn by assumption. rewrite !dirname_fileIn by assumption.
    reflexivity. }
  split.
  { intros Hne Heq. rewrite !getConfigPath_fileIn in Heq by assumption.
    apply fileIn_inj in Heq; try assumption. apply Hne. tauto. }
  split.
  { intros Hne. unfold same_stem_collides. intros Heq.
    rewrite !getConfigPath_fileIn in Heq by (try apply withExtension_isName; assumption).
    apply fileIn_inj in Heq;
      try (apply sidecarName_isName, withExtension_isName); try assumption.
    destruct Heq as [_ Heq]. rewrite !Hname in Heq by assumption.
    destruct (Path.jsstring_eqb ext1 (JS.lit "txt")) eqn:E1;
      destruct (Path.jsstring_eqb ext2 (JS.lit "txt")) eqn:E2.
    - apply jsstring_eqb_eq in E1, E2. congruence.
    - apply (f_equal (@length N)) in Heq. unfold withExtension in Heq.
      rewrite !length_app in Heq. simpl in Heq. lia.
    - apply (f_equal (@length N)) in Heq. unfold withExtension in Heq.
      rewrite !length_app in Heq. simpl in Heq. lia.
    - apply app_inv_tail in Heq. apply withExtension_inj in Heq; try assumption.
      apply Hne. tauto. }
  split.
  { rewrite Hname by exact txt_dotFree.
    rewrite (proj2 (jsstring_eqb_eq _ _) eq_refl). reflexivity. }
  intros Hne. rewrite Hname by assumption.
  rewrite (proj2 (jsstring_eqb_neq _ _) Hne). reflexivity.
Qed.

Lemma getConfigPath_same_directory_witness :
  BookConfigManager.getConfigPath (JS.lit "/books/a.txt")
    <> BookConfigManager.getConfigPath (JS.lit "/shelf/old/a.txt")
  /\ ~ same_stem_collides [JS.lit "books"] (JS.lit "a") (JS.lit "md") (JS.lit "txt")
  /\ sidecarName (JS.lit "a.md") = JS.lit "a.md.json".
Proof.
  destruct (getConfigPath_same_directory [JS.lit "books"] [JS.lit "shelf"; JS.lit "old"]
              (JS.lit "a.txt") (JS.lit "a") (JS.lit "md") (JS.lit "txt"))
    as (_ & _ & Hdirs & Hexts & _ & Hmd); try (vm_compute; reflexivity).
  split; [apply Hdirs; vm_compute; discriminate |].
  split; [apply Hexts; vm_compute; discriminate |].
  apply Hmd. vm_compute. discriminate.
Defined.


(** ** Further properties of the session *)

Lemma scanChapters_failed `{RegExpEngine} (p : TxtReaderProvider) (h : Host) :
  RegExp_new (activePattern p h) = None ->
  scanChapters p h = (set_chapters [] p, showMessage chapterPatternError h).
Proof.
  unfold scanChapters, activePattern. intros Hnew.
  destruct (bookConfig p) as [[? ? ? ? ? [[|c s]|] ?]|]; simpl in *;
    rewrite Hnew; reflexivity.
Qed.

Lemma scanChapters_frame `{RegExpEngine} (p : TxtReaderProvider) (h : Host) :
  panel (fst (scanChapters p h)) = panel p
  /\ lines (fst (scanChapters p h)) = lines p
  /\ currentLine (fst (scanChapters p h)) = currentLine p
  /\ fileUri (fst (scanChapters p h)) = fileUri p
  /\ bookConfig (fst (scanChapters p h)) = bookConfig p
  /\ saveProgressTimer (fst (scanChapters p h)) = saveProgressTimer p
  /\ disk (snd (scanChapters p h)) = disk h
  /\ timers (snd (scanChapters p h)) = timers h
  /\ posted (snd (scanChapters p h)) = posted h.
Proof.
  destruct (RegExp_new (activePattern p h)) as [r|] eqn:E.
  - rewrite (scanChapters_compiled p h r E). repeat split.
  - rewrite (scanChapters_failed p h E). repeat split.
Qed.

Lemma filter_length_le {A : Type} (f : A -> bool) (l : list A) :
  (length (List.filter f l) <= length l)%nat.
Proof.
  induction l as [|x l IH]; simpl; [lia |]. destruct (f x); simpl; lia.
Qed.

Lemma scanChapters_count `{RegExpEngine} (p : TxtReaderProvider) (h : Host) :
  (length (chapters (fst (scanChapters p h))) <= length (lines p))%nat.
Proof.
  destruct (RegExp_new (activePattern p h)) as [r|] eqn:E.
  - rewrite (scanChapters_compiled p h r E). simpl. rewrite scanLines_eq. simpl.
    rewrite length_map. etransitivity; [apply filter_length_le |].
    rewrite indexed_length. lia.
  - rewrite (scanChapters_failed p h E). simpl. lia.
Qed.

(** X1. Every chapter of the index points into the document: its line index is
    that of a line, and its name is that line's trimmed text; there are no
    more chapters than lines. This holds whether the pattern compiles or
    not. *)
Theorem chapters_within_document `{RegExpEngine} (p : TxtReaderProvider) (h : Host) :
  Forall (fun c =>
            0 <= line c < linesLength p
            /\ exists l, lines p !! Z.to_nat (line c) = Some l /\ name c = JS.trim l)
    (chapters (fst (scanChapters p h)))
  /\ (length (chapters (fst (scanChapters p h))) <= length (lines p))%nat.
Proof.
  destruct (RegExp_new (activePattern p h)) as [r|] eqn:E.
  - rewrite (scanChapters_compiled p h r E). simpl. rewrite scanLines_eq. simpl.
    split.
    + apply List.Forall_forall. intros c Hc. apply in_map_iff in Hc.
      destruct Hc as [[j l] [<- Hin]]. apply filter_In in Hin. destruct Hin as [Hin _].
      apply indexed_In in Hin. destruct Hin as [k [-> Hk]]. simpl.
      pose proof (lookup_lt_Some _ _ _ Hk) as Hlt. unfold linesLength.
      split; [lia |]. exists l. split; [| reflexivity].
      match goal with |- lines p !! ?n = _ => replace n with k by lia end. exact Hk.
    + rewrite length_map. etransitivity; [apply filter_length_le |].
      rewrite indexed_length. lia.
  - rewrite (scanChapters_failed p h E). simpl. split; [constructor | lia].
Qed.

(** X2. A scan replaces the chapter index whatever it held, and touches nothing
    else of the provider. When the pattern does not compile the index is left
    empty and the error is shown; when it compiles nothing is shown. *)
Theorem scanChapters_replaces_index `{RegExpEngine} (p : TxtReaderProvider) (h : Host)
    (old : list Chapter) :
  scanChapters (set_chapters old p) h = scanChapters p h
  /\ set_chapters old (fst (scanChapters p h)) = set_chapters old p
  /\ (RegExp_new (activePattern p h) = None ->
      chapters (fst (scanChapters (set_chapters old p) h)) = []
      /\ snd (scanChapters (set_chapters old p) h) = showMessage chapterPatternError h)
  /\ (is_Some (RegExp_new (activePattern p h)) ->
      snd (scanChapters (set_chapters old p) h) = h).
Proof.
  assert (Hsame : scanChapters (set_chapters old p) h = scanChapters p h) by reflexivity.
  split; [exact Hsame |]. rewrite Hsame.
  destruct (RegExp_new (activePattern p h)) as [r|] eqn:E.
  - rewrite (scanChapters_compiled p h r E). simpl.
    split; [reflexivity |]. split; [discriminate | reflexivity].
  - rewrite (scanChapters_failed p h E). simpl.
    split; [reflexivity |]. split; [intros _; split; reflexivity |].
    intros [r Hr]. discriminate.
Qed.

Lemma scanChapters_replaces_index_witness :
  chapters (fst (@scanChapters fragment_engine
                   (set_chapters [{| name := JS.lit "old"; line := 7 |}] chapterBook)
                   (defaultHost emptyDisk)))
  = chapters (fst (@scanChapters fragment_engine chapterBook (defaultHost emptyDisk)))
  /\ snd (@scanChapters fragment_engine
            (set_chapters [{| name := JS.lit "old"; line := 7 |}] chapterBook)
            (defaultHost emptyDisk))
     = defaultHost emptyDisk.
Proof.
  destruct (@scanChapters_replaces_index fragment_engine chapterBook (defaultHost emptyDisk)
              [{| name := JS.lit "old"; line := 7 |}]) as (Hsame & _ & _ & Hok).
  split; [rewrite Hsame; reflexivity |].
  apply Hok. vm_compute. eexists. reflexivity.
Defined.

(** X3. Search results point into the document, there is at most one per line,
    and searching leaves the provider as it was. *)
Theorem search_hits_within_document (term : jsstring) (p : TxtReaderProvider) (h : Host) :
  Forall (fun r => 0 <= hit r < linesLength p) (searchLines term (lines p) 0 [])
  /\ (length (searchLines term (lines p) 0 []) <= length (lines p))%nat
  /\ List.NoDup (map hit (searchLines term (lines p) 0 []))
  /\ fst (search term p h) = p.
Proof.
  rewrite searchLines_eq. simpl. split; [| split; [| split]].
  - apply List.Forall_forall. intros r Hr. apply in_map_iff in Hr.
    destruct Hr as [[j l] [<- Hin]]. apply filter_In in Hin. destruct Hin as [Hin _].
    apply indexed_In in Hin. destruct Hin as [k [-> Hk]]. simpl.
    pose proof (lookup_lt_Some _ _ _ Hk) as Hlt. unfold linesLength. lia.
  - rewrite length_map. etransitivity; [apply filter_length_le |].
    rewrite indexed_length. lia.
  - assert (Hs : StronglySorted Z.lt
                   (map hit (map resultOf
                      (List.filter (fun il => JS.includes (snd il) term)
                         (indexed 0 (lines p)))))).
    { pose proof (selection_ascending hit resultOf
                    (fun il => JS.includes (snd il) term) 0 (lines p)
                    (fun il => eq_refl)) as Hasc.
      induction Hasc as [|a l Hl IH Ha]; simpl; constructor; [exact IH |].
      apply List.Forall_forall. intros z Hz. apply in_map_iff in Hz.
      destruct Hz as [b [<- Hb]]. apply (proj1 (List.Forall_forall _ _) Ha b Hb). }
    induction Hs as [|a l Hl IH Ha]; constructor; [| exact IH].
    intros Hin. assert (Hlt : a < a); [| lia].
    apply (proj1 (List.Forall_forall _ _) Ha a).
    first [exact Hin | apply list_elem_of_In; exact Hin].
  - unfold search. destruct (_ =? _); reflexivity.
Qed.

Lemma split_no_separator (sep : N) (s : jsstring) :
  Forall (fun piece => ~ In sep piece) (JS.split sep s).
Proof.
  induction s as [|c s IH]; simpl.
  - repeat constructor. intros [].
  - destruct (c =? sep)%N eqn:E.
    + constructor; [intros [] | exact IH].
    + destruct (JS.split sep s) as [|piece rest]; [repeat constructor |].
      * intros [-> | []]. rewrite N.eqb_refl in E. discriminate.
      * inversion IH as [|? ? Hpiece Hrest]; subst. constructor; [| exact Hrest].
        intros [-> | Hin]; [rewrite N.eqb_refl in E; discriminate | contradiction].
Qed.

Lemma split_nonempty (sep : N) (s : jsstring) : JS.split sep s <> [].
Proof.
  destruct s as [|c s]; simpl; [discriminate |].
  destruct (c =? sep)%N; [discriminate |]. destruct (JS.split sep s); discriminate.
Qed.

Lemma joinWith_split (sep : N) (s : jsstring) : joinWith sep (JS.split sep s) = s.
Proof.
  induction s as [|c s IH]; simpl; [reflexivity |].
  pose proof (split_nonempty sep s) as Hne.
  destruct (c =? sep)%N eqn:E.
  - apply N.eqb_eq in E. subst c.
    destruct (JS.split sep s) as [|piece rest]; [contradiction |].
    change (sep :: joinWith sep (piece :: rest) = sep :: s). rewrite IH. reflexivity.
  - destruct (JS.split sep s) as [|piece rest]; [contradiction |].
    destruct rest as [|piece' rest].
    + simpl in *. rewrite IH. reflexivity.
    + change (c :: joinWith sep (piece :: piece' :: rest) = c :: s).
      rewrite IH. reflexivity.
Qed.

Lemma split_length (sep : N) (s : jsstring) :
  length (JS.split sep s) = S (count_occ N.eq_dec s sep).
Proof.
  induction s as [|c s IH]; simpl; [reflexivity |].
  destruct (N.eq_dec c sep) as [-> | Hne].
  - rewrite N.eqb_refl. simpl. rewrite IH. reflexivity.
  - apply N.eqb_neq in Hne. rewrite Hne.
    destruct (JS.split sep s); simpl in *; congruence.
Qed.

(** X4. Opening a file whose text was read keeps all of it: no line holds a line
    feed, the lines joined with line feeds are the text, and there is one line
    more than there are line feeds, so at least one. Carriage returns stay in
    the lines. *)
Theorem show_keeps_the_text `{RegExpEngine} (fsPath text : jsstring) (h : Host) :
  lines (fst (show fsPath (Some text) h)) = JS.split 10 text
  /\ joinWith 10 (lines (fst (show fsPath (Some text) h))) = text
  /\ Forall (fun l => ~ In 10%N l) (lines (fst (show fsPath (Some text) h)))
  /\ length (lines (fst (show fsPath (Some text) h)))
     = S (count_occ N.eq_dec text 10%N)
  /\ 1 <= linesLength (fst (show fsPath (Some text) h)).
Proof.
  assert (Hlines : lines (fst (show fsPath (Some text) h)) = JS.split 10 text).
  { unfold show.
    match goal with |- context [scanChapters ?p0 ?h0] =>
      destruct (scanChapters_frame p0 h0) as (_ & Hl & _);
      destruct (scanChapters p0 h0) as [p1 h1]
    end.
    simpl in *. exact Hl. }
  unfold linesLength. rewrite Hlines.
  split; [reflexivity |]. split; [apply joinWith_split |].
  split; [apply split_no_separator |].
  split; [apply split_length |]. rewrite split_length. lia.
Qed.

(** X5. When the file cannot be read the session is still created, with the
    error shown first and no lines: it has no chapters, every search finds
    nothing, [jumpToLine] ignores every line, and [scrollDown] leaves the
    cursor below zero. The cursor starts from the saved progress all the
    same. *)
Theorem show_unreadable_file `{RegExpEngine} (fsPath : jsstring) (h : Host) :
  lines (fst (show fsPath None h)) = []
  /\ chapters (fst (show fsPath None h)) = []
  /\ currentLine (fst (show fsPath None h))
     = match BookConfigManager.loadConfig (disk h) fsPath with
       | Some config => progress config
       | None => 0
       end
  /\ (exists rest, shown (snd (show fsPath None h)) = shown h ++ fileReadError :: rest)
  /\ (forall term, searchLines term (lines (fst (show fsPath None h))) 0 [] = [])
  /\ (forall n h', jumpToLine n (fst (show fsPath None h)) h'
                   = (fst (show fsPath None h), h'))
  /\ (forall h', currentLine (fst (scrollDown (fst (show fsPath None h)) h')) <= -1).
Proof.
  unfold show.
  match goal with |- context [scanChapters ?p0 ?h0] =>
    pose proof (scanChapters_frame p0 h0) as Hframe;
    pose proof (scanChapters_count p0 h0) as Hcount;
    assert (Hshown : exists rest,
              shown (snd (scanChapters p0 h0)) = shown h ++ fileReadError :: rest);
    [ destruct (RegExp_new (activePattern p0 h0)) as [r|] eqn:E;
      [ rewrite (scanChapters_compiled p0 h0 r E); exists []; reflexivity
      | rewrite (scanChapters_failed p0 h0 E); exists [chapterPatternError];
        simpl; rewrite <- app_assoc; reflexivity ]
    | destruct (scanChapters p0 h0) as [p1 h1] ]
  end.
  simpl in Hframe, Hcount, Hshown. destruct Hframe as (Hpanel & Hl & Hc & _).
  cbn [fst snd].
  assert (Hlen : linesLength p1 = 0) by (unfold linesLength; rewrite Hl; reflexivity).
  split; [exact Hl |].
  split; [destruct (chapters p1); [reflexivity | simpl in Hcount; lia] |].
  split; [exact Hc |].
  split.
  { destruct Hshown as [rest Hrest]. exists rest.
    unfold sendInitialContent, sendChaptersToWebview. destruct (panel p1); exact Hrest. }
  split; [intros term; rewrite Hl; reflexivity |].
  split.
  - intros n h'. unfold jumpToLine. rewrite Hlen.
    destruct (0 <=? n) eqn:E1; destruct (n <? 0) eqn:E2; try reflexivity.
    apply Z.leb_le in E1. apply Z.ltb_lt in E2. lia.
  - intros h'. unfold scrollDown. simpl. rewrite Hlen. lia.
Qed.

(** *** What the events leave alone *)

Lemma fire_frame (p : TxtReaderProvider) (due : list (nat * Z)) (h : Host) :
  scrollStep (fold_left (fun h' t => saveProgressNow p (set_clock (snd t) h')) due h)
    = scrollStep h
  /\ timers (fold_left (fun h' t => saveProgressNow p (set_clock (snd t) h')) due h)
     = timers h
  /\ posted (fold_left (fun h' t => saveProgressNow p (set_clock (snd t) h')) due h)
     = posted h
  /\ shown (fold_left (fun h' t => saveProgressNow p (set_clock (snd t) h')) due h)
     = shown h.
Proof.
  revert h. induction due as [|t due IH]; intros h; [repeat split |].
  cbn [fold_left]. destruct (IH (saveProgressNow p (set_clock (snd t) h))) as (H1 & H2 & H3 & H4).
  rewrite H1, H2, H3, H4. repeat split.
Qed.

(** No event changes the lines, the path, the loaded config, the chapter
    index or the scroll step. *)
Lemma step_frame (e : Event) (p : TxtReaderProvider) (h : Host) :
  lines (fst (step e (p, h))) = lines p
  /\ fileUri (fst (step e (p, h))) = fileUri p
  /\ bookConfig (fst (step e (p, h))) = bookConfig p
  /\ chapters (fst (step e (p, h))) = chapters p
  /\ scrollStep (snd (step e (p, h))) = scrollStep h.
Proof.
  destruct e; cbn [step].
  - unfold scrollUp, updateWebview. simpl. destruct (panel p); repeat split.
  - unfold scrollDown, updateWebview. simpl. destruct (panel p); repeat split.
  - unfold jumpToLine, updateWebview.
    destruct (_ && _); simpl; [destruct (panel p) |]; repeat split.
  - unfold search. destruct (_ =? _); simpl; destruct (panel p); repeat split.
  - unfold jumpToLine, updateWebview.
    destruct (_ && _); simpl; [destruct (panel p) |]; repeat split.
  - unfold sendChaptersToWebview. simpl. destruct (panel p); repeat split.
  - unfold updateProgress. simpl. destruct (saveProgressTimer p); repeat split.
  - unfold sendInitialContent, sendChaptersToWebview. simpl.
    destruct (panel p); repeat split.
  - unfold advance. cbn [fst snd set_clock scrollStep].
    match goal with |- context [fold_left ?f ?due ?h0] =>
      destruct (fire_frame p due h0) as (Hs & _)
    end.
    rewrite Hs. repeat split.
  - unfold onDidDispose. simpl. destruct (saveProgressTimer p); repeat split.
Qed.

Lemma step_request_frame (e : Event) (p : TxtReaderProvider) (h : Host) :
  isRequest e = true ->
  disk (snd (step e (p, h))) = disk h
  /\ timers (snd (step e (p, h))) = timers h
  /\ nextTimer (snd (step e (p, h))) = nextTimer h
  /\ clock (snd (step e (p, h))) = clock h
  /\ saveProgressTimer (fst (step e (p, h))) = saveProgressTimer p
  /\ panel (fst (step e (p, h))) = panel p.
Proof.
  intros He. destruct e; try discriminate He; cbn [step].
  - unfold scrollUp, updateWebview. simpl. destruct (panel p); repeat split.
  - unfold scrollDown, updateWebview. simpl. destruct (panel p); repeat split.
  - unfold jumpToLine, updateWebview.
    destruct (_ && _); simpl; [destruct (panel p) |]; repeat split.
  - unfold search. destruct (_ =? _); simpl; destruct (panel p); repeat split.
  - unfold jumpToLine, updateWebview.
    destruct (_ && _); simpl; [destruct (panel p) |]; repeat split.
  - unfold sendChaptersToWebview. simpl. destruct (panel p); repeat split.
  - unfold sendInitialContent, sendChaptersToWebview. simpl.
    destruct (panel p); repeat split.
Qed.

(** X6. Scrolling, jumping, searching and the requests for chapters and content
    never write to the disk, never start or cancel a timer, and never change
    the document, the chapter index or the loaded config, however many of
    them come; and a report of the reading position writes nothing at the
    moment it arrives. *)
Theorem requests_leave_disk_and_timers (es : list Event) (l : Z)
    (p : TxtReaderProvider) (h : Host) :
  (forallb isRequest es = true ->
   disk (snd (run es (p, h))) = disk h
   /\ timers (snd (run es (p, h))) = timers h
   /\ saveProgressTimer (fst (run es (p, h))) = saveProgressTimer p
   /\ lines (fst (run es (p, h))) = lines p
   /\ chapters (fst (run es (p, h))) = chapters p
   /\ bookConfig (fst (run es (p, h))) = bookConfig p)
  /\ disk (snd (updateProgress l p h)) = disk h.
Proof.
  split.
  - revert p h. induction es as [|e es IH]; intros p h Hes; [repeat split |].
    cbn [forallb] in Hes. apply andb_true_iff in Hes. destruct Hes as [He Hes].
    rewrite run_cons.
    destruct (step_request_frame e p h He) as (Hd & Ht & _ & _ & Hs & _).
    destruct (step_frame e p h) as (Hl & _ & Hb & Hc & _).
    destruct (step e (p, h)) as [p1 h1]. cbn [fst snd] in *.
    destruct (IH p1 h1 Hes) as (Hd' & Ht' & Hs' & Hl' & Hc' & Hb').
    rewrite Hd', Ht', Hs', Hl', Hc', Hb'. repeat split; assumption.
  - unfold updateProgress. simpl. destruct (saveProgressTimer p); reflexivity.
Qed.

Lemma requests_leave_disk_and_timers_witness :
  disk (snd (run [msgScrollDown; msgSearch (JS.lit "abc"); msgJumpToLine 2;
                  msgRequestChapters]
               (threeLines, defaultHost emptyDisk))) = emptyDisk
  /\ timers (snd (run [msgScrollDown; msgSearch (JS.lit "abc"); msgJumpToLine 2;
                       msgRequestChapters]
                    (threeLines, defaultHost emptyDisk))) = [].
Proof.
  destruct (requests_leave_disk_and_timers
              [msgScrollDown; msgSearch (JS.lit "abc"); msgJumpToLine 2; msgRequestChapters]
              0 threeLines (defaultHost emptyDisk)) as [Hreq _].
  destruct Hreq as (Hd & Ht & _); [reflexivity |].
  split; [exact Hd | exact Ht].
Defined.

(** X7. From a cursor on a line of the document and a step that is not negative,
    no sequence of events other than reports of the reading position takes the
    cursor off the document. The document has at most [2 ^ 53 - 1] lines, as
    every array has: up to there the sums and differences of the scroll
    commands cannot round past a line that exists. *)
Theorem navigation_keeps_cursor_in_range (es : list Event)
    (p : TxtReaderProvider) (h : Host) :
  0 <= scrollStep h ->
  linesLength p <= JS.MAX_SAFE_INTEGER ->
  cursorInRange p ->
  forallb (fun e => match e with msgUpdateProgress _ => false | _ => true end) es = true ->
  cursorInRange (fst (run es (p, h))).
Proof.
  revert p h. induction es as [|e es IH]; intros p h Hstep Hmax Hin Hes; [exact Hin |].
  cbn [forallb] in Hes. apply andb_true_iff in Hes. destruct Hes as [He Hes].
  rewrite run_cons.
  destruct (step_frame e p h) as (Hl & _ & _ & _ & Hs).
  assert (Hin' : cursorInRange (fst (step e (p, h)))).
  { unfold cursorInRange, linesLength in *. rewrite Hl.
    assert (Hsafe : JS.isSafeInteger (currentLine p) = true)
      by (apply isSafeInteger_iff; lia).
    destruct e; try discriminate He; cbn [step].
    - unfold scrollUp. cbn [fst currentLine set_currentLine].
      destruct (sub_cases (currentLine p) (scrollStep h) Hsafe)
        as [[_ Hsub] | [[Hsub _] | [_ Hsub]]]; try rewrite Hsub; lia.
    - unfold scrollDown, linesLength. cbn [fst currentLine set_currentLine].
      destruct (add_cases (currentLine p) (scrollStep h) Hsafe)
        as [[_ Hadd] | [[_ Hadd] | [Hadd _]]]; try rewrite Hadd; lia.
    - unfold jumpToLine, linesLength.
      destruct (0 <=? line0) eqn:E1; destruct (line0 <? _) eqn:E2; simpl; try exact Hin.
      apply Z.leb_le in E1. apply Z.ltb_lt in E2. lia.
    - unfold search. destruct (_ =? _); exact Hin.
    - unfold jumpToLine, linesLength.
      destruct (0 <=? line0) eqn:E1; destruct (line0 <? _) eqn:E2; simpl; try exact Hin.
      apply Z.leb_le in E1. apply Z.ltb_lt in E2. lia.
    - exact Hin.
    - exact Hin.
    - exact Hin.
    - unfold onDidDispose. simpl. exact Hin. }
  destruct (step e (p, h)) as [p1 h1]. cbn [fst snd] in *.
  apply IH; [rewrite Hs; exact Hstep | unfold linesLength in *; rewrite Hl; exact Hmax
            | exact Hin' | exact Hes].
Qed.

Lemma navigation_keeps_cursor_in_range_witness :
  cursorInRange (fst (run [msgScrollDown; msgScrollDown; msgJumpToLine 7; msgScrollUp;
                           elapse 10; msgJumpToChapter 2; msgScrollDown]
                        (threeLines, defaultHost emptyDisk))).
Proof.
  apply (navigation_keeps_cursor_in_range
           [msgScrollDown; msgScrollDown; msgJumpToLine 7; msgScrollUp;
            elapse 10; msgJumpToChapter 2; msgScrollDown]
           threeLines (defaultHost emptyDisk)).
  - vm_compute. discriminate.
  - vm_compute. discriminate.
  - vm_compute. split; discriminate.
  - reflexivity.
Defined.

(** *** The pending timer and the number of writes *)

Lemma step_pending_bound (e : Event) (p : TxtReaderProvider) (h : Host) :
  one_pending p h ->
  one_pending (fst (step e (p, h))) (snd (step e (p, h)))
  /\ (length (writeLog (disk (snd (step e (p, h)))))
      + length (timers (snd (step e (p, h))))
      <= length (writeLog (disk h)) + length (timers h)
         + (if isReportOrClose e then 1 else 0))%nat.
Proof.
  intros Hinv.
  destruct (isRequest e) eqn:Hreq.
  { destruct (step_request_frame e p h Hreq) as (Hd & Ht & _ & _ & Hs & _).
    rewrite Hd, Ht. split; [| lia].
    unfold one_pending in *. rewrite Ht, Hs. exact Hinv. }
  destruct e; try discriminate Hreq; cbn [step isReportOrClose].
  - rewrite (updateProgress_pending line0 p h Hinv). cbn [fst snd timers disk length].
    split; [| lia]. right. eexists _, _. split; reflexivity.
  - cbn [fst snd]. destruct Hinv as [Hnone | (handle & due & Hone & Hheld)].
    + rewrite (advance_idle dt p h Hnone). cbn [set_clock timers disk].
      split; [left; exact Hnone | lia].
    + destruct (Z_lt_le_dec (clock h + dt) due) as [Hlt | Hle].
      * rewrite (advance_not_due dt p h handle due Hone Hlt). cbn [set_clock timers disk].
        split; [| lia]. right. exists handle, due. split; assumption.
      * rewrite (advance_due dt p h handle due Hone Hle).
        unfold saveProgressNow, BookConfigManager.updateProgress.
        cbn [set_clock set_disk set_timers timers disk].
        rewrite saveConfig_writeLog, length_app, Hone. simpl.
        split; [left; reflexivity | lia].
  - unfold onDidDispose. cbn [fst snd].
    assert (Hcleared :
      timers (match saveProgressTimer p with
              | Some handle => clearTimeout handle (saveProgressNow p h)
              | None => saveProgressNow p h
              end) = []).
    { destruct Hinv as [Hnone | (handle & due & Hone & Hheld)].
      - destruct (saveProgressTimer p); unfold clearTimeout; simpl; rewrite Hnone;
          reflexivity.
      - rewrite Hheld. unfold clearTimeout. simpl. rewrite Hone. simpl.
        rewrite Nat.eqb_refl. reflexivity. }
    assert (Hlog :
      writeLog (disk (match saveProgressTimer p with
                      | Some handle => clearTimeout handle (saveProgressNow p h)
                      | None => saveProgressNow p h
                      end))
      = writeLog (disk (saveProgressNow p h))).
    { destruct (saveProgressTimer p); reflexivity. }
    rewrite Hcleared, Hlog.
    unfold saveProgressNow, BookConfigManager.updateProgress. cbn [set_disk disk].
    rewrite saveConfig_writeLog, length_app. simpl.
    split; [left; exact Hcleared | lia].
Qed.

Lemma run_appends (es : list Event) (p : TxtReaderProvider) (h : Host) :
  exists ws, writeLog (disk (snd (run es (p, h)))) = writeLog (disk h) ++ ws.
Proof.
  revert p h. induction es as [|e es IH]; intros p h.
  - exists []. rewrite app_nil_r. reflexivity.
  - rewrite run_cons. destruct (step_appends e p h) as (ws1 & Hlog1 & _).
    destruct (step e (p, h)) as [p1 h1]. cbn [snd] in Hlog1.
    destruct (IH p1 h1) as (ws2 & Hlog2). exists (ws1 ++ ws2).
    rewrite Hlog2, Hlog1, app_assoc. reflexivity.
Qed.

(** X8. In a session that starts with at most one timer pending, the one the
    provider holds, this stays so whatever happens: no second timer is ever
    pending. The records written and the timer pending never outnumber the
    reports of the reading position and the closings received; so with no
    timer pending at the start, events that are neither a report nor a closing
    write nothing, however much time passes. *)
Theorem writes_bounded_by_reports (es : list Event) (p : TxtReaderProvider) (h : Host) :
  one_pending p h ->
  one_pending (fst (run es (p, h))) (snd (run es (p, h)))
  /\ (length (timers (snd (run es (p, h)))) <= 1)%nat
  /\ (length (writeLog (disk (snd (run es (p, h)))))
      + length (timers (snd (run es (p, h))))
      <= length (writeLog (disk h)) + length (timers h)
         + length (List.filter isReportOrClose es))%nat
  /\ (timers h = [] -> List.filter isReportOrClose es = [] ->
      writeLog (disk (snd (run es (p, h)))) = writeLog (disk h)).
Proof.
  intros Hinv.
  assert (Hmain : one_pending (fst (run es (p, h))) (snd (run es (p, h)))
    /\ (length (writeLog (disk (snd (run es (p, h)))))
        + length (timers (snd (run es (p, h))))
        <= length (writeLog (disk h)) + length (timers h)
           + length (List.filter isReportOrClose es))%nat).
  { revert p h Hinv. induction es as [|e es IH]; intros p h Hinv.
    - split; [exact Hinv | simpl; lia].
    - rewrite run_cons. destruct (step_pending_bound e p h Hinv) as [Hinv1 Hle1].
      destruct (step e (p, h)) as [p1 h1]. cbn [fst snd] in *.
      destruct (IH p1 h1 Hinv1) as [Hinv2 Hle2]. split; [exact Hinv2 |].
      cbn [List.filter]. destruct (isReportOrClose e); simpl length; lia. }
  destruct Hmain as [Hinv' Hle]. split; [exact Hinv' |].
  split.
  { destruct Hinv' as [-> | (handle & due & -> & _)]; simpl; lia. }
  split; [exact Hle |].
  intros Hnone Hquiet. rewrite Hnone, Hquiet in Hle. simpl in Hle.
  destruct (run_appends es p h) as (ws & Hws). rewrite Hws in *.
  rewrite length_app in Hle. destruct ws; [apply app_nil_r | simpl in Hle; lia].
Qed.

Lemma writes_bounded_by_reports_witness :
  writeLog (disk (snd (run [msgScrollDown; elapse 5000; msgJumpToLine 0; elapse 5000]
                         (threeLines, defaultHost emptyDisk)))) = []
  /\ (length (timers (snd (run [msgUpdateProgress 1; msgUpdateProgress 2; elapse 10;
                                msgUpdateProgress 0]
                             (threeLines, defaultHost emptyDisk)))) <= 1)%nat.
Proof.
  split.
  - apply (writes_bounded_by_reports
             [msgScrollDown; elapse 5000; msgJumpToLine 0; elapse 5000]
             threeLines (defaultHost emptyDisk)); [left |..]; reflexivity.
  - apply (writes_bounded_by_reports
             [msgUpdateProgress 1; msgUpdateProgress 2; elapse 10; msgUpdateProgress 0]
             threeLines (defaultHost emptyDisk)). left. reflexivity.
Defined.

(** ** Further properties of the sidecar files *)

(** *** What a save leaves on the disk *)

Lemma basename_fileIn (dir : list jsstring) (file : jsstring) :
  isName file = true -> Path.basename (fileIn dir file) None = file.
Proof.
  intros Hfile. apply isName_facts in Hfile. destruct Hfile as (Hne & Hsl & _).
  rewrite fileIn_eq.
  set (P := absolute dir).
  assert (Hpath : P ++ Path.SLASH :: file = (P ++ [Path.SLASH]) ++ file)
    by (rewrite <- app_assoc; reflexivity).
  assert (Hrev : rev (P ++ Path.SLASH :: file) = rev file ++ Path.SLASH :: rev P)
    by (rewrite rev_app_distr; simpl; rewrite <- app_assoc; reflexivity).
  assert (Hlen : Z.of_nat (length (P ++ Path.SLASH :: file))
                 = Z.of_nat (length (P ++ [Path.SLASH])) + Z.of_nat (length file))
    by (rewrite Hpath, length_app; lia).
  assert (Hpos : 0 < Z.of_nat (length file)) by (destruct file; [contradiction | simpl; lia]).
  assert (Hrne : rev file <> []).
  { intros Hr. apply Hne. rewrite <- (rev_involutive file), Hr. reflexivity. }
  unfold Path.basename. rewrite Hrev.
  rewrite basename_loop_name by (try apply slashFree_rev; try assumption; lia).
  rewrite length_rev.
  destruct (_ =? -1) eqn:Em; [apply Z.eqb_eq in Em; lia |].
  rewrite Hpath at 1. rewrite slice_tail by lia.
  apply firstn_all2. rewrite Hlen. lia.
Qed.

Lemma sidecarName_not_txt (file : jsstring) :
  JS.endsWith (sidecarName file) (JS.lit ".txt") = false.
Proof.
  unfold sidecarName, JS.endsWith. rewrite rev_app_distr. reflexivity.
Qed.

(** An entry that is not a book's adds nothing to the listing. *)
Lemma collectBooks_skip_last (d : Disk) (dirPath x : jsstring) (files : list jsstring)
    (books : list BookConfig) :
  JS.endsWith x (JS.lit ".txt") = false ->
  BookConfigManager.collectBooks d dirPath (files ++ [x]) books
  = BookConfigManager.collectBooks d dirPath files books.
Proof.
  intros Hx. revert books. induction files as [|file files IH]; intros books.
  - cbn [app BookConfigManager.collectBooks]. rewrite Hx. reflexivity.
  - cbn [app BookConfigManager.collectBooks].
    destruct (JS.endsWith file (JS.lit ".txt")); [| apply IH].
    destruct (stats d !! Path.join dirPath file) as [st|]; [| reflexivity].
    destruct (isFile st); apply IH.
Qed.

(** The number of books listed depends on the entries and on what [stat]
    says of those named like books. *)
Lemma collectBooks_length (d d' : Disk) (dirPath : jsstring) (files : list jsstring) :
  (forall file, In file files -> JS.endsWith file (JS.lit ".txt") = true ->
     stats d' !! Path.join dirPath file = stats d !! Path.join dirPath file) ->
  forall books books' : list BookConfig,
    length books' = length books ->
    length (BookConfigManager.collectBooks d' dirPath files books')
    = length (BookConfigManager.collectBooks d dirPath files books).
Proof.
  induction files as [|file files IH]; intros Hstat books books' Hlen; [exact Hlen |].
  assert (Hrest : forall f, In f files -> JS.endsWith f (JS.lit ".txt") = true ->
                    stats d' !! Path.join dirPath f = stats d !! Path.join dirPath f).
  { intros f Hf. apply Hstat. right. exact Hf. }
  cbn [BookConfigManager.collectBooks].
  destruct (JS.endsWith file (JS.lit ".txt")) eqn:E; [| apply (IH Hrest); exact Hlen].
  rewrite (Hstat file (or_introl eq_refl) E).
  destruct (stats d !! Path.join dirPath file) as [st|]; [| exact Hlen].
  destruct (isFile st); apply (IH Hrest); [| exact Hlen].
  rewrite !length_app, Hlen. reflexivity.
Qed.

(** The file of a sidecar is not a book of its directory. *)
Lemma sidecar_is_no_entry (dir : list jsstring) (file entry : jsstring) :
  forallb isName dir = true -> isName file = true -> isName entry = true ->
  JS.endsWith entry (JS.lit ".txt") = true ->
  fileIn dir (sidecarName file) <> Path.join (directory dir) entry.
Proof.
  intros Hdir Hfile Hentry Htxt Heq.
  rewrite join_directory in Heq by assumption.
  apply fileIn_inj in Heq; try assumption; [| apply sidecarName_isName; exact Hfile].
  destruct Heq as [_ Heq]. rewrite <- Heq, sidecarName_not_txt in Htxt. discriminate.
Qed.

(** Storing the sidecar of [file] puts its name among the entries of the
    directory, and leaves the number of books listed there as it is. *)
Lemma store_sidecar (d d1 : Disk) (now : Z) (dir : list jsstring) (file : jsstring)
    (files : list jsstring) (data : FileData) :
  forallb isName dir = true ->
  isName file = true ->
  dirs d !! directory dir = Some files ->
  forallb isName files = true ->
  stats d1 = stats d ->
  dirs d1 = dirs d ->
  dirs (BookConfigManager.store d1 now (fileIn dir (sidecarName file)) data)
    !! directory dir
  = Some (if decide (sidecarName file ∈ files) then files
          else files ++ [sidecarName file])
  /\ length (BookConfigManager.getAllBooksInDirectory
               (BookConfigManager.store d1 now (fileIn dir (sidecarName file)) data)
               (directory dir))
     = length (BookConfigManager.getAllBooksInDirectory d (directory dir)).
Proof.
  intros Hdir Hfile Hfiles Hnames Hstats Hdirs.
  pose proof (sidecarName_isName file Hfile) as Hside.
  assert (Hlisted :
            dirs (BookConfigManager.store d1 now (fileIn dir (sidecarName file)) data)
              !! directory dir
            = Some (if decide (sidecarName file ∈ files) then files
                    else files ++ [sidecarName file])).
  { unfold BookConfigManager.store. cbn [dirs].
    rewrite (dirname_fileIn dir _ Hdir Hside), (basename_fileIn dir _ Hside), Hdirs, Hfiles.
    case_decide; [exact Hfiles | apply lookup_insert_eq]. }
  split; [exact Hlisted |].
  unfold BookConfigManager.getAllBooksInDirectory.
  rewrite Hlisted, Hfiles.
  rewrite !(Permutation_length (sort_perm _ _)).
  assert (Hsame : forall entry, In entry files ->
            JS.endsWith entry (JS.lit ".txt") = true ->
            stats (BookConfigManager.store d1 now (fileIn dir (sidecarName file)) data)
              !! Path.join (directory dir) entry
            = stats d !! Path.join (directory dir) entry).
  { intros entry Hentry Htxt. unfold BookConfigManager.store. cbn [stats].
    rewrite Hstats. apply lookup_insert_ne. apply sidecar_is_no_entry; try assumption.
    rewrite forallb_forall in Hnames. apply Hnames. exact Hentry. }
  case_decide.
  - apply (collectBooks_length _ _ _ _ Hsame). reflexivity.
  - rewrite collectBooks_skip_last by apply sidecarName_not_txt.
    apply (collectBooks_length _ _ _ _ Hsame). reflexivity.
Qed.

(** X9. What a save leaves on the disk, for a config that names a file by an
    absolute path made of ordinary names, in a directory whose entries are
    known. When the write goes through, [loadConfig] returns the config,
    [stat] finds the sidecar as a regular file modified at the time of the
    write, and the directory lists the sidecar's name, without any entry
    named like a book being added or lost. When the write is refused, the
    files, [stat] and the directory are as before. When it breaks off after
    the file was opened, the sidecar is a file that cannot be loaded, even if
    a config was found before. In all three cases the directory lists as many
    books as before. *)
Theorem saveConfig_creates_sidecar (d : Disk) (now : Z) (config : BookConfig)
    (dir : list jsstring) (file : jsstring) (files : list jsstring) :
  forallb isName dir = true ->
  isName file = true ->
  filePath config = fileIn dir file ->
  dirs d !! directory dir = Some files ->
  forallb isName files = true ->
  (fileIn dir (sidecarName file) ∉ readonly d ->
   snd (BookConfigManager.saveConfig d now config) = true
   /\ BookConfigManager.loadConfig (fst (BookConfigManager.saveConfig d now config))
        (fileIn dir file) = Some config
   /\ stats (fst (BookConfigManager.saveConfig d now config))
        !! fileIn dir (sidecarName file) = Some {| isFile := true; mtime := now |}
   /\ exists files',
        dirs (fst (BookConfigManager.saveConfig d now config)) !! directory dir
        = Some files'
        /\ In (sidecarName file) files'
        /\ List.filter (fun f => JS.endsWith f (JS.lit ".txt")) files'
           = List.filter (fun f => JS.endsWith f (JS.lit ".txt")) files)
  /\ (fileIn dir (sidecarName file) ∈ readonly d ->
      fileIn dir (sidecarName file) ∉ torn d ->
      snd (BookConfigManager.saveConfig d now config) = false
      /\ sidecars (fst (BookConfigManager.saveConfig d now config)) = sidecars d
      /\ stats (fst (BookConfigManager.saveConfig d now config)) = stats d
      /\ dirs (fst (BookConfigManager.saveConfig d now config)) = dirs d)
  /\ (fileIn dir (sidecarName file) ∈ readonly d ->
      fileIn dir (sidecarName file) ∈ torn d ->
      snd (BookConfigManager.saveConfig d now config) = false
      /\ BookConfigManager.loadConfig (fst (BookConfigManager.saveConfig d now config))
           (fileIn dir file) = None
      /\ stats (fst (BookConfigManager.saveConfig d now config))
           !! fileIn dir (sidecarName file) = Some {| isFile := true; mtime := now |})
  /\ length (BookConfigManager.getAllBooksInDirectory
               (fst (BookConfigManager.saveConfig d now config)) (directory dir))
     = length (BookConfigManager.getAllBooksInDirectory d (directory dir)).
Proof.
  intros Hdir Hfile Hpath Hfiles Hnames.
  assert (Hcfg : BookConfigManager.getConfigPath (filePath config)
                 = fileIn dir (sidecarName file))
    by (rewrite Hpath; apply getConfigPath_fileIn; assumption).
  assert (Hload : forall d', BookConfigManager.loadConfig d' (fileIn dir file)
            = match sidecars d' !! fileIn dir (sidecarName file) with
              | Some (Json c) => Some c
              | _ => None
              end).
  { intros d'. unfold BookConfigManager.loadConfig.
    rewrite getConfigPath_fileIn by assumption. reflexivity. }
  unfold BookConfigManager.saveConfig. rewrite Hcfg.
  match goal with |- context [BookConfigManager.store ?logged _ _ _] =>
    set (d0 := logged)
  end.
  assert (Hstore : forall data,
            dirs (BookConfigManager.store d0 now (fileIn dir (sidecarName file)) data)
              !! directory dir
            = Some (if decide (sidecarName file ∈ files) then files
                    else files ++ [sidecarName file])
            /\ length (BookConfigManager.getAllBooksInDirectory
                         (BookConfigManager.store d0 now (fileIn dir (sidecarName file))
                            data)
                         (directory dir))
               = length (BookConfigManager.getAllBooksInDirectory d (directory dir)))
    by (intros data; apply store_sidecar; try assumption; reflexivity).
  destruct (decide (fileIn dir (sidecarName file) ∈ readonly d)) as [Hro | Hw];
    [destruct (decide (fileIn dir (sidecarName file) ∈ torn d)) as [Htorn | Hwhole] |];
    cbn [fst snd].
  - split; [intros Hw; contradiction |].
    split; [intros _ Hwhole; contradiction |].
    split; [| apply (proj2 (Hstore Garbage))].
    intros _ _. split; [reflexivity |].
    split; [rewrite Hload; cbn [BookConfigManager.store sidecars];
            rewrite lookup_insert_eq; reflexivity |].
    cbn [BookConfigManager.store stats]. apply lookup_insert_eq.
  - split; [intros Hw; contradiction |].
    split; [intros _ _; repeat split |].
    split; [intros _ Htorn; contradiction |].
    unfold BookConfigManager.getAllBooksInDirectory, d0. cbn [dirs]. rewrite Hfiles.
    rewrite !(Permutation_length (sort_perm _ _)).
    apply collectBooks_length; [intros; reflexivity | reflexivity].
  - split; [| split; [intros Hro; contradiction |
                      split; [intros Hro; contradiction |
                              apply (proj2 (Hstore (Json config)))]]].
    intros _. split; [reflexivity |].
    split; [rewrite Hload; cbn [BookConfigManager.store sidecars];
            rewrite lookup_insert_eq; reflexivity |].
    split; [cbn [BookConfigManager.store stats]; apply lookup_insert_eq |].
    eexists. split; [apply (proj1 (Hstore (Json config))) |].
    split.
    + case_decide as Hd; [apply list_elem_of_In; exact Hd |].
      apply in_or_app. right. left. reflexivity.
    + case_decide; [reflexivity |].
      rewrite List.filter_app. cbn [List.filter]. rewrite sidecarName_not_txt.
      apply app_nil_r.
Qed.

Lemma saveConfig_creates_sidecar_witness :
  dirs (fst (BookConfigManager.saveConfig libraryDisk 50
               (freshConfig (JS.lit "/books/b.txt") 7 30 50 None)))
    !! JS.lit "/books"
  = Some (map JS.lit ["a.json"; "a.txt"; "b.txt"; "b.json"]%string)
  /\ length (BookConfigManager.getAllBooksInDirectory
               (fst (BookConfigManager.saveConfig libraryDisk 50
                       (freshConfig (JS.lit "/books/b.txt") 7 30 50 None)))
               (JS.lit "/books")) = 2%nat.
Proof.
  destruct (saveConfig_creates_sidecar libraryDisk 50
              (freshConfig (JS.lit "/books/b.txt") 7 30 50 None)
              [JS.lit "books"] (JS.lit "b.txt")
              (map JS.lit ["a.json"; "a.txt"; "b.txt"]%string))
    as (_ & _ & _ & Hcount); try (vm_compute; reflexivity).
  split; [vm_compute; reflexivity |].
  refine (eq_trans Hcount _). vm_compute. reflexivity.
Defined.

Lemma updateProgress_loads_fresh (d : Disk) (now : Z) (f : jsstring)
    (progress' totalLines' : Z) :
  BookConfigManager.loadConfig d f = None ->
  BookConfigManager.getConfigPath f ∉ readonly d ->
  BookConfigManager.loadConfig
    (BookConfigManager.updateProgress d now f progress' totalLines') f
  = Some (freshConfig f progress' totalLines' now None).
Proof.
  intros Hnone Hw. rewrite updateProgress_loads; [| intros c Hc; congruence | exact Hw].
  unfold BookConfigManager.updateProgress_config. rewrite Hnone. reflexivity.
Qed.

(** X10. The first progress update for a file without a config creates one: it
    names the file by its path and base name, carries the given progress and
    line count and the current time, has no pattern and no bookmarks, and is
    what [loadConfig] returns afterwards when the write goes through. *)
Theorem updateProgress_creates_config (d : Disk) (now : Z) (f : jsstring)
    (progress' totalLines' : Z) :
  BookConfigManager.loadConfig d f = None ->
  BookConfigManager.getConfigPath f ∉ readonly d ->
  BookConfigManager.loadConfig
    (BookConfigManager.updateProgress d now f progress' totalLines') f
  = Some (freshConfig f progress' totalLines' now None)
  /\ writeLog (BookConfigManager.updateProgress d now f progress' totalLines')
     = writeLog d ++ [(BookConfigManager.getConfigPath f,
                       freshConfig f progress' totalLines' now None)].
Proof.
  intros Hnone Hw.
  assert (Hcfg : BookConfigManager.updateProgress_config d now f progress' totalLines'
                 = freshConfig f progress' totalLines' now None).
  { unfold BookConfigManager.updateProgress_config. rewrite Hnone. reflexivity. }
  split.
  - rewrite updateProgress_loads; [rewrite Hcfg; reflexivity | | exact Hw].
    intros c Hc. congruence.
  - unfold BookConfigManager.updateProgress. rewrite saveConfig_writeLog, Hcfg. reflexivity.
Qed.

Lemma updateProgress_creates_config_witness :
  BookConfigManager.loadConfig
    (BookConfigManager.updateProgress freshDisk 50 (JS.lit "/books/a.txt") 7 30)
    (JS.lit "/books/a.txt")
  = Some {| filePath := JS.lit "/books/a.txt"; fileName := JS.lit "a.txt";
            progress := 7; totalLines := 30; lastReadTime := 50;
            chapterPattern := None; bookmarks := None |}.
Proof.
  apply (proj1 (updateProgress_creates_config freshDisk 50 (JS.lit "/books/a.txt") 7 30
                  ltac:(vm_compute; reflexivity) ltac:(vm_compute; set_solver))).
Defined.

(** X11. When the config loaded for a path names a file whose sidecar is another
    one (the book was moved or copied with its sidecar), a progress update
    writes that other sidecar: the config loaded for the path stays as it
    was, so the new position is not found on the next opening. *)
Theorem updateProgress_follows_filePath (d : Disk) (now : Z) (f : jsstring)
    (progress' totalLines' : Z) (config : BookConfig) :
  BookConfigManager.loadConfig d f = Some config ->
  BookConfigManager.getConfigPath (filePath config) <> BookConfigManager.getConfigPath f ->
  BookConfigManager.loadConfig
    (BookConfigManager.updateProgress d now f progress' totalLines') f = Some config
  /\ map fst (writeLog (BookConfigManager.updateProgress d now f progress' totalLines'))
     = map fst (writeLog d) ++ [BookConfigManager.getConfigPath (filePath config)].
Proof.
  intros Hload Hne.
  assert (Hcfg : filePath (BookConfigManager.updateProgress_config d now f
                             progress' totalLines') = filePath config).
  { unfold BookConfigManager.updateProgress_config. rewrite Hload. reflexivity. }
  unfold BookConfigManager.updateProgress. split.
  - unfold BookConfigManager.loadConfig in *.
    rewrite saveConfig_other by (rewrite Hcfg; congruence). exact Hload.
  - rewrite saveConfig_writeLog, map_app, Hcfg. reflexivity.
Qed.

Lemma updateProgress_follows_filePath_witness :
  option_map progress
    (BookConfigManager.loadConfig
       (BookConfigManager.updateProgress movedDisk 50 (JS.lit "/books/a.txt") 99 200)
       (JS.lit "/books/a.txt")) = Some 12
  /\ map fst (writeLog (BookConfigManager.updateProgress movedDisk 50
                          (JS.lit "/books/a.txt") 99 200))
     = [JS.lit "/old/a.json"].
Proof.
  destruct (updateProgress_follows_filePath movedDisk 50 (JS.lit "/books/a.txt") 99 200
              {| filePath := JS.lit "/old/a.txt"; fileName := JS.lit "a.txt";
                 progress := 12; totalLines := 200; lastReadTime := 10;
                 chapterPattern := None; bookmarks := None |}) as [Hload Hlog].
  - vm_compute. reflexivity.
  - vm_compute. discriminate.
  - split; [rewrite Hload; reflexivity | exact Hlog].
Defined.

(** X12. When a config exists, [updateChapterPattern] changes its pattern only:
    progress, line count, last reading time and bookmarks are written back as
    loaded, and the source file is not examined. *)
Theorem updateChapterPattern_keeps_other_fields (d : Disk) (now : Z)
    (f pattern : jsstring) (config : BookConfig) :
  BookConfigManager.loadConfig d f = Some config ->
  BookConfigManager.updateChapterPattern d now f pattern
    = Some (fst (BookConfigManager.saveConfig d now (withPattern pattern config)))
  /\ (forall d', BookConfigManager.updateChapterPattern d now f pattern = Some d' ->
        writeLog d'
        = writeLog d ++ [(BookConfigManager.getConfigPath (filePath config),
                          withPattern pattern config)])
  /\ lastReadTime (withPattern pattern config) = lastReadTime config.
Proof.
  intros Hload.
  assert (Heq : BookConfigManager.updateChapterPattern d now f pattern
    = Some (fst (BookConfigManager.saveConfig d now (withPattern pattern config)))).
  { unfold BookConfigManager.updateChapterPattern,
           BookConfigManager.updateChapterPattern_config.
    rewrite Hload. reflexivity. }
  split; [exact Heq |]. split; [| reflexivity].
  intros d' Hd'. rewrite Heq in Hd'. injection Hd' as <-.
  apply (saveConfig_writeLog d now (withPattern pattern config)).
Qed.

Lemma updateChapterPattern_keeps_other_fields_witness :
  option_map (fun d' => map (fun w => (progress (snd w), lastReadTime (snd w))) (writeLog d'))
    (BookConfigManager.updateChapterPattern staleDisk 50 (JS.lit "/books/a.txt")
       (JS.lit "^Chapter"))
  = Some [(100, 5)].
Proof.
  destruct (updateChapterPattern_keeps_other_fields staleDisk 50 (JS.lit "/books/a.txt")
              (JS.lit "^Chapter")
              {| filePath := JS.lit "/books/a.txt"; fileName := JS.lit "a.txt";
                 progress := 100; totalLines := 200; lastReadTime := 5;
                 chapterPattern := None; bookmarks := None |}) as (Heq & _ & _).
  - vm_compute. reflexivity.
  - rewrite Heq. vm_compute. reflexivity.
Defined.

Lemma updateChapterPattern_loads (d : Disk) (now : Z) (f pattern : jsstring) :
  (BookConfigManager.loadConfig d f = None -> is_Some (stats d !! f)) ->
  (forall c, BookConfigManager.loadConfig d f = Some c ->
     BookConfigManager.getConfigPath (filePath c) = BookConfigManager.getConfigPath f) ->
  BookConfigManager.getConfigPath f ∉ readonly d ->
  exists d' config,
    BookConfigManager.updateChapterPattern d now f pattern = Some d'
    /\ BookConfigManager.loadConfig d' f = Some config
    /\ chapterPattern config = Some pattern
    /\ config = match BookConfigManager.loadConfig d f with
                | Some c => withPattern pattern c
                | None => freshConfig f 0 0 now (Some pattern)
                end
    /\ readonly d' = readonly d.
Proof.
  intros Hstat Hpath Hw.
  unfold BookConfigManager.updateChapterPattern,
         BookConfigManager.updateChapterPattern_config.
  destruct (BookConfigManager.loadConfig d f) as [c|] eqn:Hload.
  - eexists _, (withPattern pattern c). split; [reflexivity |].
    split; [| split; [reflexivity | split; [reflexivity | apply saveConfig_frame]]].
    unfold BookConfigManager.loadConfig.
    rewrite <- (Hpath c eq_refl).
    pose proof (saveConfig_written d now (withPattern pattern c)) as Hs.
    unfold withPattern in Hs. cbn [filePath] in Hs.
    rewrite Hs; [reflexivity |]. rewrite (Hpath c eq_refl). exact Hw.
  - destruct (Hstat eq_refl) as [st Hst]. rewrite Hst.
    eexists _, (freshConfig f 0 0 now (Some pattern)). split; [reflexivity |].
    split; [| split; [reflexivity | split; [reflexivity | apply saveConfig_frame]]].
    apply (saveConfig_then_loadConfig d now (freshConfig f 0 0 now (Some pattern)) Hw).
Qed.

(** X13. On a file that exists and has no config, a pattern update followed by a
    progress update, and a progress update followed by a pattern update, both
    leave a config with the pattern and the progress: done one after the
    other, neither update undoes the other. The last reading time is that of
    the progress update. *)
Theorem pattern_and_progress_updates_compose (d : Disk) (t1 t2 : Z)
    (f pattern : jsstring) (progress' totalLines' : Z) :
  BookConfigManager.loadConfig d f = None ->
  is_Some (stats d !! f) ->
  BookConfigManager.getConfigPath f ∉ readonly d ->
  (exists d1,
     BookConfigManager.updateChapterPattern d t1 f pattern = Some d1
     /\ BookConfigManager.loadConfig
          (BookConfigManager.updateProgress d1 t2 f progress' totalLines') f
        = Some (freshConfig f progress' totalLines' t2 (Some pattern)))
  /\ (exists d2,
        BookConfigManager.updateChapterPattern
          (BookConfigManager.updateProgress d t1 f progress' totalLines') t2 f pattern
        = Some d2
        /\ BookConfigManager.loadConfig d2 f
           = Some (freshConfig f progress' totalLines' t1 (Some pattern))).
Proof.
  intros Hnone Hstat Hw. split.
  - destruct (updateChapterPattern_loads d t1 f pattern) as (d1 & c1 & Hd1 & Hl1 & _ & Hc1 & Hro);
      [intros _; exact Hstat | intros c Hc; congruence | exact Hw |].
    rewrite Hnone in Hc1. subst c1.
    exists d1. split; [exact Hd1 |].
    rewrite updateProgress_loads.
    + unfold BookConfigManager.updateProgress_config. rewrite Hl1. reflexivity.
    + intros c Hc. rewrite Hl1 in Hc. injection Hc as <-. reflexivity.
    + rewrite Hro. exact Hw.
  - pose proof (updateProgress_loads_fresh d t1 f progress' totalLines' Hnone Hw) as Hl1.
    assert (Hro : readonly (BookConfigManager.updateProgress d t1 f progress' totalLines')
                  = readonly d) by apply saveConfig_frame.
    destruct (updateChapterPattern_loads
                (BookConfigManager.updateProgress d t1 f progress' totalLines') t2 f pattern)
      as (d2 & c2 & Hd2 & Hl2 & _ & Hc2 & _).
    + intros Hn. rewrite Hl1 in Hn. discriminate.
    + intros c Hc. rewrite Hl1 in Hc. injection Hc as <-. reflexivity.
    + rewrite Hro. exact Hw.
    + rewrite Hl1 in Hc2. subst c2. exists d2. split; [exact Hd2 | exact Hl2].
Qed.

Lemma pattern_and_progress_updates_compose_witness :
  exists d1,
    BookConfigManager.updateChapterPattern freshDisk 50 (JS.lit "/books/a.txt")
      (JS.lit "^Chapter") = Some d1
    /\ BookConfigManager.loadConfig
         (BookConfigManager.updateProgress d1 60 (JS.lit "/books/a.txt") 7 30)
         (JS.lit "/books/a.txt")
       = Some (freshConfig (JS.lit "/books/a.txt") 7 30 60 (Some (JS.lit "^Chapter"))).
Proof.
  apply (proj1 (pattern_and_progress_updates_compose freshDisk 50 60 (JS.lit "/books/a.txt")
                  (JS.lit "^Chapter") 7 30
                  ltac:(vm_compute; reflexivity)
                  ltac:(vm_compute; eexists; reflexivity)
                  ltac:(vm_compute; set_solver))).
Defined.

(** X14. Closing a session and opening the same file again resumes at the line
    the cursor was on, provided the sidecar can be written and the config
    loaded for the path, if any, names a file with that same sidecar. The
    config found on reopening carries the line count of the closed session and
    the time of closing. *)
Theorem close_then_reopen_resumes `{RegExpEngine} (p : TxtReaderProvider) (h : Host)
    (text : option jsstring) :
  BookConfigManager.getConfigPath (fileUri p) ∉ readonly (disk h) ->
  (forall c, BookConfigManager.loadConfig (disk h) (fileUri p) = Some c ->
     BookConfigManager.getConfigPath (filePath c)
     = BookConfigManager.getConfigPath (fileUri p)) ->
  currentLine (fst (show (fileUri p) text (snd (onDidDispose p h)))) = currentLine p
  /\ option_map totalLines
       (bookConfig (fst (show (fileUri p) text (snd (onDidDispose p h)))))
     = Some (linesLength p)
  /\ option_map lastReadTime
       (bookConfig (fst (show (fileUri p) text (snd (onDidDispose p h)))))
     = Some (clock h).
Proof.
  intros Hw Hpath.
  assert (Hdisk : disk (snd (onDidDispose p h))
                  = BookConfigManager.updateProgress (disk h) (clock h) (fileUri p)
                      (currentLine p) (linesLength p)).
  { unfold onDidDispose. destruct (saveProgressTimer p); reflexivity. }
  unfold show. rewrite Hdisk, (updateProgress_loads _ _ _ _ _ Hpath Hw).
  match goal with |- context [scanChapters ?p0 ?h0] =>
    destruct (scanChapters_frame p0 h0) as (_ & _ & Hc & _ & Hb & _);
    destruct (scanChapters p0 h0) as [p1 h1]
  end.
  cbn [fst snd] in *. rewrite Hc, Hb. repeat split.
Qed.

Lemma close_then_reopen_resumes_witness :
  currentLine
    (fst (@show fragment_engine (JS.lit "/books/a.txt") None
            (snd (onDidDispose threeLines (defaultHost emptyDisk))))) = 1.
Proof.
  apply (proj1 (@close_then_reopen_resumes fragment_engine threeLines
                  (defaultHost emptyDisk) None
                  ltac:(vm_compute; set_solver)
                  ltac:(intros c Hc; vm_compute in Hc; discriminate))).
Defined.

Lemma scanChapters_set_disk `{RegExpEngine} (p : TxtReaderProvider) (h : Host) (d : Disk) :
  scanChapters p (set_disk d h)
  = (fst (scanChapters p h), set_disk d (snd (scanChapters p h))).
Proof. unfold scanChapters. simpl. destruct (RegExp_new _); reflexivity. Qed.

(** X15. A new pattern for the document of an open session is not seen by that
    session: rescanning gives the chapters of the pattern loaded when the
    file was opened, whatever the sidecar holds by now. A session opened after
    the update scans with the new pattern. *)
Theorem new_pattern_applies_on_reopen `{RegExpEngine} (p : TxtReaderProvider) (h : Host)
    (now : Z) (c : N) (pattern text : jsstring) (r : regexp) :
  (BookConfigManager.loadConfig (disk h) (fileUri p) = None ->
   is_Some (stats (disk h) !! fileUri p)) ->
  (forall config, BookConfigManager.loadConfig (disk h) (fileUri p) = Some config ->
     BookConfigManager.getConfigPath (filePath config)
     = BookConfigManager.getConfigPath (fileUri p)) ->
  BookConfigManager.getConfigPath (fileUri p) ∉ readonly (disk h) ->
  RegExp_new (c :: pattern) = Some r ->
  exists d',
    BookConfigManager.updateChapterPattern (disk h) now (fileUri p) (c :: pattern) = Some d'
    /\ fst (reloadChapters p (set_disk d' h)) = fst (reloadChapters p h)
    /\ chapters (fst (show (fileUri p) (Some text) (set_disk d' h)))
       = map chapterOf
           (List.filter (fun il => RegExp_test r (JS.trim (snd il)))
              (indexed 0 (JS.split 10 text))).
Proof.
  intros Hstat Hpath Hw Hr.
  destruct (updateChapterPattern_loads (disk h) now (fileUri p) (c :: pattern)
              Hstat Hpath Hw) as (d' & config & Hd' & Hload & Hpat & _).
  exists d'. split; [exact Hd' |]. split.
  - unfold reloadChapters. rewrite scanChapters_set_disk.
    destruct (scanChapters p h) as [p1 h1]. reflexivity.
  - unfold show. cbn [disk set_disk]. rewrite Hload.
    match goal with |- context [scanChapters ?p0 ?h0] =>
      assert (Hactive : activePattern p0 h0 = c :: pattern)
        by (unfold activePattern; cbn [bookConfig]; destruct config; simpl in Hpat;
            rewrite Hpat; reflexivity);
      rewrite (scanChapters_compiled p0 h0 r) by (rewrite Hactive; exact Hr)
    end.
    cbn [fst chapters set_chapters lines]. rewrite scanLines_eq. reflexivity.
Qed.

Lemma new_pattern_applies_on_reopen_witness :
  exists d',
    BookConfigManager.updateChapterPattern freshDisk 50 (JS.lit "/books/a.txt")
      (JS.lit "^正") = Some d'
    /\ map line
         (chapters (fst (@reloadChapters fragment_engine chapterBook
                           (set_disk d' (defaultHost freshDisk))))) = [0; 2]
    /\ map line
         (chapters (fst (@show fragment_engine (JS.lit "/books/a.txt")
                           (Some (joinWith 10 chapterLines))
                           (set_disk d' (defaultHost freshDisk))))) = [1].
Proof.
  destruct (@new_pattern_applies_on_reopen fragment_engine chapterBook
              (defaultHost freshDisk) 50 94%N (JS.lit "正") (joinWith 10 chapterLines)
              (default RegExp.Empty (RegExp.compile (JS.lit "^正"))))
    as (d' & Hd' & Hreload & Hshow).
  - intros _. vm_compute. eexists. reflexivity.
  - intros config Hc. vm_compute in Hc. discriminate.
  - vm_compute. set_solver.
  - vm_compute. reflexivity.
  - exists d'. split; [exact Hd' |]. split.
    + rewrite Hreload. vm_compute. reflexivity.
    + refine (eq_trans (f_equal (map line) Hshow) _). vm_compute. reflexivity.
Defined.

(** *** The directory listing when an entry cannot be examined *)

Lemma collectBooks_app (d : Disk) (dirPath : jsstring) (pre rest : list jsstring)
    (books : list BookConfig) :
  (forall file, In file pre -> JS.endsWith file (JS.lit ".txt") = true ->
     is_Some (stats d !! Path.join dirPath file)) ->
  BookConfigManager.collectBooks d dirPath (pre ++ rest) books
  = BookConfigManager.collectBooks d dirPath rest
      (books ++ map (entryConfig d dirPath) (List.filter (isTxtFile d dirPath) pre)).
Proof.
  revert books. induction pre as [|file pre IH]; intros books Hstat.
  - simpl. rewrite app_nil_r. reflexivity.
  - assert (Hrest : forall f, In f pre -> JS.endsWith f (JS.lit ".txt") = true ->
                      is_Some (stats d !! Path.join dirPath f)).
    { intros f Hf. apply Hstat. right. exact Hf. }
    cbn [app BookConfigManager.collectBooks List.filter]. unfold isTxtFile at 1.
    destruct (JS.endsWith file (JS.lit ".txt")) eqn:E; cbn [andb].
    + destruct (Hstat file (or_introl eq_refl) E) as [st Hst].
      rewrite Hst.
      destruct (isFile st).
      * rewrite (IH _ Hrest). cbn [map]. unfold entryConfig at 2. rewrite Hst.
        rewrite <- app_assoc. reflexivity.
      * apply IH, Hrest.
    + apply IH, Hrest.
Qed.

(** X16. When [stat] fails on an entry whose name ends with [.txt], the listing
    stops there: it holds the books found before that entry, in descending
    order of [lastReadTime], and none of those that come after it. *)
Theorem listing_stops_at_failing_entry (d : Disk) (dirPath bad : jsstring)
    (pre post : list jsstring) :
  dirs d !! dirPath = Some (pre ++ bad :: post) ->
  (forall file, In file pre -> JS.endsWith file (JS.lit ".txt") = true ->
     is_Some (stats d !! Path.join dirPath file)) ->
  JS.endsWith bad (JS.lit ".txt") = true ->
  stats d !! Path.join dirPath bad = None ->
  BookConfigManager.getAllBooksInDirectory d dirPath
  = JS.sort BookConfigManager.byLastReadTime
      (map (entryConfig d dirPath) (List.filter (isTxtFile d dirPath) pre)).
Proof.
  intros Hdir Hpre Hbad Hstat. unfold BookConfigManager.getAllBooksInDirectory.
  rewrite Hdir, (collectBooks_app d dirPath pre (bad :: post) [] Hpre).
  cbn [BookConfigManager.collectBooks]. rewrite Hbad, Hstat. reflexivity.
Qed.

Lemma listing_stops_at_failing_entry_witness :
  map fileName (BookConfigManager.getAllBooksInDirectory brokenLinkDisk (JS.lit "/books"))
  = [JS.lit "a.txt"].
Proof.
  rewrite (listing_stops_at_failing_entry brokenLinkDisk (JS.lit "/books") (JS.lit "b.txt")
             [JS.lit "a.txt"] [JS.lit "c.txt"]).
  - vm_compute. reflexivity.
  - vm_compute. reflexivity.
  - intros file [<- | []] _. vm_compute. eexists. reflexivity.
  - vm_compute. reflexivity.
  - vm_compute. reflexivity.
Defined.

(** ** Further properties of the sidecar path *)

Lemma withoutTxt_append_txt (n : jsstring) : n <> [] -> withoutTxt (n ++ JS.lit ".txt") = n.
Proof.
  intros Hne. unfold withoutTxt.
  rewrite (proj2 (endsWith_iff _ _) (ex_intro _ n eq_refl)).
  assert (Hnot : Path.jsstring_eqb (n ++ JS.lit ".txt") (JS.lit ".txt") = false).
  { apply jsstring_eqb_neq. intros H. apply (f_equal (@length N)) in H.
    rewrite length_app in H. destruct n; [contradiction | simpl in H; lia]. }
  rewrite Hnot. cbn [andb negb]. rewrite length_app.
  change (length (JS.lit ".txt")) with 4%nat. rewrite Nat.add_sub. apply take_app_length.
Qed.

(** X17. Two files of one directory have the same sidecar exactly when their names
    are the same once a final [.txt] is removed. So a file whose name does not
    end with [.txt] shares its sidecar with the file of that name followed by
    [.txt]. *)
Theorem sidecars_collide_iff (dir : list jsstring) (n1 n2 : jsstring) :
  forallb isName dir = true -> isName n1 = true -> isName n2 = true ->
  (BookConfigManager.getConfigPath (fileIn dir n1)
   = BookConfigManager.getConfigPath (fileIn dir n2)
   <-> withoutTxt n1 = withoutTxt n2)
  /\ (JS.endsWith n1 (JS.lit ".txt") = false ->
      BookConfigManager.getConfigPath (fileIn dir n1)
      = BookConfigManager.getConfigPath (fileIn dir (n1 ++ JS.lit ".txt"))).
Proof.
  intros Hdir Hn1 Hn2.
  assert (Hiff : forall m1 m2, isName m1 = true -> isName m2 = true ->
            (BookConfigManager.getConfigPath (fileIn dir m1)
             = BookConfigManager.getConfigPath (fileIn dir m2)
             <-> withoutTxt m1 = withoutTxt m2)).
  { intros m1 m2 Hm1 Hm2. rewrite !getConfigPath_fileIn by assumption. split.
    - intros Heq. apply fileIn_inj in Heq; try assumption;
        try (apply sidecarName_isName; assumption).
      destruct Heq as [_ Heq]. unfold sidecarName in Heq.
      apply app_inv_tail in Heq. exact Heq.
    - intros Heq. unfold sidecarName. rewrite Heq. reflexivity. }
  split; [apply Hiff; assumption |].
  intros Hno. destruct (isName_facts n1 Hn1) as (Hne & Hsl & _).
  assert (Htxt : isName (n1 ++ JS.lit ".txt") = true).
  { apply isName_intro.
    - unfold slashFree. apply List.Forall_app. split; [exact Hsl |].
      change (JS.lit ".txt") with [46; 116; 120; 116]%N. repeat constructor; discriminate.
    - rewrite length_app. change (length (JS.lit ".txt")) with 4%nat. lia. }
  apply (Hiff n1 (n1 ++ JS.lit ".txt") Hn1 Htxt).
  rewrite withoutTxt_append_txt by exact Hne.
  unfold withoutTxt. rewrite Hno. reflexivity.
Qed.

Lemma sidecars_collide_iff_witness :
  BookConfigManager.getConfigPath (JS.lit "/books/notes")
  = BookConfigManager.getConfigPath (JS.lit "/books/notes.txt").
Proof.
  apply (proj2 (sidecars_collide_iff [JS.lit "books"] (JS.lit "notes") (JS.lit "notes")
                  ltac:(vm_compute; reflexivity) ltac:(vm_compute; reflexivity)
                  ltac:(vm_compute; reflexivity))).
  vm_compute. reflexivity.
Defined.

(** X18. The sidecar of a file is never the file itself: its path ends with
    [.json] and differs from the source path, whatever the file's name. So
    [saveConfig] never writes to the file that its record names, and leaves
    what is at that path as it is. This does not protect the document that a
    session has open: when the config loaded for a document names a file
    whose sidecar is that document, a progress update writes to the
    document. *)
Theorem sidecar_is_not_the_source (dir : list jsstring) (file : jsstring)
    (d : Disk) (now : Z) (config : BookConfig) :
  forallb isName dir = true -> isName file = true ->
  filePath config = fileIn dir file ->
  BookConfigManager.getConfigPath (fileIn dir file) <> fileIn dir file
  /\ JS.endsWith (BookConfigManager.getConfigPath (fileIn dir file)) (JS.lit ".json") = true
  /\ (exists path,
        writeLog (fst (BookConfigManager.saveConfig d now config))
        = writeLog d ++ [(path, config)]
        /\ path <> filePath config)
  /\ sidecars (fst (BookConfigManager.saveConfig d now config)) !! filePath config
     = sidecars d !! filePath config
  /\ stats (fst (BookConfigManager.saveConfig d now config)) !! filePath config
     = stats d !! filePath config
  /\ (forall (doc : jsstring) (loaded : BookConfig) (progress' totalLines' : Z),
        BookConfigManager.loadConfig d doc = Some loaded ->
        BookConfigManager.getConfigPath (filePath loaded) = doc ->
        map fst (writeLog (BookConfigManager.updateProgress d now doc progress' totalLines'))
        = map fst (writeLog d) ++ [doc]).
Proof.
  intros Hdir Hfile Hpath.
  assert (Hne : BookConfigManager.getConfigPath (fileIn dir file) <> fileIn dir file).
  { rewrite getConfigPath_fileIn by assumption.
    intros Heq. apply fileIn_inj in Heq; try assumption;
      [| apply sidecarName_isName; assumption].
    destruct Heq as [_ Heq]. unfold sidecarName in Heq.
    destruct (withoutTxt_cases file) as [Hsame | (c & stem & Hf & Hw)].
    + rewrite Hsame in Heq. apply (f_equal (@length N)) in Heq.
      rewrite length_app in Heq. simpl in Heq. lia.
    + rewrite Hw in Heq. rewrite Hf in Heq. apply app_inv_head in Heq.
      discriminate Heq. }
  split; [exact Hne |].
  split.
  { rewrite getConfigPath_fileIn by assumption.
    apply endsWith_iff. rewrite fileIn_eq. unfold sidecarName.
    exists (absolute dir ++ Path.SLASH :: withoutTxt file).
    rewrite <- app_assoc. reflexivity. }
  split.
  { eexists. split; [apply saveConfig_writeLog |]. rewrite Hpath. exact Hne. }
  split.
  { apply saveConfig_other. rewrite Hpath. congruence. }
  split.
  { unfold BookConfigManager.saveConfig.
    repeat case_decide; cbn [fst BookConfigManager.store stats]; try reflexivity;
      apply lookup_insert_ne; rewrite Hpath; exact Hne. }
  intros doc loaded progress' totalLines' Hload Hdoc.
  unfold BookConfigManager.updateProgress. rewrite saveConfig_writeLog, map_app.
  unfold BookConfigManager.updateProgress_config. rewrite Hload. cbn [filePath map fst].
  rewrite Hdoc. reflexivity.
Qed.

Lemma sidecar_is_not_the_source_witness :
  BookConfigManager.getConfigPath (JS.lit "/books/a.txt") <> JS.lit "/books/a.txt"
  /\ map fst (writeLog (BookConfigManager.updateProgress nestedDisk 50
                          (JS.lit "/books/a.json") 7 10))
     = [JS.lit "/books/a.json"].
Proof.
  destruct (sidecar_is_not_the_source [JS.lit "books"] (JS.lit "a.txt") nestedDisk 50
              (freshConfig (JS.lit "/books/a.txt") 7 10 50 None))
    as (Hne & _ & _ & _ & _ & Hdoc); try (vm_compute; reflexivity).
  split; [exact Hne |].
  apply (Hdoc (JS.lit "/books/a.json")
              {| filePath := JS.lit "/books/a.txt"; fileName := JS.lit "a.txt";
                 progress := 3; totalLines := 10; lastReadTime := 5;
                 chapterPattern := None; bookmarks := None |} 7 10).
  - vm_compute. reflexivity.
  - vm_compute. reflexivity.
Defined.

(** ** The label of the last reading time *)

(** X19. The label counts whole minutes up to 59, then whole hours up to 23, then
    whole days up to 6, and gives the date from seven days on; less than a
    minute, and any time in the future, reads as just now. It never shows
    zero minutes, hours or days. *)
Theorem formatLastReadTime_brackets (now t : Z) :
  (now - t < 60000 -> BookConfigManager.formatLastReadTime now t = BookConfigManager.justNow)
  /\ (60000 <= now - t < 3600000 ->
      exists n, BookConfigManager.formatLastReadTime now t = BookConfigManager.minutesAgo n
                /\ 1 <= n <= 59 /\ 60000 * n <= now - t < 60000 * (n + 1))
  /\ (3600000 <= now - t < 86400000 ->
      exists n, BookConfigManager.formatLastReadTime now t = BookConfigManager.hoursAgo n
                /\ 1 <= n <= 23 /\ 3600000 * n <= now - t < 3600000 * (n + 1))
  /\ (86400000 <= now - t < 604800000 ->
      exists n, BookConfigManager.formatLastReadTime now t = BookConfigManager.daysAgo n
                /\ 1 <= n <= 6 /\ 86400000 * n <= now - t < 86400000 * (n + 1))
  /\ (604800000 <= now - t ->
      BookConfigManager.formatLastReadTime now t = BookConfigManager.onDate t).
Proof.
  unfold BookConfigManager.formatLastReadTime.
  pose proof (Z.div_mod (now - t) 60000 ltac:(lia)) as Hm.
  pose proof (Z.mod_pos_bound (now - t) 60000 ltac:(lia)) as Hmb.
  pose proof (Z.div_mod (now - t) 3600000 ltac:(lia)) as Hh.
  pose proof (Z.mod_pos_bound (now - t) 3600000 ltac:(lia)) as Hhb.
  pose proof (Z.div_mod (now - t) 86400000 ltac:(lia)) as Hd.
  pose proof (Z.mod_pos_bound (now - t) 86400000 ltac:(lia)) as Hdb.
  set (m := (now - t) / 60000) in *. set (hr := (now - t) / 3600000) in *.
  set (dy := (now - t) / 86400000) in *.
  split; [| split; [| split; [| split]]]; intros Hrange.
  - destruct (m <? 1) eqn:E1; [reflexivity | apply Z.ltb_ge in E1; lia].
  - destruct (m <? 1) eqn:E1; [apply Z.ltb_lt in E1; lia |].
    destruct (m <? 60) eqn:E2; [| apply Z.ltb_ge in E2; lia].
    apply Z.ltb_ge in E1. apply Z.ltb_lt in E2. exists m. split; [reflexivity | lia].
  - destruct (m <? 1) eqn:E1; [apply Z.ltb_lt in E1; lia |].
    destruct (m <? 60) eqn:E2; [apply Z.ltb_lt in E2; lia |].
    destruct (hr <? 24) eqn:E3; [| apply Z.ltb_ge in E3; lia].
    apply Z.ltb_lt in E3. exists hr. split; [reflexivity | lia].
  - destruct (m <? 1) eqn:E1; [apply Z.ltb_lt in E1; lia |].
    destruct (m <? 60) eqn:E2; [apply Z.ltb_lt in E2; lia |].
    destruct (hr <? 24) eqn:E3; [apply Z.ltb_lt in E3; lia |].
    destruct (dy <? 7) eqn:E4; [| apply Z.ltb_ge in E4; lia].
    apply Z.ltb_lt in E4. exists dy. split; [reflexivity | lia].
  - destruct (m <? 1) eqn:E1; [apply Z.ltb_lt in E1; lia |].
    destruct (m <? 60) eqn:E2; [apply Z.ltb_lt in E2; lia |].
    destruct (hr <? 24) eqn:E3; [apply Z.ltb_lt in E3; lia |].
    destruct (dy <? 7) eqn:E4; [apply Z.ltb_lt in E4; lia | reflexivity].
Qed.

Lemma formatLastReadTime_brackets_witness :
  BookConfigManager.formatLastReadTime 1000 5000 = BookConfigManager.justNow
  /\ (exists n, BookConfigManager.formatLastReadTime 3599999 0 = BookConfigManager.minutesAgo n
                /\ 1 <= n <= 59 /\ 60000 * n <= 3599999 - 0 < 60000 * (n + 1))
  /\ BookConfigManager.formatLastReadTime 604800000 0 = BookConfigManager.onDate 0.
Proof.
  destruct (formatLastReadTime_brackets 1000 5000) as (Hnow & _).
  destruct (formatLastReadTime_brackets 3599999 0) as (_ & Hmin & _).
  destruct (formatLastReadTime_brackets 604800000 0) as (_ & _ & _ & _ & Hdate).
  split; [apply Hnow; lia |]. split; [apply Hmin; lia | apply Hdate; lia].
Defined.

(** ** The current chapter in the webview *)

Lemma updateCurrentChapter_snoc (cs : list Chapter) (c : Chapter) (l : Z) :
  Webview.updateCurrentChapter (cs ++ [c]) l
  = if l >=? line c then (Some c, Z.of_nat (length cs))
    else Webview.updateCurrentChapter cs l.
Proof.
  unfold Webview.updateCurrentChapter. rewrite rev_app_distr, length_app. simpl.
  replace (Z.of_nat (length cs + 1) - 1) with (Z.of_nat (length cs)) by lia.
  destruct (l >=? line c); reflexivity.
Qed.

(** X20. The chapter shown as current is the last one of the list that starts at
    or before the given line: every chapter after it starts later. No chapter
    is current, and the index is [-1], exactly when every chapter starts after
    the line. When the chapters are in ascending order of their lines, as a
    scan leaves them, no chapter before the current one starts after it. *)
Theorem updateCurrentChapter_last_started (cs : list Chapter) (l : Z) :
  (forall c i, Webview.updateCurrentChapter cs l = (Some c, i) ->
     0 <= i < Z.of_nat (length cs)
     /\ cs !! Z.to_nat i = Some c
     /\ line c <= l
     /\ (forall (j : nat) c', i < Z.of_nat j -> cs !! j = Some c' -> l < line c')
     /\ (StronglySorted (fun a b => line a < line b) cs ->
         forall (j : nat) c', Z.of_nat j < i -> cs !! j = Some c' -> line c' < line c))
  /\ (fst (Webview.updateCurrentChapter cs l) = None <-> Forall (fun c => l < line c) cs)
  /\ (fst (Webview.updateCurrentChapter cs l) = None ->
      snd (Webview.updateCurrentChapter cs l) = -1).
Proof.
  induction cs as [|x cs IH] using rev_ind.
  - split; [intros c i Hc; discriminate |].
    split; [split; [constructor | reflexivity] | reflexivity].
  - destruct IH as (IHsome & IHnone & IHidx).
    rewrite updateCurrentChapter_snoc.
    destruct (l >=? line x) eqn:E.
    + apply Z.geb_le in E. split; [| split].
      * intros c i Hc. injection Hc as <- <-. rewrite length_app. simpl.
        split; [lia |]. rewrite Nat2Z.id.
        split; [rewrite lookup_app_r, Nat.sub_diag by lia; reflexivity |].
        split; [exact E |]. split.
        -- intros j c' Hj Hc'. apply lookup_lt_Some in Hc'.
           rewrite length_app in Hc'. simpl in Hc'. lia.
        -- intros Hsorted j c' Hj Hc'.
           rewrite lookup_app_l in Hc' by lia.
           assert (Hall : Forall (fun a => line a < line x) cs).
           { clear -Hsorted. induction cs as [|a cs IHcs]; [constructor |].
             simpl in Hsorted. inversion Hsorted as [|? ? Hs Ha]; subst.
             constructor.
             - apply (proj1 (List.Forall_forall _ _) Ha x). apply in_or_app. right.
               left. reflexivity.
             - apply IHcs, Hs. }
           apply (proj1 (List.Forall_forall _ _) Hall c').
           apply list_elem_of_In. apply list_elem_of_lookup. exists j. exact Hc'.
      * simpl. split; [discriminate |]. intros Hall.
        apply List.Forall_app in Hall. destruct Hall as [_ Hx]. inversion Hx. lia.
      * simpl. discriminate.
    + assert (Hlt : l < line x).
      { destruct (Z.lt_ge_cases l (line x)) as [Hlt | Hge]; [exact Hlt |].
        apply Z.geb_le in Hge. congruence. }
      split; [| split].
      * intros c i Hc. destruct (IHsome c i Hc) as (Hi & Hlook & Hle & Hafter & Hbefore).
        rewrite length_app. simpl.
        split; [lia |].
        split; [rewrite lookup_app_l by lia; exact Hlook |].
        split; [exact Hle |]. split.
        -- intros j c' Hj Hc'.
           destruct (Nat.lt_ge_cases j (length cs)) as [Hjl | Hjg].
           ++ rewrite lookup_app_l in Hc' by exact Hjl. apply (Hafter j c' Hj Hc').
           ++ rewrite lookup_app_r in Hc' by exact Hjg.
              destruct (j - length cs)%nat; simpl in Hc'; [| discriminate].
              injection Hc' as <-. exact Hlt.
        -- intros Hsorted j c' Hj Hc'.
           rewrite lookup_app_l in Hc' by lia.
           apply (Hbefore ltac:(
                    clear -Hsorted; induction cs as [|a cs IHcs]; [constructor |];
                    simpl in Hsorted; inversion Hsorted as [|? ? Hs Ha]; subst;
                    constructor; [apply IHcs, Hs |];
                    apply List.Forall_app in Ha; tauto) j c' Hj Hc').
      * rewrite IHnone. split.
        -- intros Hall. apply List.Forall_app. split; [exact Hall |].
           constructor; [exact Hlt | constructor].
        -- intros Hall. apply List.Forall_app in Hall. tauto.
      * exact IHidx.
Qed.

Lemma updateCurrentChapter_last_started_witness :
  15 < line {| name := JS.lit "c"; line := 20 |}.
Proof.
  destruct (updateCurrentChapter_last_started
              [ {| name := JS.lit "a"; line := 0 |}; {| name := JS.lit "b"; line := 10 |};
                {| name := JS.lit "c"; line := 20 |} ] 15) as (Hsome & _).
  destruct (Hsome {| name := JS.lit "b"; line := 10 |} 1 ltac:(vm_compute; reflexivity))
    as (_ & _ & _ & Hafter & _).
  apply (Hafter 2%nat {| name := JS.lit "c"; line := 20 |}); [lia | reflexivity].
Defined.

(** ** Examples *)

Example lit_ascii : JS.lit "a.txt" = [97; 46; 116; 120; 116]%N.
Proof. reflexivity. Qed.

Example lit_cjk : JS.lit "第一章 标题" = [31532; 19968; 31456; 32; 26631; 39064]%N.
Proof. vm_compute. reflexivity. Qed.

Example trim_both_ends : JS.trim (JS.lit "  第一章 标题 ") = JS.lit "第一章 标题".
Proof. vm_compute. reflexivity. Qed.

Example split_lines :
  JS.split 10 (JS.lit "a" ++ 10%N :: JS.lit "b" ++ [10%N]) = [JS.lit "a"; JS.lit "b"; []].
Proof. vm_compute. reflexivity. Qed.

Example dirname_nested : Path.dirname (JS.lit "/d/e/a.txt") = JS.lit "/d/e".
Proof. vm_compute. reflexivity. Qed.

Example dirname_root : Path.dirname (JS.lit "/a.txt") = JS.lit "/".
Proof. vm_compute. reflexivity. Qed.

Example dirname_relative : Path.dirname (JS.lit "a.txt") = JS.lit ".".
Proof. vm_compute. reflexivity. Qed.

Example basename_strips_txt :
  Path.basename (JS.lit "/d/e/a.txt") (Some (JS.lit ".txt")) = JS.lit "a".
Proof. vm_compute. reflexivity. Qed.

Example basename_keeps_other_extension :
  Path.basename (JS.lit "/d/e/a.md") (Some (JS.lit ".txt")) = JS.lit "a.md".
Proof. vm_compute. reflexivity. Qed.

Example basename_is_case_sensitive :
  Path.basename (JS.lit "/d/e/a.TXT") (Some (JS.lit ".txt")) = JS.lit "a.TXT".
Proof. vm_compute. reflexivity. Qed.

Example basename_keeps_bare_suffix :
  Path.basename (JS.lit "/d/e/.txt") (Some (JS.lit ".txt")) = JS.lit ".txt".
Proof. vm_compute. reflexivity. Qed.

Example basename_one_argument : Path.basename (JS.lit "/d/e/a.txt") None = JS.lit "a.txt".
Proof. vm_compute. reflexivity. Qed.

Example join_resolves_dots :
  Path.join (JS.lit "/d/e/../f") (JS.lit "a.json") = JS.lit "/d/f/a.json".
Proof. vm_compute. reflexivity. Qed.

Example join_root : Path.join (JS.lit "/") (JS.lit "a.json") = JS.lit "/a.json".
Proof. vm_compute. reflexivity. Qed.

Example normalize_relative :
  Path.normalize (JS.lit "../../a/./b//c/../") = JS.lit "../../a/b/".
Proof. vm_compute. reflexivity. Qed.

Example getConfigPath_no_extension :
  BookConfigManager.getConfigPath (JS.lit "/books/a") = JS.lit "/books/a.json".
Proof. vm_compute. reflexivity. Qed.

Example getConfigPath_upper_case :
  BookConfigManager.getConfigPath (JS.lit "/books/c.TXT") = JS.lit "/books/c.TXT.json".
Proof. vm_compute. reflexivity. Qed.

Example chapter_pattern_accepts :
  option_map
    (fun r => map (fun s => RegExp.test r (JS.trim (JS.lit s)))
                ["第一章 标题"; "正文"; "  第十二节   x "; "第章 x"; "a第一章 x";
                 "第一章x"]%string)
    (RegExp.compile (defaultChapterPattern (defaultHost emptyDisk)))
  = Some [true; false; true; false; false; false].
Proof. vm_compute. reflexivity. Qed.

Example unanchored_pattern :
  option_map
    (fun r => map (fun s => RegExp.test r (JS.lit s)) ["序章"; "第一章"; "abc"]%string)
    (RegExp.compile (JS.lit ".*章.*"))
  = Some [true; true; false].
Proof. vm_compute. reflexivity. Qed.

Example unbalanced_pattern_rejected : RegExp.compile (JS.lit "^Chapter(\s+[0-9]+") = None.
Proof. vm_compute. reflexivity. Qed.

Example scanChapters_bad_pattern :
  (chapters (fst (@scanChapters fragment_engine
                    {| panel := true; lines := chapterLines; currentLine := 0;
                       chapters := [{| name := JS.lit "old"; line := 7 |}];
                       fileUri := JS.lit "/books/a.txt";
                       bookConfig :=
                         Some {| filePath := JS.lit "/books/a.txt";
                                 fileName := JS.lit "a.txt"; progress := 0;
                                 totalLines := 3; lastReadTime := 0;
                                 chapterPattern := Some (JS.lit "(");
                                 bookmarks := None |};
                       saveProgressTimer := None |}
                    (defaultHost emptyDisk))),
   shown (snd (@scanChapters fragment_engine
                    {| panel := true; lines := chapterLines; currentLine := 0;
                       chapters := [{| name := JS.lit "old"; line := 7 |}];
                       fileUri := JS.lit "/books/a.txt";
                       bookConfig :=
                         Some {| filePath := JS.lit "/books/a.txt";
                                 fileName := JS.lit "a.txt"; progress := 0;
                                 totalLines := 3; lastReadTime := 0;
                                 chapterPattern := Some (JS.lit "(");
                                 bookmarks := None |};
                       saveProgressTimer := None |}
                    (defaultHost emptyDisk))))
  = ([], [chapterPatternError]).
Proof. vm_compute. reflexivity. Qed.

Example sort_is_stable :
  map fst (JS.sort (fun a b : nat * Z => snd b - snd a)
             [(1%nat, 5); (2%nat, 9); (3%nat, 5); (4%nat, 9)])
  = [2%nat; 4%nat; 1%nat; 3%nat].
Proof. vm_compute. reflexivity. Qed.

Example burst_then_quiet :
  map (fun w => (progress (snd w), totalLines (snd w), lastReadTime (snd w)))
    (writeLog (disk (snd (run (burst [(1, 500); (0, 1999)]
                                 ++ [msgUpdateProgress 2; elapse 2000])
                            (threeLines, defaultHost emptyDisk)))))
  = [(2, 3, 4499)].
Proof. vm_compute. reflexivity. Qed.

Example quiet_between_reports :
  map (fun w => progress (snd w))
    (writeLog (disk (snd (run [msgUpdateProgress 1; elapse 2000; msgUpdateProgress 2;
                               elapse 100; dispose; elapse 5000]
                            (threeLines, defaultHost emptyDisk)))))
  = [1; 2].
Proof. vm_compute. reflexivity. Qed.

Example close_on_locked_sidecar :
  map (fun w => progress (snd w))
    (writeLog (disk (snd (run [msgUpdateProgress 1; dispose]
                            (threeLines, defaultHost lockedDisk))))) = [1]
  /\ persisted threeLines
       (disk (snd (run [msgUpdateProgress 1; dispose] (threeLines, defaultHost lockedDisk))))
     = None.
Proof. split; vm_compute; reflexivity. Qed.

Example close_on_full_device :
  persisted threeLines (disk (defaultHost fullDisk)) = Some 100
  /\ persisted threeLines
       (disk (snd (run [msgUpdateProgress 1; dispose] (threeLines, defaultHost fullDisk))))
     = None.
Proof. split; vm_compute; reflexivity. Qed.

Example formatLastReadTime_hours :
  BookConfigManager.formatLastReadTime (5 * 3600000 + 59 * 60000) 0
  = BookConfigManager.hoursAgo 5.
Proof. reflexivity. Qed.

Example formatLastReadTime_future :
  BookConfigManager.formatLastReadTime 0 86400000 = BookConfigManager.justNow.
Proof. reflexivity. Qed.

Example updateCurrentChapter_between :
  Webview.updateCurrentChapter
    [ {| name := JS.lit "a"; line := 3 |}; {| name := JS.lit "b"; line := 10 |} ] 9
  = (Some {| name := JS.lit "a"; line := 3 |}, 0).
Proof. reflexivity. Qed.

Example updateCurrentChapter_before_first :
  Webview.updateCurrentChapter
    [ {| name := JS.lit "a"; line := 3 |}; {| name := JS.lit "b"; line := 10 |} ] 2
  = (None, -1).
Proof. reflexivity. Qed.

Example scrollDown_without_lines :
  currentLine (fst (scrollDown (fst (@show fragment_engine (JS.lit "/books/a.txt") None
                                       (defaultHost emptyDisk)))
                      (defaultHost emptyDisk))) = -1.
Proof. vm_compute. reflexivity. Qed.

Example toNumber_as_SpecFloat :
  forallb (fun z => match JS.toInteger (JS.ofInteger z) with
                    | Some x => x =? JS.toNumber z
                    | None => false
                    end)
    [0; 1; -1; 2 ^ 53 - 1; 2 ^ 53; 2 ^ 53 + 1; 2 ^ 53 + 2; 2 ^ 53 + 3; - (2 ^ 53 + 1);
     - (2 ^ 53 + 3); 2 ^ 54 + 2; 2 ^ 54 + 5; 2 ^ 54 + 6; 2 ^ 54 + 7; 2 ^ 60 + 1;
     2 ^ 100 + 2 ^ 47; 2 ^ 100 + 2 ^ 47 + 1; 2 ^ 100 + 2 ^ 48 + 2 ^ 47;
     2 ^ 1024 - 2 ^ 971; 2 ^ 1024 - 2 ^ 970 - 1; 2 ^ 1024 - 2 ^ 970;
     - (2 ^ 1024 - 2 ^ 970); 2 ^ 1024 - 1; 2 ^ 1024; 2 ^ 1025; - 2 ^ 2000]
  = true.
Proof. vm_compute. reflexivity. Qed.

Example sub_as_SpecFloat :
  JS.toInteger (SFsub 53 1024 (JS.ofInteger (2 ^ 53 + 2)) (JS.ofInteger 1))
  = Some (JS.sub (2 ^ 53 + 2) 1)
  /\ JS.toInteger (SFadd 53 1024 (JS.ofInteger (2 ^ 1023)) (JS.ofInteger (2 ^ 1023)))
     = Some (JS.add (2 ^ 1023) (2 ^ 1023))
  /\ JS.toInteger (SFadd 53 1024 (S754_infinity false) (JS.ofInteger (- 2 ^ 1023)))
     = Some (JS.add JS.INFINITY (- 2 ^ 1023)).
Proof. repeat split; vm_compute; reflexivity. Qed.

Example scrollUp_rounds :
  currentLine (fst (scrollUp (set_currentLine (2 ^ 53 + 2) threeLines)
                      {| scrollStep := 1; defaultChapterPattern := [];
                         clock := 0; timers := []; nextTimer := 0%nat; disk := emptyDisk;
                         posted := []; shown := [] |}))
  = 2 ^ 53.
Proof. vm_compute. reflexivity. Qed.

Example scrollUp_negative_step :
  currentLine (fst (scrollUp threeLines
                      {| scrollStep := -5; defaultChapterPattern := [];
                         clock := 0; timers := []; nextTimer := 0%nat; disk := emptyDisk;
                         posted := []; shown := [] |}))
  = 6.
Proof. vm_compute. reflexivity. Qed.
